(** * datagrid-gtk3: a shallow embedding of the grid model, the tree view's
    bookkeeping, the controller's filter handling and the image utilities.

    Sources embedded here:
    - [datagrid_gtk3/utils/imageutils.py]: [get_icon_for_file],
      [add_drop_shadow];
    - [datagrid_gtk3/ui/grid.py]: [DataGridModel] ([refresh], [add_rows],
      [set_value], [get_formatted_value], [_get_row_by_path], ...),
      [DataGridView] ([_get_best_column_width], [_get_expandable_ids],
      [_check_all_expanded], the expand/collapse callbacks) and
      [DataGridController] ([on_date_change], [_refresh_view], ...).

    Python values are embedded as inductive types, dictionaries as [gmap],
    sets as [gset], and an operation that may raise returns a [result].
    Stateful methods are functions in a state-and-exception monad over the
    object they mutate: a raised exception keeps the mutations made before
    it, as in Python. *)

From Stdlib Require Import ZArith String Ascii List Bool Lia.
From stdpp Require Import base option list gmap strings.
Import ListNotations.
Open Scope Z_scope.

(** ** Python basics *)

Module Py.

(** The exceptions the embedded code can raise.  [RecursionError] is what a
    fuel-bounded recursion returns when its fuel is spent. *)
Inductive exn :=
| IndexError | TypeError | ValueError | AttributeError | UnboundLocalError
| RecursionError.

Inductive result (A : Type) :=
| Ok (a : A)
| Raise (e : exn).
Arguments Ok {A} a.
Arguments Raise {A} e.

Definition is_ok {A} (r : result A) : bool :=
  match r with Ok _ => true | Raise _ => false end.

Definition rbind {A B} (r : result A) (f : A → result B) : result B :=
  match r with Ok a => f a | Raise e => Raise e end.

#[global] Instance result_ret : MRet result := @Ok.
#[global] Instance result_bind : MBind result := λ A B f r, rbind r f.

(** [seq[i]] for a Python [int] index: negative indices count from the end,
    anything outside [-len, len) raises [IndexError]. *)
Definition norm_index (len : nat) (i : Z) : result nat :=
  if (0 <=? i) && (i <? Z.of_nat len) then Ok (Z.to_nat i)
  else if (- Z.of_nat len <=? i) && (i <? 0) then Ok (Z.to_nat (Z.of_nat len + i))
  else Raise IndexError.

Definition getitem {A} (l : list A) (i : Z) : result A :=
  match norm_index (length l) i with
  | Ok n => match l !! n with Some x => Ok x | None => Raise IndexError end
  | Raise e => Raise e
  end.

(** [seq[i] = x] on a list. *)
Definition setitem {A} (l : list A) (i : Z) (x : A) : result (list A) :=
  match norm_index (length l) i with
  | Ok n => Ok (<[n:=x]> l)
  | Raise e => Raise e
  end.

(** [s.split(sep)] for a one-character separator. *)
Fixpoint split (sep : ascii) (s : string) : list string :=
  match s with
  | EmptyString => [EmptyString]
  | String c rest =>
      if Ascii.eqb c sep then EmptyString :: split sep rest
      else match split sep rest with
           | piece :: more => String c piece :: more
           | [] => [String c EmptyString]
           end
  end.

Fixpoint contains (c : ascii) (s : string) : bool :=
  match s with
  | EmptyString => false
  | String c' rest => Ascii.eqb c' c || contains c rest
  end.

(** [a, b = seq]: unpacking into two names. *)
Definition unpack2 {A} (l : list A) : result (A * A) :=
  match l with
  | [a; b] => Ok (a, b)
  | _ => Raise ValueError
  end.

End Py.
Import Py.

(** ** Image utilities ([datagrid_gtk3/utils/imageutils.py]) *)

Module ImageUtils.

(** [Gtk.IconInfo]: only [get_filename] is used; it is [None] for an icon
    that has no file of its own. *)
Record IconInfo := { get_filename : option string }.

Inductive IconLookupFlags := NO_SVG.

Section IconForFile.

(** What the lookup reads from its environment: the file system
    ([os.path.isdir]), the mimetypes table ([mimetypes.guess_type(f)[0]])
    and the default icon theme, whose [choose_icon] yields [None] when
    none of the names can be satisfied. *)
Variable isdir : string → bool.
Variable guess_type : string → option string.
Variable choose_icon : list string → Z → IconLookupFlags → option IconInfo.

(** [mimetypes.guess_type(filename)[0] or 'unknown/unknown'] *)
Definition guessed_mime (filename : string) : string :=
  match guess_type filename with
  | Some s => if decide (s = "") then "unknown/unknown" else s
  | None => "unknown/unknown"
  end.

Definition mimetype_details (filename : string) : result (string * string) :=
  if isdir filename then Ok ("folder", "folder")
  else unpack2 (split "/" (guessed_mime filename)).

Definition icon_list (mimetype details : string) : list string :=
  [mimetype +:+ "-" +:+ details; details; mimetype]
  ++ (if decide (mimetype = "application")
      then ["application-x-" +:+ details] else [])
  ++ [mimetype +:+ "-x-generic"]
  ++ ["unknown"].

(** The names handed to the icon theme for [filename]. *)
Definition icon_candidates (filename : string) : result (list string) :=
  '(mimetype, details) ← mimetype_details filename;
  Ok (icon_list mimetype details).

(** [return icon.get_filename()]: on [None] the attribute lookup raises. *)
Definition icon_filename (icon : option IconInfo) : result (option string) :=
  match icon with
  | Some info => Ok (get_filename info)
  | None => Raise AttributeError
  end.

Definition get_icon_for_file (filename : string) (size : Z)
  : result (option string) :=
  names ← icon_candidates filename;
  icon_filename (choose_icon names size NO_SVG).

End IconForFile.

(** *** Drop shadows and their process-wide cache *)

Definition rgba : Type := Z * Z * Z * Z.
Definition shadow_key : Type := Z * Z * Z * Z * (Z * Z) * rgba.

Section DropShadow.

(** The PIL operations the function uses.  Images are values here: the
    source only ever pastes onto an image it has just created or copied,
    so [copy()] is the identity and the cached canvas is never touched by
    a later paste. *)
Variable Image : Type.
Variable image_size : Image → Z * Z.
Variable Image_new : Z * Z → rgba → Image.
Variable paste_color : Image → rgba → Z * Z * Z * Z → Image.
Variable paste_image : Image → Image → Z * Z → Image.
Variable blur : Image → Image.

(** [_drop_shadows_cache], together with a counter of the blur filter's
    applications. *)
Record shadow_state := {
  _drop_shadows_cache : gmap shadow_key Image;
  blur_calls : nat
}.

Definition canvas_size (image : Image) (border_size : Z) (offset : Z * Z)
  : Z * Z :=
  ((image_size image).1 + Z.abs offset.1 + 2 * border_size,
   (image_size image).2 + Z.abs offset.2 + 2 * border_size).

Definition key_of (image : Image) (iterations border_size : Z)
    (offset : Z * Z) (shadow_color : rgba) : shadow_key :=
  let '(width, height) := canvas_size image border_size offset in
  (width, height, iterations, border_size, offset, shadow_color).

(** The [else] branch up to the blur loop: the canvas with the shadow
    rectangle painted on it. *)
Definition shadow_rectangle (image : Image) (border_size : Z)
    (offset : Z * Z) (shadow_color : rgba) : Image :=
  let shadow := Image_new (canvas_size image border_size offset)
                          (255, 255, 255, 0) in
  let shadow_lft := border_size + Z.max offset.1 0 in
  let shadow_top := border_size + Z.max offset.2 0 in
  paste_color shadow shadow_color
    (shadow_lft, shadow_top,
     shadow_lft + (image_size image).1, shadow_top + (image_size image).2).

(** [for i in range(iterations): shadow = shadow.filter(BLUR)] *)
Definition blur_loop (iterations : Z) (shadow : Image) (calls : nat)
  : Image * nat :=
  Nat.iter (Z.to_nat iterations) (λ sc, (blur sc.1, S sc.2)) (shadow, calls).

(** The canvas a cache miss computes: the shadow rectangle blurred
    [iterations] times. *)
Definition blurred_shadow (image : Image) (iterations border_size : Z)
    (offset : Z * Z) (shadow_color : rgba) : Image :=
  Nat.iter (Z.to_nat iterations) blur
    (shadow_rectangle image border_size offset shadow_color).

Definition image_position (border_size : Z) (offset : Z * Z) : Z * Z :=
  (border_size - Z.min offset.1 0, border_size - Z.min offset.2 0).

Definition add_drop_shadow (image : Image) (iterations border_size : Z)
    (offset : Z * Z) (shadow_color : rgba) (st : shadow_state)
  : Image * shadow_state :=
  let key := key_of image iterations border_size offset shadow_color in
  let '(shadow, st') :=
    match _drop_shadows_cache st !! key with
    | Some existing_shadow => (existing_shadow, st)
    | None =>
        let '(shadow, calls) :=
          blur_loop iterations
            (shadow_rectangle image border_size offset shadow_color)
            (blur_calls st) in
        (shadow, {| _drop_shadows_cache := <[key:=shadow]> (_drop_shadows_cache st);
                    blur_calls := calls |})
    end in
  (paste_image shadow image (image_position border_size offset), st').

End DropShadow.

End ImageUtils.

(** *** Notions used to state facts about the image utilities *)

(** How often a character occurs in a string. *)
Fixpoint count_char (c : ascii) (s : string) : nat :=
  match s with
  | EmptyString => 0%nat
  | String c' rest =>
      if Ascii.eqb c' c then S (count_char c rest) else count_char c rest
  end.

Section DropShadowCache.

Variable Image : Type.
Variable image_size : Image → Z * Z.
Variable Image_new : Z * Z → ImageUtils.rgba → Image.
Variable paste_color : Image → ImageUtils.rgba → Z * Z * Z * Z → Image.
Variable blur : Image → Image.

(** Every canvas in the cache is the one a call with its key computes
    afresh. *)
Definition cache_sound (st : ImageUtils.shadow_state Image) : Prop :=
  ∀ image iterations border_size offset shadow_color canvas,
    ImageUtils._drop_shadows_cache Image st
      !! ImageUtils.key_of Image image_size image iterations border_size
           offset shadow_color = Some canvas →
    canvas = ImageUtils.blurred_shadow Image image_size Image_new paste_color
               blur image iterations border_size offset shadow_color.

End DropShadowCache.

(** ** The grid ([datagrid_gtk3/ui/grid.py]) *)

Module Grid.

(** *** Values *)

(** A column value of a record: [None], a [bool], an [int] or a string. *)
Inductive scalar :=
| SNone
| SBool (b : bool)
| SInt (z : Z)
| SStr (s : string).

#[global] Instance scalar_eq_dec : EqDecision scalar.
Proof. solve_decision. Defined.

#[global] Instance scalar_countable : Countable scalar.
Proof.
  refine (inj_countable'
    (λ v, match v with
          | SNone => inl ()
          | SBool b => inr (inl b)
          | SInt z => inr (inr (inl z))
          | SStr s => inr (inr (inr s))
          end)
    (λ x, match x with
          | inl _ => SNone
          | inr (inl b) => SBool b
          | inr (inr (inl z)) => SInt z
          | inr (inr (inr s)) => SStr s
          end) _).
  intros []; reflexivity.
Defined.

(** A value used as a dictionary key or set element: Python compares and
    hashes [True] as [1] and [False] as [0]. *)
Definition dict_key (v : scalar) : scalar :=
  match v with
  | SBool b => SInt (if b then 1 else 0)
  | _ => v
  end.

(** [bool(v)] *)
Definition truthy (v : scalar) : bool :=
  match v with
  | SNone => false
  | SBool b => b
  | SInt z => negb (z =? 0)
  | SStr s => negb (String.eqb s "")
  end.

(** [int(v)]: strings are parsed as an optionally signed decimal numeral
    with surrounding whitespace allowed; anything else in a string is a
    [ValueError], [None] a [TypeError]. *)
Definition is_space (c : ascii) : bool :=
  let n := nat_of_ascii c in
  Nat.eqb n 32 || (Nat.leb 9 n && Nat.leb n 13).

Fixpoint lstrip (s : string) : string :=
  match s with
  | String c rest => if is_space c then lstrip rest else s
  | EmptyString => EmptyString
  end.

Fixpoint rstrip (s : string) : string :=
  match s with
  | String c rest =>
      let rest' := rstrip rest in
      if is_space c && String.eqb rest' "" then EmptyString else String c rest'
  | EmptyString => EmptyString
  end.

Definition digit_of (c : ascii) : option Z :=
  let n := nat_of_ascii c in
  if Nat.leb 48 n && Nat.leb n 57 then Some (Z.of_nat n - 48) else None.

Fixpoint digits (s : string) (acc : Z) : option Z :=
  match s with
  | EmptyString => Some acc
  | String c rest =>
      match digit_of c with
      | Some d => digits rest (10 * acc + d)
      | None => None
      end
  end.

Definition int_of_string (s : string) : result Z :=
  let body := rstrip (lstrip s) in
  let '(sign, ds) :=
    match body with
    | String "-" rest => (-1, rest)
    | String "+" rest => (1, rest)
    | _ => (1, body)
    end in
  match ds with
  | EmptyString => Raise ValueError
  | _ => match digits ds 0 with
         | Some n => Ok (sign * n)
         | None => Raise ValueError
         end
  end.

Definition py_int (v : scalar) : result Z :=
  match v with
  | SInt z => Ok z
  | SBool b => Ok (if b then 1 else 0)
  | SStr s => int_of_string s
  | SNone => Raise TypeError
  end.

(** [seq[idx]] where [idx] may be [None] (a [TypeError]). *)
Definition getitem_opt {A} (l : list A) (idx : option Z) : result A :=
  match idx with
  | Some i => getitem l i
  | None => Raise TypeError
  end.

(** *** Query parameters *)

(** The [param] of a [where] clause: a plain value, or the [(start, end)]
    pair of a date range. *)
Inductive cparam :=
| CValue (v : scalar)
| CRange (start_timestamp end_timestamp : Z).

Record clause := { operator : string; param : cparam }.

#[global] Instance cparam_eq_dec : EqDecision cparam.
Proof. solve_decision. Defined.
#[global] Instance clause_eq_dec : EqDecision clause.
Proof. solve_decision. Defined.

(** Keys of the [where] dictionary.  They are column names, except for the
    one case where [on_date_change] uses a whole row of the date-column
    list store as the key (see there). *)
Inductive wkey :=
| ColName (s : string)
| StoreRow (row : string * string).

#[global] Instance wkey_eq_dec : EqDecision wkey.
Proof. solve_decision. Defined.

#[global] Instance wkey_countable : Countable wkey.
Proof.
  refine (inj_countable'
    (λ k, match k with ColName s => inl s | StoreRow r => inr r end)
    (λ x, match x with inl s => ColName s | inr r => StoreRow r end) _).
  intros []; reflexivity.
Defined.

(** A value of [active_params]. *)
Inductive pval :=
| PScalar (v : scalar)
| PWhere (w : gmap wkey clause).

Definition pval_truthy (p : pval) : bool :=
  match p with
  | PScalar v => truthy v
  | PWhere w => negb (bool_decide (w = ∅))
  end.

(** [p + 1] *)
Definition pval_add_one (p : pval) : result pval :=
  match p with
  | PScalar (SInt z) => Ok (PScalar (SInt (z + 1)))
  | PScalar (SBool b) => Ok (PScalar (SInt ((if b then 1 else 0) + 1)))
  | _ => Raise TypeError
  end.

(** *** Records of the hierarchy *)

(** A [Node] (a list of child nodes that also carries [data] and [path]).
    The class itself lives in [datagrid_gtk3.db], outside these sources:
    [priv] stands for whatever else it stores, and its
    [is_children_loaded] check is a parameter below.  [path] is [None]
    until the model assigns it. *)
#[warnings="-register-all"]
Inductive Node := mkNode {
  data : list scalar;
  path : option (list Z);
  children : list Node;
  priv : Z
}.

Definition set_data (d : list scalar) (n : Node) : Node :=
  mkNode d (path n) (children n) (priv n).
Definition set_path (p : option (list Z)) (n : Node) : Node :=
  mkNode (data n) p (children n) (priv n).
Definition set_children (c : list Node) (n : Node) : Node :=
  mkNode (data n) (path n) c (priv n).
(** [node.append(row)] *)
Definition append (row : Node) (n : Node) : Node :=
  set_children (children n ++ [row]) n.

(** A reference to a resident node is its position: the indices leading to
    it from the root collection.  Nodes are only ever appended, and a
    refresh replaces the whole hierarchy together with every reference the
    model holds, so a position identifies one object for as long as the
    reference lives. *)
Definition ref : Type := list nat.

Fixpoint node_at (n : Node) (pos : ref) : option Node :=
  match pos with
  | [] => Some n
  | i :: pos' =>
      match children n !! i with
      | Some c => node_at c pos'
      | None => None
      end
  end.

Fixpoint node_update (f : Node → Node) (pos : ref) (n : Node) : Node :=
  match pos with
  | [] => f n
  | i :: pos' => set_children (alter (node_update f pos') i (children n)) n
  end.

(** [iter_rows()] without loading: the resident rows below [parent],
    depth first, a parent before its children. *)
Fixpoint iter_children (parent : Node) : list Node :=
  flat_map (λ row, row :: iter_children row) (children parent).

(** The walk of [_get_row_by_path]: [rows[i0][i1]...[ik]], as the position
    of the row reached. *)
Fixpoint resolve_path (iter_aux : list Z) (rows : Node) (pos : ref)
  : result ref :=
  match iter_aux with
  | [] => Raise IndexError
  | i :: rest =>
      match norm_index (length (children rows)) i with
      | Raise e => Raise e
      | Ok n =>
          match rest with
          | [] => Ok (pos ++ [n])
          | _ => match children rows !! n with
                 | Some child => resolve_path rest child (pos ++ [n])
                 | None => Raise IndexError
                 end
          end
      end
  end.

(** *** Columns and transformers *)

Record Column := {
  name : string;
  display : string;
  transform : option string;
  visible : bool;
  expand : bool
}.

(** A pixel buffer, identified by what it was rendered from. *)
Inductive Pixbuf :=
| NoImageScaled (size : Z)
| Rendered (tag : Z).

(** What a cell shows: a plain value (a text is a string value) or a pixel
    buffer. *)
Inductive fvalue :=
| FValue (v : scalar)
| FPixbuf (p : Pixbuf).

#[global] Instance Pixbuf_eq_dec : EqDecision Pixbuf.
Proof. solve_decision. Defined.
#[global] Instance fvalue_eq_dec : EqDecision fvalue.
Proof. solve_decision. Defined.

#[global] Instance fvalue_countable : Countable fvalue.
Proof.
  refine (inj_countable'
    (λ v, match v with
          | FValue s => inl s
          | FPixbuf (NoImageScaled size) => inr (inl size)
          | FPixbuf (Rendered tag) => inr (inr tag)
          end)
    (λ x, match x with
          | inl s => FValue s
          | inr (inl size) => FPixbuf (NoImageScaled size)
          | inr (inr tag) => FPixbuf (Rendered tag)
          end) _).
  intros [|[]]; reflexivity.
Defined.

(** A formatted value as a set element (see [dict_key]). *)
Definition fvalue_key (v : fvalue) : fvalue :=
  match v with
  | FValue s => FValue (dict_key s)
  | FPixbuf p => FPixbuf p
  end.

(** Keyword arguments handed to a transformer. *)
Inductive kwarg :=
| KInt (z : Z)
| KBool (b : bool)
| KDecodeFallback
| KOptions (o : scalar).

(** A transformer: [(value, **kwargs) -> formatted value]. *)
Definition transformer : Type := scalar → list (string * kwarg) → fvalue.

(** *** The data source and what the model tells the outside *)

Inductive event :=
| Load (params : gmap string pval)
| Update (column : string) (value : scalar) (ids : list Z)
| DataLoaded (total : Z)
| RowInserted (p : list Z)
| RowChanged (p : list Z).

(** What a [load] call leaves behind: the returned node with the rows, and
    the data source's attributes as they read after the call. *)
Record LoadResult := {
  loaded : Node;
  ds_id_column_idx : option Z;
  ds_parent_column_idx : option Z;
  ds_flat_column_idx : option Z;
  ds_total_recs : Z
}.

(** The data source is outside these sources.  Its answer to a [load] may
    depend on everything that happened to it before, which is what the
    history argument stands for.  [config] holds, per column, the
    [encoding_options] entry of that column's configuration. *)
Record DataSource := {
  ds_columns : list Column;
  load : list event → gmap string pval → LoadResult;
  config : list (option scalar)
}.

(** *** [DataGridModel] *)

(** The model's attributes.  [row_id_mapper] maps an id to a reference to
    the row object; [rows] is [None] until the first refresh.  [log]
    records, oldest first, the calls made on the data source and the
    signals emitted ([data-loaded], [row-inserted], [row-changed]).
    The image size is the property [image_max_size], whose two values
    [24.0] and [100.0] are kept as the integers 24 and 100. *)
Record DataGridModel := {
  data_source : DataSource;
  columns : list Column;
  active_params : gmap string pval;
  row_id_mapper : gmap scalar ref;
  id_column_idx : option Z;
  parent_column_idx : option Z;
  flat_column_idx : option Z;
  rows : option Node;
  total_recs : option Z;
  visible_range : option (list Z * list Z);
  image_max_size : Z;
  image_draw_border : bool;
  _invisible_images : gmap Z Pixbuf;
  _fallback_images : gmap (bool * Z) fvalue;
  log : list event
}.

(** [startswith] *)
Fixpoint startswith (prefix s : string) : bool :=
  match prefix, s with
  | EmptyString, _ => true
  | String a prefix', String b s' => Ascii.eqb a b && startswith prefix' s'
  | String _ _, EmptyString => false
  end.

(** [__init__]: the model as constructed around a data source. *)
Definition init (ds : DataSource) : DataGridModel :=
  {| data_source := ds; columns := ds_columns ds;
     active_params := {["flat" := PScalar (SBool false)]};
     row_id_mapper := ∅; id_column_idx := None;
     parent_column_idx := None; flat_column_idx := None; rows := None;
     total_recs := None; visible_range := None;
     image_max_size := 24; image_draw_border := false;
     _invisible_images := ∅; _fallback_images := ∅; log := [] |}.

(** [self.datetime_columns], as [__init__] collects them. *)
Definition datetime_columns (m : DataGridModel) : list Column :=
  List.filter (λ column, match transform column with
                         | Some t => startswith "timestamp" t
                         | None => false
                         end) (columns m).

Definition with_active_params (f : gmap string pval → gmap string pval)
    (m : DataGridModel) : DataGridModel :=
  {| data_source := data_source m; columns := columns m;
     active_params := f (active_params m);
     row_id_mapper := row_id_mapper m; id_column_idx := id_column_idx m;
     parent_column_idx := parent_column_idx m;
     flat_column_idx := flat_column_idx m; rows := rows m;
     total_recs := total_recs m; visible_range := visible_range m;
     image_max_size := image_max_size m;
     image_draw_border := image_draw_border m;
     _invisible_images := _invisible_images m;
     _fallback_images := _fallback_images m; log := log m |}.

Definition with_row_id_mapper (f : gmap scalar ref → gmap scalar ref)
    (m : DataGridModel) : DataGridModel :=
  {| data_source := data_source m; columns := columns m;
     active_params := active_params m;
     row_id_mapper := f (row_id_mapper m); id_column_idx := id_column_idx m;
     parent_column_idx := parent_column_idx m;
     flat_column_idx := flat_column_idx m; rows := rows m;
     total_recs := total_recs m; visible_range := visible_range m;
     image_max_size := image_max_size m;
     image_draw_border := image_draw_border m;
     _invisible_images := _invisible_images m;
     _fallback_images := _fallback_images m; log := log m |}.

Definition with_rows (f : option Node → option Node)
    (m : DataGridModel) : DataGridModel :=
  {| data_source := data_source m; columns := columns m;
     active_params := active_params m;
     row_id_mapper := row_id_mapper m; id_column_idx := id_column_idx m;
     parent_column_idx := parent_column_idx m;
     flat_column_idx := flat_column_idx m; rows := f (rows m);
     total_recs := total_recs m; visible_range := visible_range m;
     image_max_size := image_max_size m;
     image_draw_border := image_draw_border m;
     _invisible_images := _invisible_images m;
     _fallback_images := _fallback_images m; log := log m |}.

(** The attributes re-read from the data source by [refresh]. *)
Definition with_indices (r : LoadResult) (m : DataGridModel) : DataGridModel :=
  {| data_source := data_source m; columns := columns m;
     active_params := active_params m;
     row_id_mapper := row_id_mapper m;
     id_column_idx := ds_id_column_idx r;
     parent_column_idx := ds_parent_column_idx r;
     flat_column_idx := ds_flat_column_idx r; rows := rows m;
     total_recs := Some (ds_total_recs r); visible_range := visible_range m;
     image_max_size := image_max_size m;
     image_draw_border := image_draw_border m;
     _invisible_images := _invisible_images m;
     _fallback_images := _fallback_images m; log := log m |}.

Definition with_images (inv : gmap Z Pixbuf) (fb : gmap (bool * Z) fvalue)
    (m : DataGridModel) : DataGridModel :=
  {| data_source := data_source m; columns := columns m;
     active_params := active_params m;
     row_id_mapper := row_id_mapper m; id_column_idx := id_column_idx m;
     parent_column_idx := parent_column_idx m;
     flat_column_idx := flat_column_idx m; rows := rows m;
     total_recs := total_recs m; visible_range := visible_range m;
     image_max_size := image_max_size m;
     image_draw_border := image_draw_border m;
     _invisible_images := inv; _fallback_images := fb; log := log m |}.

Definition with_log (e : event) (m : DataGridModel) : DataGridModel :=
  {| data_source := data_source m; columns := columns m;
     active_params := active_params m;
     row_id_mapper := row_id_mapper m; id_column_idx := id_column_idx m;
     parent_column_idx := parent_column_idx m;
     flat_column_idx := flat_column_idx m; rows := rows m;
     total_recs := total_recs m; visible_range := visible_range m;
     image_max_size := image_max_size m;
     image_draw_border := image_draw_border m;
     _invisible_images := _invisible_images m;
     _fallback_images := _fallback_images m; log := log m ++ [e] |}.

(** A method of the model: it runs on the object's state and either
    returns or raises, and in both cases leaves a state behind. *)
Definition M (A : Type) : Type := DataGridModel → result A * DataGridModel.

#[global] Instance M_ret : MRet M := λ A a m, (Ok a, m).
#[global] Instance M_bind : MBind M := λ A B f c m,
  match c m with
  | (Ok a, m') => f a m'
  | (Raise e, m') => (Raise e, m')
  end.

Definition get : M DataGridModel := λ m, (Ok m, m).
Definition modify (f : DataGridModel → DataGridModel) : M () :=
  λ m, (Ok (), f m).
Definition lift {A} (r : result A) : M A := λ m, (r, m).
Definition emit (e : event) : M () := modify (with_log e).

(** [try: c  except IndexError: handler] *)
Definition except_IndexError {A} (c : M A) (handler : M A) : M A := λ m,
  match c m with
  | (Raise IndexError, m') => handler m'
  | other => other
  end.

(** [for i, x in enumerate(xs): body i x] *)
Fixpoint for_enumerate {A} (i : Z) (xs : list A) (body : Z → A → M ()) : M () :=
  match xs with
  | [] => mret ()
  | x :: xs' => body i x ≫= λ _, for_enumerate (i + 1) xs' body
  end.

(** [self.rows], which is [None] before the first refresh. *)
Definition the_rows : M Node :=
  m ← get;
  match rows m with
  | Some root => mret root
  | None => lift (Raise TypeError)
  end.

(** Dereferencing a row reference. *)
Definition deref (pos : ref) : M Node :=
  root ← the_rows;
  match node_at root pos with
  | Some n => mret n
  | None => lift (Raise IndexError)
  end.

Definition update_node (f : Node → Node) (pos : ref) : M () :=
  modify (with_rows (fmap (node_update f pos))).

Definition IMAGE_PREFIX : string := "file://".
Definition IMAGE_BORDER_SIZE : Z := 6.
Definition IMAGE_SHADOW_SIZE : Z := 6.
Definition IMAGE_SHADOW_OFFSET : Z := 2.
Definition GRID_LABEL_MAX_LENGTH : Z := 100.

(** [a <= b] on tuples of integers. *)
Fixpoint tuple_le (a b : list Z) : bool :=
  match a, b with
  | [], _ => true
  | _ :: _, [] => false
  | x :: a', y :: b' => (x <? y) || ((x =? y) && tuple_le a' b')
  end.

Definition fvalue_truthy (v : fvalue) : bool :=
  match v with
  | FValue s => truthy s
  | FPixbuf _ => true
  end.

(** [s[len(prefix):]] when [s.startswith(prefix)] *)
Fixpoint strip_prefix (prefix s : string) : option string :=
  match prefix, s with
  | EmptyString, _ => Some s
  | String a prefix', String b s' =>
      if Ascii.eqb a b then strip_prefix prefix' s' else None
  | String _ _, EmptyString => None
  end.

Section Methods.

(** [Node.is_children_loaded()] (not recursive), from the class that is
    outside these sources. *)
Variable is_children_loaded : Node → bool.

(** [get_transformer] of [datagrid_gtk3.utils.transformations]. *)
Variable get_transformer : string → option transformer.

(** **** [refresh] *)

Definition refresh : M () :=
  modify (with_active_params (delete "page"));;
  modify (with_active_params (delete "parent_id"));;
  modify (with_row_id_mapper (λ _, ∅));;
  m ← get;
  let r := load (data_source m) (log m) (active_params m) in
  emit (Load (active_params m));;
  modify (with_rows (λ _, Some (set_path (Some []) (loaded r))));;
  modify (with_indices r);;
  match ds_id_column_idx r with
  | Some idx =>
      for_enumerate 0 (children (loaded r)) (λ i row,
        update_node (set_path (Some [i])) [Z.to_nat i];;
        key ← lift (getitem (data row) idx);
        modify (with_row_id_mapper (<[dict_key key := [Z.to_nat i]]>)))
  | None => mret ()
  end;;
  emit (DataLoaded (ds_total_recs r)).

(** **** [add_rows] and the lazy loading around it

    [add_rows] reaches itself again through [get_iter],
    [_get_row_by_path] and [_ensure_children_is_loaded]; the bodies
    below take that inner [add_rows] as [add_rows_rec]. *)

Definition is_tree (m : DataGridModel) : bool :=
  bool_decide (parent_column_idx m ≠ None)
  && negb (pval_truthy (default (PScalar (SBool false))
                                (active_params m !! "flat"))).

Section Bodies.

Variable add_rows_rec : option ref → M bool.

Definition ensure_children_is_loaded_body (row : ref) : M () :=
  node ← deref row;
  if is_children_loaded node then mret ()
  else add_rows_rec (Some row);; mret ().

Definition get_row_by_path_body (iter_ : list Z) : M ref :=
  m ← get;
  row ← lift (match iter_, rows m with
              | [], _ => Raise IndexError
              | _, None => Raise TypeError
              | _, Some root => resolve_path iter_ root []
              end);
  ensure_children_is_loaded_body row;;
  mret row.

Definition on_get_iter_body (p : list Z) : M (option (list Z)) :=
  except_IndexError (get_row_by_path_body p;; mret (Some p)) (mret None).

Definition add_rows_body (parent_node : option ref) : M bool :=
  m ← get;
  let is_tree := is_tree m in
  if is_tree && bool_decide (parent_node = None) then mret false
  else
    '(parent_id, parent_row, path_offset) ←
      match parent_node with
      | None =>
          root ← the_rows;
          last ← lift (getitem (children root) (-1));
          last_path ← lift (match path last with
                            | Some p => Ok p
                            | None => Raise TypeError
                            end);
          last_index ← lift (getitem last_path (-1));
          page ← lift (pval_add_one
                         (default (PScalar (SInt 0))
                                  (active_params m !! "page")));
          modify (with_active_params (<["page" := page]>));;
          mret (SNone, [], last_index + 1)
      | Some node =>
          parent ← deref node;
          parent_id ← lift (getitem_opt (data parent) (id_column_idx m));
          mret (parent_id, node, 0)
      end;
    modify (with_active_params (<["parent_id" := PScalar parent_id]>));;
    m ← get;
    let rows := loaded (load (data_source m) (log m) (active_params m)) in
    emit (Load (active_params m));;
    if bool_decide (length (children rows) = 0%nat) then mret false
    else
      for_enumerate 0 (children rows) (λ i row,
        parent ← deref parent_row;
        parent_path ← lift (match path parent with
                            | Some p => Ok p
                            | None => Raise TypeError
                            end);
        let row_path := parent_path ++ [path_offset + i] in
        let row := set_path (Some row_path) row in
        key ← lift (getitem_opt (data row) (id_column_idx m));
        modify (with_row_id_mapper
                  (<[dict_key key := parent_row ++ [length (children parent)]]>));;
        update_node (append row) parent_row;;
        if negb is_tree then
          on_get_iter_body row_path;;
          emit (RowInserted row_path)
        else mret ());;
      mret true.

End Bodies.

Fixpoint add_rows (fuel : nat) (parent_node : option ref) : M bool :=
match fuel with
| O => lift (Raise RecursionError)
| S fuel' => add_rows_body (add_rows fuel') parent_node
end.

Definition _ensure_children_is_loaded (fuel : nat) : ref → M () :=
ensure_children_is_loaded_body (add_rows fuel).
Definition _get_row_by_path (fuel : nat) : list Z → M ref :=
get_row_by_path_body (add_rows fuel).
Definition on_get_iter (fuel : nat) : list Z → M (option (list Z)) :=
on_get_iter_body (add_rows fuel).

(** **** [update_data_source], [get_formatted_value], [on_get_value] *)

Definition update_data_source (column : string) (value : scalar)
(ids : list Z) : M () :=
emit (Update column value ids).

Definition image_kwargs (m : DataGridModel) : list (string * kwarg) :=
[("size", KInt (image_max_size m));
 ("draw_border", KBool (image_draw_border m));
 ("border_size", KInt IMAGE_BORDER_SIZE);
 ("shadow_size", KInt IMAGE_SHADOW_SIZE);
 ("shadow_offset", KInt IMAGE_SHADOW_OFFSET)].

Definition text_kwargs : list (string * kwarg) :=
[("max_length", KInt GRID_LABEL_MAX_LENGTH);
 ("oneline", KBool true);
 ("decode_fallback", KDecodeFallback)].

(** The [if self.data_source.config:] block. *)
Definition config_kwargs (m : DataGridModel) (column_index : Z)
: list (string * kwarg) :=
match config (data_source m) with
| [] => []
| cfg =>
  match getitem cfg column_index with
  | Ok (Some custom_options) =>
      if truthy custom_options then [("options", KOptions custom_options)]
      else []
  | _ => []
  end
end.

Definition get_formatted_value (value : scalar) (column_index : Z)
(visible : bool) : M fvalue :=
m ← get;
col_dict ← lift (getitem (columns m) column_index);
let col_name := name col_dict in
let transformer_name :=
match transform col_dict with
| Some t => if String.eqb t "" then "string" else t
| None => "string"
end in
match get_transformer transformer_name with
| None => mret (FValue value)
| Some transformer =>
  if String.eqb transformer_name "boolean" && String.eqb col_name "__selected"
  then mret (FValue (SBool (truthy value)))
  else if String.eqb transformer_name "image" then
    let kwargs := image_kwargs m in
    if negb (truthy value) then
      match _invisible_images m !! image_max_size m with
      | Some invisible_img => mret (FPixbuf invisible_img)
      | None =>
          let invisible_img := NoImageScaled (image_max_size m) in
          modify (λ m, with_images
                    (<[image_max_size m := invisible_img]> (_invisible_images m))
                    (_fallback_images m) m);;
          mret (FPixbuf invisible_img)
      end
    else if negb visible then
      let key := (image_draw_border m, image_max_size m) in
      match _fallback_images m !! key with
      | Some fallback =>
          if fvalue_truthy fallback then mret fallback
          else
            let fallback := transformer SNone kwargs in
            modify (λ m, with_images (_invisible_images m)
                           (<[key := fallback]> (_fallback_images m)) m);;
            mret fallback
      | None =>
          let fallback := transformer SNone kwargs in
          modify (λ m, with_images (_invisible_images m)
                         (<[key := fallback]> (_fallback_images m)) m);;
          mret fallback
      end
    else
      match value with
      | SStr s =>
          let value := match strip_prefix IMAGE_PREFIX s with
                       | Some rest => SStr rest
                       | None => SNone
                       end in
          mret (transformer value (kwargs ++ config_kwargs m column_index))
      | _ => lift (Raise AttributeError)
      end
  else if String.eqb transformer_name "string"
          || String.eqb transformer_name "html" then
    mret (transformer value (text_kwargs ++ config_kwargs m column_index))
  else mret (transformer value (config_kwargs m column_index))
end.

Definition on_get_value (fuel : nat) (rowref : list Z) (column : Z)
: M fvalue :=
m ← get;
let visible :=
match visible_range m with
| Some (start, end_) => tuple_le start rowref && tuple_le rowref end_
| None => true
end in
row ← _get_row_by_path fuel rowref;
node ← deref row;
raw ← lift (getitem (data node) column);
m ← get;
if bool_decide (Some column = id_column_idx m)
 || bool_decide (Some column = parent_column_idx m)
then mret (FValue raw)
else get_formatted_value raw column visible.

(** The toolkit's [get_value(iter, column)]: an iter of this model is its
path, and the call needs an integer column. *)
Definition get_value (fuel : nat) (itr : list Z) (column : option Z)
: M fvalue :=
match column with
| Some c => on_get_value fuel itr c
| None => lift (Raise TypeError)
end.

(** [int(x)] on what [get_value] returned. *)
Definition fvalue_int (v : fvalue) : result Z :=
match v with
| FValue s => py_int s
| FPixbuf _ => Raise TypeError
end.

(** **** [set_value] *)

Definition set_value (fuel : nat) (itr : list Z) (column : Z)
(value : scalar) (emit_event : bool) : M () :=
let path := itr in
row ← _get_row_by_path fuel path;
node ← deref row;
new_data ← lift (setitem (data node) column value);
update_node (set_data new_data) row;;
m ← get;
id_ ← get_value fuel itr (id_column_idx m);
m ← get;
col_dict ← lift (getitem (columns m) column);
id_int ← lift (fvalue_int id_);
update_data_source (name col_dict) value [id_int];;
if emit_event then emit (RowChanged path) else mret ().

End Methods.

(** *** [DataGridView]: column widths *)

Definition MIN_WIDTH : Z := 40.
Definition MAX_WIDTH : Z := 400.
Definition SAMPLE_SIZE : nat := 50.

(** The tail of [_get_best_column_width]: from the measured lengths to the
    width.  [lengths] is a set in the source; only its maximum is used,
    so the measurements are kept here as the list of what was added. *)
Definition best_width (lengths : list Z) (label_width : Z) : Z :=
  let max_length :=
    match lengths with
    | [] => 1
    | l :: ls => foldr Z.max l ls
    end in
  let width := max_length in
  if width <? MIN_WIDTH then
    let width := MIN_WIDTH in
    if width <? label_width then label_width + 20 else width
  else if width >? MAX_WIDTH then MAX_WIDTH
  else width.

Section BestWidth.

Variable get_transformer : string → option transformer.

(** The toolkit's text measurement: the pixel width of the layout created
    for a text, or the [TypeError] that [create_pango_layout] raises for a
    text it cannot take; and [str.splitlines]. *)
Variable create_pango_layout : string → result Z.
Variable splitlines : string → list string.

(** The body of the loop for one formatted value: the length it adds to
    [lengths], if any. *)
Definition measure_value (value : fvalue) : result (option Z) :=
  match value with
  | FValue (SStr s) =>
      let value := match splitlines s with
                   | first :: _ => first
                   | [] => s
                   end in
      match create_pango_layout ("  " +:+ value +:+ "  ") with
      | Ok w => Ok (Some w)
      | Raise TypeError =>
          match create_pango_layout "" with
          | Ok w => Ok (Some w)
          | Raise e => Raise e
          end
      | Raise e => Raise e
      end
  | _ => Ok None
  end.

Fixpoint sample_lengths (colnum : Z) (samples : list (list scalar))
  : M (list Z) :=
  match samples with
  | [] => mret []
  | row :: rest =>
      raw ← lift (getitem row colnum);
      value ← get_formatted_value get_transformer raw colnum false;
      len ← lift (measure_value value);
      lengths ← sample_lengths colnum rest;
      mret (match len with Some w => w :: lengths | None => lengths end)
  end.

Definition _get_best_column_width (colnum : Z) (samples : list (list scalar))
  : M Z :=
  m ← get;
  col_dict ← lift (getitem (columns m) colnum);
  label_width ← lift (create_pango_layout ("  " +:+ display col_dict +:+ "  "));
  lengths ← sample_lengths colnum samples;
  mret (best_width lengths label_width).

End BestWidth.

(** *** [DataGridController]: filters *)

Definition MIN_TIMESTAMP : Z := 0.
Definition MAX_TIMESTAMP : Z := 2147485547.

(** [self.model.active_params.setdefault('where', {})] and what follows, as
    far as the query parameters go: the [where] dictionary after the
    removals and the update, stored back or deleted when empty.  A [where]
    entry that is not a dictionary has no [pop] or [update]. *)
Definition refresh_view_params (update_dict : option (gmap wkey clause))
    (remove_keys : option (list wkey)) (params : gmap string pval)
  : result (gmap string pval) :=
  where_dict ← match params !! "where" with
               | None => Ok ∅
               | Some (PWhere w) => Ok w
               | Some (PScalar _) => Raise AttributeError
               end;
  let where_dict :=
    match remove_keys with
    | Some keys => foldl (λ w key, delete key w) where_dict keys
    | None => where_dict
    end in
  let where_dict := default ∅ update_dict ∪ where_dict in
  if bool_decide (where_dict = ∅) then Ok (delete "where" params)
  else Ok (<["where" := PWhere where_dict]> params).

(** [_refresh_view]: the filters are merged into the query and the active
    view is refreshed, which starts with the model's own [refresh]; what
    the views then do to their widgets is not part of the model. *)
Definition _refresh_view (update_dict : option (gmap wkey clause))
    (remove_keys : option (list wkey)) : M () :=
  m ← get;
  params ← lift (refresh_view_params update_dict remove_keys (active_params m));
  modify (with_active_params (λ _, params));;
  refresh.

(** [on_filter_changed]: [value] is the chosen option, [None] standing for
    [NO_FILTER_OPTION]. *)
Definition on_filter_changed (attr : string) (value : option scalar) : M () :=
  match value with
  | None => _refresh_view None (Some [ColName attr])
  | Some value =>
      _refresh_view
        (Some {[ ColName attr :=
                   {| operator := if bool_decide (value = SNone) then "is" else "=";
                      param := CValue value |} ]})
        None
  end.

(** [on_search_clicked] *)
Definition on_search_clicked (search : string) : M () :=
  _refresh_view
    (Some {[ ColName "search" :=
               {| operator := "="; param := CValue (SStr search) |} ]})
    None.

Section DateRange.

(** [_get_timestamp_from_str]: [strptime] with the fixed format and the
    local time zone; a text that does not parse is a [ValueError]. *)
Variable _get_timestamp_from_str : string → result Z.

(** One bound of the range: the text of the date entry with the time of
    day appended, or the default when the entry is empty. *)
Definition date_bound (date time_of_day : string) (default_timestamp : Z)
  : result Z :=
  if negb (String.eqb date "")
  then _get_timestamp_from_str (date +:+ time_of_day)
  else Ok default_timestamp.

(** The key of the clause.  With an active column it is that column's
    name.  Without one ([get_active() < 0]) the name [column] still holds
    what the list comprehension left in it: the last row of the list
    store, or nothing at all when the store is empty. *)
Definition date_column (active_date_column : Z)
    (model_date_columns : list (string * string)) : result wkey :=
  if 0 <=? active_date_column then
    row ← getitem model_date_columns active_date_column;
    Ok (ColName row.1)
  else
    match last model_date_columns with
    | Some row => Ok (StoreRow row)
    | None => Raise UnboundLocalError
    end.

(** [on_date_change], given the texts of the two date entries, the active
    index of the column chooser and the rows (name, label) of its list
    store. *)
Definition on_date_change (start_date end_date : string)
    (active_date_column : Z) (model_date_columns : list (string * string))
  : M () :=
  start_timestamp ← lift (date_bound start_date " 00:00" MIN_TIMESTAMP);
  end_timestamp ← lift (date_bound end_date " 23:59" MAX_TIMESTAMP);
  let remove_columns := (λ column, ColName column.1) <$> model_date_columns in
  column ← lift (date_column active_date_column model_date_columns);
  let update_dict :=
    {[ column := {| operator := "range";
                    param := CRange start_timestamp end_timestamp |} ]} in
  _refresh_view (Some update_dict) (Some remove_columns).

End DateRange.

(** The [where] dictionary of a query ([{}] when there is none). *)
Definition where_of (params : gmap string pval) : gmap wkey clause :=
  match params !! "where" with
  | Some (PWhere w) => w
  | _ => ∅
  end.

(** What the user does to the filters of a bound grid. *)
Inductive filter_event :=
| DateChange (start_date end_date : string) (active_date_column : Z)
| FilterChange (attr : string) (value : option scalar)
| SearchChange (search : string).

(** The rows [bind_datasource] puts into the list store of the date-column
    chooser: name and label of every datetime column. *)
Definition date_store (m : DataGridModel) : list (string * string) :=
  (λ column, (name column, display column)) <$> datetime_columns m.

(** [bind_datasource], as far as the model goes: a new model around the
    data source and a first refresh of the view. *)
Definition bind_datasource (ds : DataSource) : result () * DataGridModel :=
  _refresh_view None None (init ds).

Section FilterRuns.

Variable _get_timestamp_from_str : string → result Z.

Definition handle (model_date_columns : list (string * string))
    (ev : filter_event) : M () :=
  match ev with
  | DateChange start_date end_date active_date_column =>
      on_date_change _get_timestamp_from_str start_date end_date
        active_date_column model_date_columns
  | FilterChange attr value => on_filter_changed attr value
  | SearchChange search => on_search_clicked search
  end.

(** The models a bound grid goes through while the user changes filters,
    every date change happening with one of the date columns selected. *)
Inductive filter_run (ds : DataSource) : DataGridModel → Prop :=
| run_bound : filter_run ds (bind_datasource ds).2
| run_event (m : DataGridModel) (ev : filter_event) :
    filter_run ds m →
    (∀ start_date end_date active, ev = DateChange start_date end_date active →
       0 <= active < Z.of_nat (length (date_store m))) →
    filter_run ds (handle (date_store m) ev m).2.

End FilterRuns.

(** At most one clause of a [where] dictionary is a range. *)
Definition at_most_one_range (w : gmap wkey clause) : Prop :=
  ∀ k1 k2 c1 c2,
    w !! k1 = Some c1 → w !! k2 = Some c2 →
    operator c1 = "range" → operator c2 = "range" → k1 = k2.

(** The [where] dictionary the merge of [_refresh_view] leaves in the query. *)
Definition merged_where (update_dict : option (gmap wkey clause))
    (remove_keys : option (list wkey)) (w : gmap wkey clause)
  : gmap wkey clause :=
  default ∅ update_dict
  ∪ match remove_keys with
    | Some keys => foldl (λ w key, delete key w) w keys
    | None => w
    end.

(** The [where] entry of a query, if any, is a dictionary. *)
Definition where_is_dict (params : gmap string pval) : Prop :=
  ∀ v, params !! "where" ≠ Some (PScalar v).

(** Every range clause sits on one of the date columns, and there is at
    most one. *)
Definition range_on_date_column (cols : list (string * string))
    (w : gmap wkey clause) : Prop :=
  (∀ k c, w !! k = Some c → operator c = "range" →
          ∃ row, row ∈ cols ∧ k = ColName row.1)
  ∧ at_most_one_range w.

(** *** [DataGridController]: the choice of the view *)

Definition with_image_settings (size : Z) (draw_border : bool)
    (m : DataGridModel) : DataGridModel :=
  {| data_source := data_source m; columns := columns m;
     active_params := active_params m;
     row_id_mapper := row_id_mapper m; id_column_idx := id_column_idx m;
     parent_column_idx := parent_column_idx m;
     flat_column_idx := flat_column_idx m; rows := rows m;
     total_recs := total_recs m; visible_range := visible_range m;
     image_max_size := size;
     image_draw_border := draw_border;
     _invisible_images := _invisible_images m;
     _fallback_images := _fallback_images m; log := log m |}.

(** The options of [OptionsPopup]: [(VIEW_TREE, VIEW_FLAT, VIEW_ICON) =
    range(3)]. *)
Definition VIEW_TREE : Z := 0.
Definition VIEW_FLAT : Z := 1.
Definition VIEW_ICON : Z := 2.

(** Which of the controller's two views is [self.view]. *)
Inductive active_view := tree_view | icon_view.

(** A call that may also end in [AssertionError]. *)
Inductive or_assertion (A : Type) :=
| AssertionError
| Returned (a : A).
Arguments AssertionError {A}.
Arguments Returned {A} a.

(** [on_popup_view_changed], as far as the model and the choice of the
    view go: the image settings, the [flat] parameter, and the refresh of
    the view through [_refresh_view]. *)
Definition on_popup_view_changed (new_view : Z) (m : DataGridModel)
  : or_assertion (active_view * (result () * DataGridModel)) :=
  let chosen :=
    if bool_decide (new_view = VIEW_ICON)
    then Returned (icon_view, with_image_settings 100 true m)
    else if bool_decide (new_view = VIEW_TREE)
            || bool_decide (new_view = VIEW_FLAT)
         then Returned (tree_view, with_image_settings 24 false m)
         else AssertionError in
  match chosen with
  | AssertionError => AssertionError
  | Returned (view, m) =>
      let flat :=
        bool_decide (flat_column_idx m ≠ None)
        && (bool_decide (new_view = VIEW_FLAT)
            || bool_decide (new_view = VIEW_ICON)) in
      Returned
        (view,
         (modify (with_active_params (<["flat" := PScalar (SBool flat)]>));;
          _refresh_view None None) m)
  end.


(** *** [DataGridView]: which rows are expanded *)

(** The view's own state, and the [all-expanded] signals it has emitted
    (oldest first). *)
Record DataGridView := {
  _expandable_ids : gset fvalue;
  _expanded_ids : gset fvalue;
  _all_expanded : bool;
  _block_all_expanded : bool;
  emitted : list bool
}.

(** [__init__] *)
Definition init_view : DataGridView :=
  {| _expandable_ids := ∅; _expanded_ids := ∅; _all_expanded := false;
     _block_all_expanded := false; emitted := [] |}.

Definition with_expandable_ids (ids : gset fvalue) (v : DataGridView)
  : DataGridView :=
  {| _expandable_ids := ids; _expanded_ids := _expanded_ids v;
     _all_expanded := _all_expanded v;
     _block_all_expanded := _block_all_expanded v; emitted := emitted v |}.

Definition with_expanded_ids (ids : gset fvalue) (v : DataGridView)
  : DataGridView :=
  {| _expandable_ids := _expandable_ids v; _expanded_ids := ids;
     _all_expanded := _all_expanded v;
     _block_all_expanded := _block_all_expanded v; emitted := emitted v |}.

Definition with_block (b : bool) (v : DataGridView) : DataGridView :=
  {| _expandable_ids := _expandable_ids v; _expanded_ids := _expanded_ids v;
     _all_expanded := _all_expanded v;
     _block_all_expanded := b; emitted := emitted v |}.

(** [self._all_expanded = new], then the signal if the value changed. *)
Definition with_all_expanded (new : bool) (v : DataGridView) : DataGridView :=
  {| _expandable_ids := _expandable_ids v; _expanded_ids := _expanded_ids v;
     _all_expanded := new;
     _block_all_expanded := _block_all_expanded v;
     emitted := if bool_decide (new ≠ _all_expanded v)
                then emitted v ++ [new] else emitted v |}.

(** The loop of [_get_expandable_ids] over [iter_rows()]: the id of every
    row that has children is added to the set; a row without the id
    column stops the loop with what was added so far. *)
Fixpoint collect_expandable (id_idx : option Z) (rows : list Node)
    (ids : gset fvalue) : result () * gset fvalue :=
  match rows with
  | [] => (Ok (), ids)
  | row :: rest =>
      if bool_decide (length (children row) ≠ 0%nat) then
        match getitem_opt (data row) id_idx with
        | Ok row_id =>
            collect_expandable id_idx rest ({[FValue (dict_key row_id)]} ∪ ids)
        | Raise e => (Raise e, ids)
        end
      else collect_expandable id_idx rest ids
  end.

Section View.

Variable is_children_loaded : Node → bool.
Variable get_transformer : string → option transformer.

(** Modelled from the spec: [Node.is_children_loaded(recursive=True)] is
    part of the class that is outside these sources; the specification
    describes the children-loaded flag as "possibly recursive check across
    descendants", which is the check of the node itself and of every
    resident descendant. *)
Fixpoint is_children_loaded_recursive (n : Node) : bool :=
  is_children_loaded n && forallb is_children_loaded_recursive (children n).

(** [_get_expandable_ids]: [None] while something is still to be loaded,
    otherwise the (cached) set. *)
Definition _get_expandable_ids (m : DataGridModel) (v : DataGridView)
  : result (option (gset fvalue)) * DataGridView :=
  if bool_decide (_expandable_ids v = ∅) then
    match rows m with
    | None => (Raise AttributeError, v)
    | Some root =>
        if negb (is_children_loaded_recursive root) then (Ok None, v)
        else
          match collect_expandable (id_column_idx m) (iter_children root)
                  (_expandable_ids v) with
          | (Ok _, ids) => (Ok (Some ids), with_expandable_ids ids v)
          | (Raise e, ids) => (Raise e, with_expandable_ids ids v)
          end
    end
  else (Ok (Some (_expandable_ids v)), v).

(** [_check_all_expanded] *)
Definition _check_all_expanded (m : DataGridModel) (v : DataGridView)
  : result () * DataGridView :=
  if _block_all_expanded v then (Ok (), v)
  else
    match _get_expandable_ids m v with
    | (Ok expandable, v') =>
        let new := match expandable with
                   | Some ids => bool_decide (_expanded_ids v' = ids)
                   | None => false
                   end in
        (Ok (), with_all_expanded new v')
    | (Raise e, v') => (Raise e, v')
    end.

(** [on_row_expanded] and [on_row_collapsed], on the model and the view. *)
Definition on_row_expanded (fuel : nat) (iter_ : list Z)
    (s : DataGridModel * DataGridView)
  : result () * (DataGridModel * DataGridView) :=
  let '(m, v) := s in
  match get_value is_children_loaded get_transformer fuel iter_
          (id_column_idx m) m with
  | (Ok row_id, m') =>
      let v' := with_expanded_ids ({[fvalue_key row_id]} ∪ _expanded_ids v) v in
      let '(r, v'') := _check_all_expanded m' v' in
      (r, (m', v''))
  | (Raise e, m') => (Raise e, (m', v))
  end.

Definition on_row_collapsed (fuel : nat) (iter_ : list Z)
    (s : DataGridModel * DataGridView)
  : result () * (DataGridModel * DataGridView) :=
  let '(m, v) := s in
  match get_value is_children_loaded get_transformer fuel iter_
          (id_column_idx m) m with
  | (Ok row_id, m') =>
      let v' := with_expanded_ids (_expanded_ids v ∖ {[fvalue_key row_id]}) v in
      let '(r, v'') := _check_all_expanded m' v' in
      (r, (m', v''))
  | (Raise e, m') => (Raise e, (m', v))
  end.

(** [on_toggle] for the checkbox column: the value is read, and its
    negation written through.  The toolkit's [get_iter] refuses a path for
    which [on_get_iter] has no row. *)
Definition on_toggle (fuel : nat) (path : list Z) (col_index : Z) : M () :=
  itr ← on_get_iter is_children_loaded fuel path;
  match itr with
  | None => lift (Raise ValueError)
  | Some itr =>
      val ← on_get_value is_children_loaded get_transformer fuel itr col_index;
      set_value is_children_loaded get_transformer fuel itr col_index
        (SBool (negb (fvalue_truthy val))) true
  end.

(** [refresh] up to the re-expansion loop: the model is refreshed, the
    cache of expandable ids and the expanded ids are cleared, and the
    guard is raised.  (The columns set up in between read formatted values
    of sample rows; they write neither the hierarchy nor the view's sets.) *)
Definition refresh_begin (s : DataGridModel * DataGridView)
  : result () * (DataGridModel * DataGridView) :=
  let '(m, v) := s in
  match refresh m with
  | (Ok _, m') =>
      (Ok (), (m', with_block true
                     (with_expanded_ids ∅ (with_expandable_ids ∅ v))))
  | (Raise e, m') => (Raise e, (m', v))
  end.

(** The end of [refresh], [expand_all] and [collapse_all]: the guard is
    lowered and the state recomputed once. *)
Definition bulk_end (s : DataGridModel * DataGridView)
  : result () * (DataGridModel * DataGridView) :=
  let '(m, v) := s in
  let '(r, v') := _check_all_expanded m (with_block false v) in
  (r, (m, v')).

(** What the tree view itself does to its model and to its own fields,
    one step at a time.  Between [refresh_begin] (or the raising of the
    guard by [expand_all] and [collapse_all]) and [bulk_end], the toolkit
    and [get_row_by_id] expand rows and walk the hierarchy; their effects
    are the steps for expansion, collapse, navigation, reading values,
    lazy loading and pagination, in any order.  A step keeps the state an
    exception leaves behind, except that a refresh is only followed when
    the model's refresh completes. *)
Inductive tree_view_step : DataGridModel * DataGridView
                           → DataGridModel * DataGridView → Prop :=
| step_refresh_begin s s' :
    refresh_begin s = (Ok (), s') → tree_view_step s s'
| step_bulk_begin m v :
    tree_view_step (m, v) (m, with_block true v)
| step_bulk_end s :
    tree_view_step s (bulk_end s).2
| step_row_expanded fuel iter_ s :
    tree_view_step s (on_row_expanded fuel iter_ s).2
| step_row_collapsed fuel iter_ s :
    tree_view_step s (on_row_collapsed fuel iter_ s).2
| step_navigate fuel iter_ m v :
    tree_view_step (m, v)
      ((_get_row_by_path is_children_loaded fuel iter_ m).2, v)
| step_get_value fuel iter_ column m v :
    tree_view_step (m, v)
      ((on_get_value is_children_loaded get_transformer fuel iter_ column m).2, v)
| step_ensure_loaded fuel row m v :
    tree_view_step (m, v)
      ((_ensure_children_is_loaded is_children_loaded fuel row m).2, v)
| step_add_rows fuel m v :
    tree_view_step (m, v) ((add_rows is_children_loaded fuel None m).2, v)
| step_toggle fuel path m v :
    tree_view_step (m, v) ((on_toggle fuel path 0 m).2, v).

(** What the start of the tree view's [refresh] does to its own fields. *)
Definition refreshed_view (v : DataGridView) : DataGridView :=
  with_block true (with_expanded_ids ∅ (with_expandable_ids ∅ v)).

(** What can happen to a tree view and the model it shares with the icon
    view.  Besides the tree view's own steps there are those of the
    controller and of the icon view.  [bind_datasource] gives both views
    a new model.  [_refresh_view] and [on_popup_view_changed] write the
    query and the image settings and refresh the active view: while that
    is the icon view, its [refresh] refreshes the shared model and the
    tree view's sets, flag and guard stay as they are; while it is the
    tree view, its [refresh] begins as in [refresh_begin]. *)
Inductive view_step : DataGridModel * DataGridView
                      → DataGridModel * DataGridView → Prop :=
| step_tree_view s s' :
    tree_view_step s s' → view_step s s'
| step_bind ds m v :
    view_step (m, v) (init ds, v)
| step_icon_refresh m v :
    view_step (m, v) ((refresh m).2, v)
| step_refresh_view_icon update_dict remove_keys m v :
    view_step (m, v) ((_refresh_view update_dict remove_keys m).2, v)
| step_view_changed_icon new_view m v r m' :
    on_popup_view_changed new_view m = Returned (icon_view, (r, m')) →
    view_step (m, v) (m', v)
| step_refresh_view_tree update_dict remove_keys m v m' :
    _refresh_view update_dict remove_keys m = (Ok (), m') →
    view_step (m, v) (m', refreshed_view v)
| step_view_changed_tree new_view m v m' :
    on_popup_view_changed new_view m = Returned (tree_view, (Ok (), m')) →
    view_step (m, v) (m', refreshed_view v).

(** The states a view reaches from its construction around some model. *)
Inductive view_run : DataGridModel * DataGridView → Prop :=
| run_init m : view_run (m, init_view)
| run_step s s' : view_run s → view_step s s' → view_run s'.

(** The ids of the resident rows that have children, computed afresh. *)
Definition expandable_ids (m : DataGridModel) : result () * gset fvalue :=
  match rows m with
  | Some root => collect_expandable (id_column_idx m) (iter_children root) ∅
  | None => (Raise AttributeError, ∅)
  end.

(** No resident row waits for children: the check of
    [_get_expandable_ids] succeeds (and there is nothing to wait for while
    no hierarchy is resident at all). *)
Definition fully_loaded (m : DataGridModel) : bool :=
  match rows m with
  | Some root => is_children_loaded_recursive root
  | None => true
  end.

(** The runs in which only the tree view touches the model, while
    hierarchical display is active and the selection flag is not the id
    column: every state along the way satisfies [tree_display]. *)
Definition tree_display (m : DataGridModel) : Prop :=
  is_tree m = true ∧ ∃ idx, id_column_idx m = Some idx ∧ 0 < idx.

Inductive tree_run : DataGridModel * DataGridView → Prop :=
| tree_init m : tree_display m → tree_run (m, init_view)
| tree_step s s' :
    tree_run s → tree_view_step s s' → tree_display s'.1 → tree_run s'.

(** What the view's bookkeeping promises about a state: a filled cache of
    expandable ids was computed from a hierarchy that waits for nothing
    and is still the set of expandable ids; and outside bulk operations
    [_all_expanded] holds only if nothing waits for children and the
    expanded ids are the expandable ids.  (The expandable ids cannot be
    computed when a row with children lacks the id column.) *)
Definition view_inv (s : DataGridModel * DataGridView) : Prop :=
  (_expandable_ids s.2 ≠ ∅ →
     fully_loaded s.1 = true
     ∧ ∀ ids, expandable_ids s.1 = (Ok (), ids) → _expandable_ids s.2 = ids)
  ∧ (_block_all_expanded s.2 = false → _all_expanded s.2 = true →
     fully_loaded s.1 = true
     ∧ ∀ ids, expandable_ids s.1 = (Ok (), ids) → _expanded_ids s.2 = ids).

(** A change of the model that a hierarchy waiting for nothing does not
    notice. *)
Definition harmless (m m' : DataGridModel) : Prop :=
  fully_loaded m = true →
  fully_loaded m' = true ∧ expandable_ids m' = expandable_ids m.

End View.

(** What [collect_expandable] reads of a row. *)
Definition row_view (idx : option Z) (row : Node) : nat * result scalar :=
  (length (children row), getitem_opt (data row) idx).

(** *** Pure descriptions of the loops, used to state their effect *)

(** The model with its hierarchy and row-id index replaced. *)
Definition with_rows_mapper (m : DataGridModel) (R : Node)
    (MP : gmap scalar ref) : DataGridModel :=
  with_row_id_mapper (λ _, MP) (with_rows (λ _, Some R) m).

(** The ids [refresh] and [add_rows] read from rows: [row.data[idx]] for
    each row, failing at the first row that has no such entry. *)
Fixpoint row_keys (idx : option Z) (xs : list Node) : result (list scalar) :=
  match xs with
  | [] => Ok []
  | x :: xs' =>
      match getitem_opt (data x) idx with
      | Ok key =>
          match row_keys idx xs' with
          | Ok keys => Ok (key :: keys)
          | Raise e => Raise e
          end
      | Raise e => Raise e
      end
  end.

(** Root rows [k], [k + 1], ..., [k + n - 1] given the paths [(k,)], ... *)
Fixpoint assign_paths (k n : nat) (root : Node) : Node :=
  match n with
  | O => root
  | S n' =>
      assign_paths (S k) n'
        (node_update (set_path (Some [Z.of_nat k])) [k] root)
  end.

(** The ids [keys] registered for the rows at [parent ++ [k]],
    [parent ++ [k + 1]], ..., later ones overwriting earlier ones. *)
Fixpoint register_rows (parent : ref) (k : nat) (keys : list scalar)
    (mapper : gmap scalar ref) : gmap scalar ref :=
  match keys with
  | [] => mapper
  | key :: keys' =>
      register_rows parent (S k) keys' (<[dict_key key := parent ++ [k]]> mapper)
  end.

(** The query [refresh] sends, and what the data source answers. *)
Definition refresh_params (m : DataGridModel) : gmap string pval :=
  delete "parent_id" (delete "page" (active_params m)).
Definition refresh_load (m : DataGridModel) : LoadResult :=
  load (data_source m) (log m) (refresh_params m).

(** The first half of [add_rows], up to the query it sends: the parent's
    id, the parent, the path offset and the new query parameters.  Nothing
    is written before all of them are known. *)
Definition add_rows_target (m : DataGridModel) (parent_node : option ref)
  : result (scalar * ref * Z * gmap string pval) :=
  match parent_node with
  | None =>
      match rows m with
      | None => Raise TypeError
      | Some root =>
          last ← getitem (children root) (-1);
          last_path ← match path last with
                      | Some p => Ok p
                      | None => Raise TypeError
                      end;
          last_index ← getitem last_path (-1);
          page ← pval_add_one (default (PScalar (SInt 0))
                                       (active_params m !! "page"));
          Ok (SNone, [], last_index + 1,
              <["parent_id" := PScalar SNone]>
                (<["page" := page]> (active_params m)))
      end
  | Some node =>
      match rows m with
      | None => Raise TypeError
      | Some root =>
          match node_at root node with
          | None => Raise IndexError
          | Some parent =>
              parent_id ← getitem_opt (data parent) (id_column_idx m);
              Ok (parent_id, node, 0,
                  <["parent_id" := PScalar parent_id]> (active_params m))
          end
      end
  end.

(** The model once [add_rows] has sent the query [params]. *)
Definition queried (params : gmap string pval) (m : DataGridModel)
  : DataGridModel :=
  with_log (Load params) (with_active_params (λ _, params) m).

Section Turns.

Variable is_children_loaded : Node → bool.

(** One turn of the loop of [add_rows] over the loaded rows. *)
Definition add_rows_turn (add_rows_rec : option ref → M bool)
    (is_tree : bool) (id_idx : option Z) (parent_row : ref) (path_offset : Z)
    (i : Z) (row : Node) : M () :=
  parent ← deref parent_row;
  parent_path ← lift (match path parent with
                      | Some p => Ok p
                      | None => Raise TypeError
                      end);
  let row_path := parent_path ++ [path_offset + i] in
  let row := set_path (Some row_path) row in
  key ← lift (getitem_opt (data row) id_idx);
  modify (with_row_id_mapper
            (<[dict_key key := parent_row ++ [length (children parent)]]>));;
  update_node (append row) parent_row;;
  if negb is_tree then
    on_get_iter_body is_children_loaded add_rows_rec row_path;;
    emit (RowInserted row_path)
  else mret ().

End Turns.

(** *** [DataGridModel]: the tree model interface *)

(** What [on_get_column_type] answers: [bool], [GdkPixbuf.Pixbuf] or
    [str]. *)
Inductive column_type := py_bool | GdkPixbuf_Pixbuf | py_str.

Definition on_get_n_columns (m : DataGridModel) : nat := length (columns m).

Definition on_get_column_type (index : Z) (m : DataGridModel)
  : result column_type :=
  col_dict ← getitem (columns m) index;
  if String.eqb (name col_dict) "__selected" then Ok py_bool
  else if bool_decide (transform col_dict = Some "boolean")
          || bool_decide (transform col_dict = Some "image")
       then Ok GdkPixbuf_Pixbuf
       else Ok py_str.

(** [tuple(rowref)] *)
Definition on_get_path (rowref : list Z) : list Z := rowref.

(** [on_iter_parent]; [child[:-1]] is [removelast child]. *)
Definition on_iter_parent (child : list Z) : option (list Z) :=
  if bool_decide (length child = 1%nat) then None
  else Some (removelast child).

Section TreeModel.

Variable is_children_loaded : Node → bool.

(** [len(rows)] for [rows] being [self.rows] ([None] before the first
    refresh) or a row that [_get_row_by_path] returned. *)
Definition len_of (rows : option ref) : M nat :=
  match rows with
  | None => root ← the_rows; mret (length (children root))
  | Some row => node ← deref row; mret (length (children node))
  end.

Definition on_iter_next (fuel : nat) (rowref : option (list Z))
  : M (option (list Z)) :=
  match rowref with
  | None => mret None
  | Some rowref =>
      '(rows, next_value) ←
        (if bool_decide (length rowref = 1%nat) then
           first ← lift (getitem rowref 0);
           mret (None, [first + 1])
         else
           let parentref := removelast rowref in
           row ← _get_row_by_path is_children_loaded fuel parentref;
           last ← lift (getitem rowref (-1));
           mret (Some row, parentref ++ [last + 1]));
      last ← lift (getitem next_value (-1));
      len ← len_of rows;
      if negb (last <? Z.of_nat len) then mret None
      else mret (Some next_value)
  end.

Definition on_iter_children (fuel : nat) (rowref : option (list Z))
  : M (option (list Z)) :=
  match rowref with
  | None => mret (Some [0])
  | Some rowref =>
      parent_row ← _get_row_by_path is_children_loaded fuel rowref;
      len ← len_of (Some parent_row);
      if bool_decide (len = 0%nat) then mret None
      else mret (Some (rowref ++ [0]))
  end.

(** [_get_row_by_path(None)] fails at [len(iter_aux)]. *)
Definition on_iter_has_child (fuel : nat) (rowref : option (list Z))
  : M bool :=
  match rowref with
  | None => lift (Raise TypeError)
  | Some rowref =>
      row ← _get_row_by_path is_children_loaded fuel rowref;
      len ← len_of (Some row);
      mret (negb (bool_decide (len = 0%nat)))
  end.

Definition on_iter_n_children (fuel : nat) (rowref : option (list Z))
  : M nat :=
  match rowref with
  | None => len_of None
  | Some rowref =>
      row ← _get_row_by_path is_children_loaded fuel rowref;
      len_of (Some row)
  end.

(** [0 <= n < len(rows)] asks for the length only when [0 <= n]. *)
Definition on_iter_nth_child (fuel : nat) (parent : option (list Z)) (n : Z)
  : M (option (list Z)) :=
  '(parent, rows) ←
    match parent with
    | None => mret ([], None)
    | Some parent =>
        row ← _get_row_by_path is_children_loaded fuel parent;
        mret (parent, Some row)
    end;
  in_range ← (if 0 <=? n then
                len ← len_of rows; mret (n <? Z.of_nat len)
              else mret false);
  if negb in_range then mret None else mret (Some (parent ++ [n])).

End TreeModel.

(** The rows [xs] appended one by one to the node at [parent], the row
    with loop index [k + i] given the path
    [parent_path ++ [path_offset + k + i]]: what the loop of [add_rows]
    does to the hierarchy. *)
Fixpoint append_rows (parent : ref) (parent_path : list Z) (path_offset : Z)
    (k : nat) (xs : list Node) (root : Node) : Node :=
  match xs with
  | [] => root
  | x :: xs' =>
      append_rows parent parent_path path_offset (S k) xs'
        (node_update
           (append (set_path (Some (parent_path ++ [path_offset + Z.of_nat k])) x))
           parent root)
  end.

(** The rows [xs] with the paths [add_rows] gives them. *)
Definition numbered (parent_path : list Z) (path_offset : Z) (xs : list Node)
  : list Node :=
  imap (λ i row, set_path (Some (parent_path ++ [path_offset + Z.of_nat i])) row)
       xs.

(** The model after a list of events. *)
Definition with_logs (events : list event) (m : DataGridModel)
  : DataGridModel :=
  foldl (λ m e, with_log e m) m events.

(** *** [iter_rows] and [get_row_by_id]

    [iter_rows] is a generator: the loop that consumes it runs its body
    after every row it yields and may leave before the generator is
    exhausted.  Below, [on_row] is that body; it answers [Some a] to leave
    with [a] and [None] to go on.  Rows are positions, and [for row in
    parent] reads the parent's children as they are when the loop gets to
    them.  The recursion is bounded by fuel, as for [add_rows]. *)

Section IterRows.

Variable is_children_loaded : Node → bool.
Variable A : Type.
Variable on_row : ref → M (option A).

(** [_iter_children_aux(parent)], from child [i] on. *)
Fixpoint iter_children_aux (fuel : nat) (load_rows : bool) (parent : ref)
    (i : nat) : M (option A) :=
  match fuel with
  | O => lift (Raise RecursionError)
  | S fuel' =>
      node ← deref parent;
      if bool_decide (i < length (children node))%nat then
        let row := parent ++ [i] in
        (if load_rows
         then _ensure_children_is_loaded is_children_loaded fuel' row
         else mret ());;
        found ← on_row row;
        match found with
        | Some a => mret (Some a)
        | None =>
            found ← iter_children_aux fuel' load_rows row 0;
            match found with
            | Some a => mret (Some a)
            | None => iter_children_aux fuel' load_rows parent (S i)
            end
        end
      else mret None
  end.

(** [while self.add_rows(): ...]: the rows of [self.rows[rows_len:]] are
    the root rows from [rows_len] on; no root row is added while they are
    walked. *)
Fixpoint iter_new_pages (fuel : nat) (rows_len : nat) : M (option A) :=
  match fuel with
  | O => lift (Raise RecursionError)
  | S fuel' =>
      changed ← add_rows is_children_loaded fuel' None;
      if changed : bool then
        found ← iter_children_aux fuel' true [] rows_len;
        match found with
        | Some a => mret (Some a)
        | None =>
            root ← the_rows;
            iter_new_pages fuel' (length (children root))
        end
      else mret None
  end.

Definition iter_rows (fuel : nat) (load_rows : bool) : M (option A) :=
  found ← iter_children_aux fuel load_rows [] 0;
  match found with
  | Some a => mret (Some a)
  | None =>
      if load_rows then
        root ← the_rows;
        iter_new_pages fuel (length (children root))
      else mret None
  end.

End IterRows.

(** [self.row_id_mapper[row_id]] if [row_id in self.row_id_mapper] *)
Definition in_row_id_mapper (row_id : scalar) : M (option ref) :=
  m ← get; mret (row_id_mapper m !! dict_key row_id).

Definition get_row_by_id (is_children_loaded : Node → bool) (fuel : nat)
    (row_id : scalar) (load_rows : bool) : M (option ref) :=
  found ← in_row_id_mapper row_id;
  match found with
  | Some row => mret (Some row)
  | None =>
      iter_rows is_children_loaded ref (λ _, in_row_id_mapper row_id)
        fuel load_rows
  end.

(** The number of rows that [_iter_children_aux] still has to yield
    below [node] from child [i] on, when nothing is loaded on the way. *)
Definition rows_ahead (node : Node) (i : nat) : nat :=
  length (flat_map (λ row, row :: iter_children row) (drop i (children node))).

(** *** More of the views *)

(** A sequence of [all-expanded] signals each of which reports a change,
    the state before the first one being [prev]. *)
Fixpoint signals_from (prev : bool) (signals : list bool) : bool :=
  match signals with
  | [] => true
  | b :: rest => bool_decide (b ≠ prev) && signals_from b rest
  end.

(** What the signal bookkeeping promises about a view. *)
Definition signals_ok (v : DataGridView) : Prop :=
  signals_from false (emitted v) = true
  ∧ default false (last (emitted v)) = _all_expanded v.

Section IconView.

Variable is_children_loaded : Node → bool.
Variable get_transformer : string → option transformer.

(** [DataGridIconView._toggle_path]: as [on_toggle] of the tree view, but
    without the [row-changed] signal. *)
Definition _toggle_path (fuel : nat) (path : list Z) : M () :=
  iter_ ← on_get_iter is_children_loaded fuel path;
  match iter_ with
  | None => lift (Raise ValueError)
  | Some iter_ =>
      val ← on_get_value is_children_loaded get_transformer fuel iter_ 0;
      set_value is_children_loaded get_transformer fuel iter_ 0
        (SBool (negb (fvalue_truthy val))) false
  end.

(** [DataGridIconView.on_key_press_event]: [space_pressed] is whether the
    key is the space bar, [selections] the selected paths. *)
Definition on_key_press_event (fuel : nat) (space_pressed has_checkboxes : bool)
    (selections : list (list Z)) : M bool :=
  if negb space_pressed then mret false
  else if negb has_checkboxes then mret space_pressed
  else match selections with
       | [] => mret space_pressed
       | path :: _ => _toggle_path fuel path;; mret true
       end.

End IconView.

(** *** More of the controller and of the tree view's header *)

Definition with_visible_range (r : option (list Z * list Z))
    (m : DataGridModel) : DataGridModel :=
  {| data_source := data_source m; columns := columns m;
     active_params := active_params m;
     row_id_mapper := row_id_mapper m; id_column_idx := id_column_idx m;
     parent_column_idx := parent_column_idx m;
     flat_column_idx := flat_column_idx m; rows := rows m;
     total_recs := total_recs m; visible_range := r;
     image_max_size := image_max_size m;
     image_draw_border := image_draw_border m;
     _invisible_images := _invisible_images m;
     _fallback_images := _fallback_images m; log := log m |}.

Section Scrolled.

Variable is_children_loaded : Node → bool.

(** The adjustment's values are floating point numbers; only their
    difference and their equality are used. *)
Variable float : Type.
Variable float_sub : float → float → float.
Variable float_eqb : float → float → bool.

Definition scrolled_to_bottom (value upper page_size : float) : bool :=
  float_eqb value (float_sub upper page_size) || float_eqb page_size upper.

(** [on_scrolled]: [icon_view_active] is [self.view is self.icon_view],
    [view_visible_range] what the view's [get_visible_range()] answers. *)
Definition on_scrolled (fuel : nat) (icon_view_active : bool)
    (view_visible_range : option (list Z * list Z))
    (value upper page_size : float) : M bool :=
  modify (with_visible_range
            (if icon_view_active then view_visible_range else None));;
  (if scrolled_to_bottom value upper page_size
   then add_rows is_children_loaded fuel None;; mret ()
   else mret ());;
  mret false.

End Scrolled.

(** [Gtk.SortType] *)
Inductive SortType := ASCENDING | DESCENDING.

(** The tree view's memory of the sorted column. *)
Record SortState := {
  active_sort_column : option string;
  active_sort_column_order : option SortType
}.

(** The sort order [_setup_columns] gives the header of column [item]
    when it builds the columns anew: the remembered order for the
    remembered column, the toolkit's default otherwise. *)
Definition header_sort_order (default_order : SortType) (s : SortState)
    (item : string) : SortType :=
  if bool_decide (active_sort_column s = Some item)
  then default default_order (active_sort_column_order s)
  else default_order.

(** [on_tvcol_clicked]: [sort_order] is what [widget.get_sort_order()]
    answers for the clicked header.  The refresh at the end is taken as
    far as the model's own, as for [_refresh_view]. *)
Definition on_tvcol_clicked (sort_order : SortType) (column : string)
    (m : DataGridModel) : SortState * (result () * DataGridModel) :=
  let new_sort_order :=
    match sort_order with
    | ASCENDING => DESCENDING
    | DESCENDING => ASCENDING
    end in
  let desc := match sort_order with DESCENDING => true | ASCENDING => false end in
  ({| active_sort_column := Some column;
      active_sort_column_order := Some new_sort_order |},
   (modify (with_active_params
              (λ params, <["desc" := PScalar (SBool desc)]>
                           (<["order_by" := PScalar (SStr column)]> params)));;
    refresh) m).

End Grid.

(** ** Sample data sources *)

Module Samples.
Import Grid.

(** A selection flag, an id and a title. *)
Definition sample_columns : list Column :=
  [ {| name := "__selected"; display := "__selected";
       transform := Some "boolean"; visible := true; expand := false |};
    {| name := "__id"; display := "__id";
       transform := None; visible := true; expand := false |};
    {| name := "title"; display := "Title";
       transform := Some "string"; visible := true; expand := true |} ].

(** A row announcing [children_len] children, none of them resident. *)
Definition row (id : scalar) (title : string) (children_len : Z) : Node :=
  mkNode [SBool false; id; SStr title] None [] children_len.

(** One way to decide [is_children_loaded]: a node keeps the number of
    children it expects and is loaded once at least that many are
    resident. *)
Definition loaded_by_count (n : Node) : bool :=
  priv n <=? Z.of_nat (length (children n)).

(** A registry knowing [boolean] and [string], both leaving the value as
    it is. *)
Definition sample_transformers (transformer_name : string)
  : option transformer :=
  if String.eqb transformer_name "boolean" || String.eqb transformer_name "string"
  then Some (λ value _, FValue value)
  else None.

Definition answer (rows : list Node) (id_idx parent_idx : option Z)
  : LoadResult :=
  {| loaded := mkNode [] None rows (Z.of_nat (length rows));
     ds_id_column_idx := id_idx;
     ds_parent_column_idx := parent_idx;
     ds_flat_column_idx := None;
     ds_total_recs := Z.of_nat (length rows) |}.

(** A flat list of two records, all on the first page. *)
Definition flat_source : DataSource :=
  {| ds_columns := sample_columns;
     load := λ _ params,
       match params !! "page" with
       | None => answer [row (SInt 1) "a" 0; row (SInt 2) "b" 0] (Some 1) None
       | Some _ => answer [] (Some 1) None
       end;
     config := [] |}.

(** The same records from a source that defines no id column. *)
Definition no_id_source : DataSource :=
  {| ds_columns := sample_columns;
     load := λ _ _, answer [row (SInt 1) "a" 0; row (SInt 2) "b" 0] None None;
     config := [] |}.

(** A flat list whose query matches nothing. *)
Definition empty_source : DataSource :=
  {| ds_columns := sample_columns;
     load := λ _ _, answer [] (Some 1) None;
     config := [] |}.

(** A flat list whose ids are strings. *)
Definition string_id_source : DataSource :=
  {| ds_columns := sample_columns;
     load := λ _ params,
       match params !! "page" with
       | None => answer [row (SStr "abc") "a" 0] (Some 1) None
       | Some _ => answer [] (Some 1) None
       end;
     config := [] |}.

(** Records with two date columns. *)
Definition dated_source : DataSource :=
  {| ds_columns :=
       sample_columns
       ++ [ {| name := "created"; display := "Created";
               transform := Some "timestamp"; visible := true;
               expand := false |};
            {| name := "modified"; display := "Modified";
               transform := Some "timestamp_ms"; visible := true;
               expand := false |} ];
     load := λ _ _, answer [] (Some 1) None;
     config := [] |}.

(** A source without a parent column whose first page holds a row with a
    resident child, and whose second page holds a row that announces a
    child it never delivers. *)
Definition paged_source : DataSource :=
  {| ds_columns := sample_columns;
     load := λ _ params,
       match params !! "page", params !! "parent_id" with
       | None, _ =>
           answer [mkNode [SBool false; SInt 1; SStr "a"] None
                     [row (SInt 2) "b" 0] 1]
                  (Some 1) None
       | Some _, Some (PScalar SNone) =>
           answer [row (SInt 3) "c" 1] (Some 1) None
       | Some _, _ => answer [] (Some 1) None
       end;
     config := [] |}.

(** A hierarchy: one root with one child, delivered when asked for. *)
Definition tree_source : DataSource :=
  {| ds_columns := sample_columns;
     load := λ _ params,
       match params !! "parent_id" with
       | Some (PScalar (SInt 1)) => answer [row (SInt 2) "b" 0] (Some 1) (Some 2)
       | Some _ => answer [] (Some 1) (Some 2)
       | None => answer [row (SInt 1) "a" 1] (Some 1) (Some 2)
       end;
     config := [] |}.

(** The view around the paged source: refreshed, its first row expanded,
    and then the next page asked for. *)
Definition paged_opened : DataGridModel * DataGridView :=
  (on_row_expanded loaded_by_count sample_transformers 2 [0]
     (bulk_end loaded_by_count
        (refresh_begin (init paged_source, init_view)).2).2).2.

Definition paged_next : DataGridModel * DataGridView :=
  ((add_rows loaded_by_count 2 None paged_opened.1).2, paged_opened.2).

(** The view around the hierarchy: refreshed, the root's child loaded, and
    the root expanded. *)
Definition tree_refreshed : DataGridModel * DataGridView :=
  (bulk_end loaded_by_count
     (refresh_begin ((refresh (init tree_source)).2, init_view)).2).2.

Definition tree_loaded : DataGridModel * DataGridView :=
  ((_ensure_children_is_loaded loaded_by_count 2 [0%nat] tree_refreshed.1).2,
   tree_refreshed.2).

Definition tree_opened : DataGridModel * DataGridView :=
  (on_row_expanded loaded_by_count sample_transformers 2 [0] tree_loaded).2.

(** Records with a thumbnail, and a registry that also knows [image]:
    the pixel buffer it renders is tagged with the length of the file
    name, 0 for no file name. *)
Definition image_columns : list Column :=
  sample_columns
  ++ [ {| name := "thumb"; display := "Thumb"; transform := Some "image";
          visible := true; expand := false |} ].

Definition image_source : DataSource :=
  {| ds_columns := image_columns;
     load := λ _ _,
       answer [mkNode [SBool false; SInt 1; SStr "a"; SStr "file:///tmp/a.png"]
                 None [] 0]
              (Some 1) None;
     config := [] |}.

Definition image_transformers (transformer_name : string)
  : option transformer :=
  if String.eqb transformer_name "image"
  then Some (λ value _,
               match value with
               | SStr s => FPixbuf (Rendered (Z.of_nat (String.length s)))
               | _ => FPixbuf (Rendered 0)
               end)
  else sample_transformers transformer_name.

(** A flat list in two pages: two records on the first, one on the
    second, nothing after that. *)
Definition two_page_source : DataSource :=
  {| ds_columns := sample_columns;
     load := λ _ params,
       match params !! "page" with
       | None => answer [row (SInt 1) "a" 0; row (SInt 2) "b" 0] (Some 1) None
       | Some (PScalar (SInt 1)) => answer [row (SInt 3) "c" 0] (Some 1) None
       | Some _ => answer [] (Some 1) None
       end;
     config := [] |}.

End Samples.

(** * Facts *)

(** ** Python basics *)

Lemma norm_index_nonneg (len : nat) (i : Z) :
  0 <= i < Z.of_nat len → norm_index len i = Ok (Z.to_nat i).
Proof.
  intros [H0 H1]. unfold norm_index.
  destruct (Z.leb_spec 0 i); [|lia]. destruct (Z.ltb_spec i (Z.of_nat len)); [|lia].
  reflexivity.
Qed.

Lemma norm_index_lt (len : nat) (i : Z) (n : nat) :
  norm_index len i = Ok n → (n < len)%nat.
Proof.
  unfold norm_index.
  destruct ((0 <=? i) && (i <? Z.of_nat len)) eqn:E1.
  - apply andb_true_iff in E1 as [H1 H2].
    apply Z.leb_le in H1. apply Z.ltb_lt in H2. intros [= <-]. lia.
  - destruct ((- Z.of_nat len <=? i) && (i <? 0)) eqn:E2; [|discriminate].
    apply andb_true_iff in E2 as [H1 H2].
    apply Z.leb_le in H1. apply Z.ltb_lt in H2. intros [= <-]. lia.
Qed.

Lemma norm_index_empty (i : Z) : norm_index 0 i = Raise IndexError.
Proof.
  unfold norm_index. change (Z.of_nat 0) with 0. change (- 0) with 0.
  destruct (Z.leb_spec 0 i), (Z.ltb_spec i 0); simpl; try reflexivity; lia.
Qed.

Lemma getitem_nonneg {A} (l : list A) (n : nat) (x : A) :
  l !! n = Some x → getitem l (Z.of_nat n) = Ok x.
Proof.
  intros H. unfold getitem.
  rewrite norm_index_nonneg by (apply lookup_lt_Some in H; lia).
  rewrite Nat2Z.id, H. reflexivity.
Qed.

Lemma getitem_empty {A} (i : Z) : getitem (@nil A) i = Raise IndexError.
Proof. unfold getitem. simpl. rewrite norm_index_empty. reflexivity. Qed.

Lemma split_no_sep (sep : ascii) (s : string) :
  contains sep s = false → split sep s = [s].
Proof.
  induction s as [|c s IH]; simpl; [reflexivity|].
  destruct (Ascii.eqb c sep); simpl; [discriminate|].
  intros H. rewrite (IH H). reflexivity.
Qed.

Lemma split_two (sep : ascii) (a b : string) :
  contains sep a = false → contains sep b = false →
  split sep (a +:+ String sep b) = [a; b].
Proof.
  intros Ha Hb. induction a as [|c a IH]; simpl in *.
  - rewrite Ascii.eqb_refl, (split_no_sep _ _ Hb). reflexivity.
  - destruct (Ascii.eqb c sep); simpl in *; [discriminate|].
    rewrite (IH Ha). reflexivity.
Qed.


(** ** Image utilities *)

Section IconFacts.

Variable isdir : string → bool.
Variable guess_type : string → option string.

Lemma mimetype_details_split (filename type subtype : string) :
  isdir filename = false →
  contains "/" type = false → contains "/" subtype = false →
  ImageUtils.guessed_mime guess_type filename = type +:+ "/" +:+ subtype →
  ImageUtils.mimetype_details isdir guess_type filename = Ok (type, subtype).
Proof.
  intros Hdir Ht Hs Hg. unfold ImageUtils.mimetype_details.
  rewrite Hdir, Hg.
  change (type +:+ "/" +:+ subtype) with (type +:+ String "/" subtype).
  rewrite split_two by assumption. reflexivity.
Qed.

Lemma guessed_mime_default (filename : string) :
  guess_type filename = None →
  ImageUtils.guessed_mime guess_type filename = "unknown/unknown".
Proof. intros H. unfold ImageUtils.guessed_mime. rewrite H. reflexivity. Qed.

(** C6: for a file (not a directory) whose guessed mimetype is
    [type/subtype] -- [unknown/unknown] when guessing fails -- the names
    handed to the icon theme are, in this order, [type-subtype],
    [subtype], [type], then [application-x-subtype] exactly when the type
    is [application], then [type-x-generic], then [unknown]; the theme is
    asked for exactly this list; and [image/png] gives [image-png],
    [png], [image], [image-x-generic], [unknown]. *)
Theorem icon_candidates_order (filename type subtype : string) :
  isdir filename = false →
  contains "/" type = false → contains "/" subtype = false →
  ImageUtils.guessed_mime guess_type filename = type +:+ "/" +:+ subtype →
  ∃ names,
    ImageUtils.icon_candidates isdir guess_type filename = Ok names
    ∧ (type = "application" →
       names = [type +:+ "-" +:+ subtype; subtype; type;
                "application-x-" +:+ subtype;
                type +:+ "-x-generic"; "unknown"])
    ∧ (type ≠ "application" →
       names = [type +:+ "-" +:+ subtype; subtype; type;
                type +:+ "-x-generic"; "unknown"])
    ∧ (type = "image" → subtype = "png" →
       names = ["image-png"; "png"; "image"; "image-x-generic"; "unknown"])
    ∧ (guess_type filename = None →
       names = ["unknown-unknown"; "unknown"; "unknown";
                "unknown-x-generic"; "unknown"])
    ∧ ∀ choose_icon size,
        ImageUtils.get_icon_for_file isdir guess_type choose_icon filename size
        = ImageUtils.icon_filename (choose_icon names size ImageUtils.NO_SVG).
Proof.
  intros Hdir Ht Hs Hg.
  exists (ImageUtils.icon_list type subtype).
  assert (Hc : ImageUtils.icon_candidates isdir guess_type filename
               = Ok (ImageUtils.icon_list type subtype)).
  { unfold ImageUtils.icon_candidates.
    rewrite (mimetype_details_split _ _ _ Hdir Ht Hs Hg). reflexivity. }
  split; [exact Hc|].
  repeat split.
  - intros ->. reflexivity.
  - intros Hne. unfold ImageUtils.icon_list.
    destruct (decide (type = "application")); [contradiction|reflexivity].
  - intros -> ->. reflexivity.
  - intros Hnone. rewrite (guessed_mime_default _ Hnone) in Hg.
    assert (Hsp : split "/" (type +:+ String "/" subtype) = [type; subtype])
      by (apply split_two; assumption).
    change (type +:+ "/" +:+ subtype) with (type +:+ String "/" subtype) in Hg.
    rewrite <- Hg in Hsp. vm_compute in Hsp.
    injection Hsp as <- <-. reflexivity.
  - intros choose_icon size. unfold ImageUtils.get_icon_for_file.
    rewrite Hc. reflexivity.
Qed.

End IconFacts.

Lemma icon_candidates_order_witness :
∃ names,
  ImageUtils.icon_candidates (λ _, false) (λ _, Some "image/png")
    "photo.png" = Ok names
  ∧ names = ["image-png"; "png"; "image"; "image-x-generic"; "unknown"].
Proof.
destruct (icon_candidates_order (λ _, false) (λ _, Some "image/png")
            "photo.png" "image" "png" eq_refl eq_refl eq_refl eq_refl)
  as (names & Hc & _ & _ & Hpng & _).
exists names. split; [exact Hc | exact (Hpng eq_refl eq_refl)].
Defined.

(** C4, as stated, fails: with an icon theme that can satisfy none of the
  names, the lookup yields [None] and [icon.get_filename()] raises. *)
Lemma get_icon_for_file_unresolved_raises :
ImageUtils.get_icon_for_file (λ _, false) (λ _, None) (λ _ _ _, None)
  "notes.txt" 16 = Raise AttributeError
∧ ¬ (∀ isdir guess_type choose_icon filename size,
       ∃ r, ImageUtils.get_icon_for_file isdir guess_type choose_icon
              filename size = Ok r).
Proof.
split; [reflexivity|].
intros H.
destruct (H (λ _, false) (λ _, None) (λ _ _ _, None) "notes.txt" 16)
  as [r Hr].
discriminate Hr.
Qed.

(** C4, amended: for a directory, or a file whose guessed mimetype has the
  form [type/subtype], the operation asks the theme for the candidate
  names (ending in [unknown]); it returns the chosen icon's file name
  when the theme satisfies one of them, and raises when it satisfies
  none.  It returns successfully only in the first case. *)
Theorem get_icon_for_file_result
  (isdir : string → bool) (guess_type : string → option string)
  (choose_icon : list string → Z → ImageUtils.IconLookupFlags
                 → option ImageUtils.IconInfo)
  (filename : string) (size : Z) (mimetype details : string) :
ImageUtils.mimetype_details isdir guess_type filename = Ok (mimetype, details) →
∃ names,
  ImageUtils.icon_candidates isdir guess_type filename = Ok names
  ∧ last names = Some "unknown"
  ∧ (∀ icon, choose_icon names size ImageUtils.NO_SVG = Some icon →
       ImageUtils.get_icon_for_file isdir guess_type choose_icon filename size
       = Ok (ImageUtils.get_filename icon))
  ∧ (choose_icon names size ImageUtils.NO_SVG = None →
       ImageUtils.get_icon_for_file isdir guess_type choose_icon filename size
       = Raise AttributeError)
  ∧ (∀ r, ImageUtils.get_icon_for_file isdir guess_type choose_icon
            filename size = Ok r →
          ∃ icon, choose_icon names size ImageUtils.NO_SVG = Some icon
                  ∧ r = ImageUtils.get_filename icon).
Proof.
intros Hm. exists (ImageUtils.icon_list mimetype details).
assert (Hc : ImageUtils.icon_candidates isdir guess_type filename
             = Ok (ImageUtils.icon_list mimetype details)).
{ unfold ImageUtils.icon_candidates. rewrite Hm. reflexivity. }
split; [exact Hc|]. split.
{ unfold ImageUtils.icon_list.
  destruct (decide (mimetype = "application")); reflexivity. }
unfold ImageUtils.get_icon_for_file. rewrite Hc. simpl.
repeat split.
- intros icon ->. reflexivity.
- intros ->. reflexivity.
- intros r. destruct (choose_icon _ _ _) as [icon|]; simpl.
  + intros [= <-]. exists icon. split; reflexivity.
  + discriminate.
Qed.

Lemma get_icon_for_file_result_witness :
ImageUtils.mimetype_details (λ _, true) (λ _, None) "/home" = Ok ("folder", "folder")
∧ ∃ names,
    ImageUtils.icon_candidates (λ _, true) (λ _, None) "/home" = Ok names
    ∧ ImageUtils.get_icon_for_file (λ _, true) (λ _, None) (λ _ _ _, None)
        "/home" 48 = Raise AttributeError.
Proof.
split; [reflexivity|].
destruct (get_icon_for_file_result (λ _, true) (λ _, None) (λ _ _ _, None)
            "/home" 48 "folder" "folder" eq_refl)
  as (names & Hc & _ & _ & Hnone & _).
exists names. split; [exact Hc | exact (Hnone eq_refl)].
Defined.

(** *** The drop-shadow cache *)

Section DropShadowFacts.

Context {Image : Type}.
Variable image_size : Image → Z * Z.
Variable Image_new : Z * Z → ImageUtils.rgba → Image.
Variable paste_color : Image → ImageUtils.rgba → Z * Z * Z * Z → Image.
Variable paste_image : Image → Image → Z * Z → Image.
Variable blur : Image → Image.

Abbreviation add_drop_shadow :=
  (ImageUtils.add_drop_shadow Image image_size Image_new paste_color
     paste_image blur).
Abbreviation key_of := (ImageUtils.key_of Image image_size).
Abbreviation shadow_rectangle :=
  (ImageUtils.shadow_rectangle Image image_size Image_new paste_color).
Abbreviation cache := (ImageUtils._drop_shadows_cache Image).
Abbreviation blur_calls := (ImageUtils.blur_calls Image).

Abbreviation blurred_shadow :=
  (ImageUtils.blurred_shadow Image image_size Image_new paste_color blur).

Lemma blur_loop_iter (iterations : Z) (shadow : Image) (calls : nat) :
  ImageUtils.blur_loop Image blur iterations shadow calls
  = (Nat.iter (Z.to_nat iterations) blur shadow,
     (calls + Z.to_nat iterations)%nat).
Proof.
  unfold ImageUtils.blur_loop.
  induction (Z.to_nat iterations) as [|n IH]; simpl.
  - f_equal. lia.
  - rewrite IH. simpl. f_equal. lia.
Qed.

(** A hit: the state is untouched and the cached canvas is composed with
    the image. *)
Lemma add_drop_shadow_hit image iterations border_size offset shadow_color st
    (canvas : Image) :
  cache st !! key_of image iterations border_size offset shadow_color
    = Some canvas →
  add_drop_shadow image iterations border_size offset shadow_color st
  = (paste_image canvas image (ImageUtils.image_position border_size offset),
     st).
Proof.
  intros H. unfold ImageUtils.add_drop_shadow. rewrite H. reflexivity.
Qed.

(** A miss: the canvas is computed with [iterations] applications of the
    blur and stored under the key. *)
Lemma add_drop_shadow_miss image iterations border_size offset shadow_color st :
  cache st !! key_of image iterations border_size offset shadow_color = None →
  add_drop_shadow image iterations border_size offset shadow_color st
  = (paste_image
       (blurred_shadow image iterations border_size offset shadow_color)
       image (ImageUtils.image_position border_size offset),
     {| ImageUtils._drop_shadows_cache :=
          <[key_of image iterations border_size offset shadow_color :=
              blurred_shadow image iterations border_size offset shadow_color]>
            (cache st);
        ImageUtils.blur_calls := (blur_calls st + Z.to_nat iterations)%nat |}).
Proof.
  intros H. unfold ImageUtils.add_drop_shadow. rewrite H.
  rewrite blur_loop_iter. reflexivity.
Qed.

(** The key determines the canvas: two calls with the same key would
    compute the same blurred shadow. *)
Lemma key_determines_canvas image1 it1 b1 off1 col1 image2 it2 b2 off2 col2 :
  key_of image1 it1 b1 off1 col1 = key_of image2 it2 b2 off2 col2 →
  blurred_shadow image1 it1 b1 off1 col1 = blurred_shadow image2 it2 b2 off2 col2.
Proof.
  unfold ImageUtils.key_of, ImageUtils.canvas_size, ImageUtils.blurred_shadow,
    ImageUtils.shadow_rectangle, ImageUtils.canvas_size.
  destruct (image_size image1) as [w1 h1], (image_size image2) as [w2 h2].
  destruct off1 as [x1 y1], off2 as [x2 y2]. simpl.
  intros [= Hw Hh -> -> -> -> ->].
  assert (w1 = w2) as -> by lia. assert (h1 = h2) as -> by lia.
  reflexivity.
Qed.

(** After any call the key of that call is cached. *)
Lemma add_drop_shadow_caches image iterations border_size offset shadow_color
    st r st' :
  add_drop_shadow image iterations border_size offset shadow_color st = (r, st') →
  is_Some (cache st' !! key_of image iterations border_size offset shadow_color)
  ∧ ∀ k, is_Some (cache st !! k) → cache st' !! k = cache st !! k.
Proof.
  destruct (cache st !! key_of image iterations border_size offset shadow_color)
    as [canvas|] eqn:Hk.
  - rewrite (add_drop_shadow_hit _ _ _ _ _ _ _ Hk). intros [= <- <-].
    split; [rewrite Hk; eauto | reflexivity].
  - rewrite (add_drop_shadow_miss _ _ _ _ _ _ Hk). intros [= <- <-]. simpl.
    split; [rewrite lookup_insert_eq; eauto|].
    intros k [c Hc]. rewrite lookup_insert_ne; [reflexivity|].
    intros <-. rewrite Hk in Hc. discriminate.
Qed.

(** C7: of two successive calls with the same derived key, the second
    leaves the blur counter and the cache as they are and composes the
    image with the cached canvas; when the first call was a miss, that
    canvas is the shadow blurred during the first call (and it is the one
    the second call would have computed).  A second call whose key differs
    and is not yet cached applies the blur [iterations] times and stores a
    new entry under its key. *)
Theorem add_drop_shadow_cache_reuse
    image1 it1 b1 off1 col1 image2 it2 b2 off2 col2 st r1 st1 r2 st2 :
  add_drop_shadow image1 it1 b1 off1 col1 st = (r1, st1) →
  add_drop_shadow image2 it2 b2 off2 col2 st1 = (r2, st2) →
  (key_of image1 it1 b1 off1 col1 = key_of image2 it2 b2 off2 col2 →
     blur_calls st2 = blur_calls st1
     ∧ cache st2 = cache st1
     ∧ ∃ canvas,
         cache st1 !! key_of image1 it1 b1 off1 col1 = Some canvas
         ∧ r2 = paste_image canvas image2 (ImageUtils.image_position b2 off2)
         ∧ (cache st !! key_of image1 it1 b1 off1 col1 = None →
              blur_calls st1 = (blur_calls st + Z.to_nat it1)%nat
              ∧ canvas = blurred_shadow image1 it1 b1 off1 col1
              ∧ canvas = blurred_shadow image2 it2 b2 off2 col2))
  ∧ (key_of image1 it1 b1 off1 col1 ≠ key_of image2 it2 b2 off2 col2 →
     cache st !! key_of image2 it2 b2 off2 col2 = None →
     blur_calls st2 = (blur_calls st1 + Z.to_nat it2)%nat
     ∧ cache st2 = <[key_of image2 it2 b2 off2 col2 :=
                       blurred_shadow image2 it2 b2 off2 col2]> (cache st1)
     ∧ r2 = paste_image (blurred_shadow image2 it2 b2 off2 col2) image2
              (ImageUtils.image_position b2 off2)).
Proof.
  intros H1 H2. split.
  - intros Hkey.
    destruct (add_drop_shadow_caches _ _ _ _ _ _ _ _ H1) as [[canvas Hc] _].
    rewrite Hkey in Hc.
    rewrite (add_drop_shadow_hit _ _ _ _ _ _ _ Hc) in H2.
    injection H2 as <- <-.
    split; [reflexivity|]. split; [reflexivity|].
    exists canvas. rewrite Hkey. split; [exact Hc|]. split; [reflexivity|].
    intros Hnone. rewrite <- Hkey in Hc, Hnone.
    rewrite (add_drop_shadow_miss image1 it1 b1 off1 col1 st Hnone) in H1.
    injection H1 as <- <-. simpl in *.
    rewrite lookup_insert_eq in Hc. injection Hc as <-.
    split; [reflexivity|]. split; [reflexivity|].
    apply key_determines_canvas, Hkey.
  - intros Hne Hnone.
    assert (Hnone1 : cache st1 !! key_of image2 it2 b2 off2 col2 = None).
    { destruct (cache st !! key_of image1 it1 b1 off1 col1) as [c|] eqn:Hk.
      - rewrite (add_drop_shadow_hit image1 it1 b1 off1 col1 st c Hk) in H1.
        injection H1 as <- <-. exact Hnone.
      - rewrite (add_drop_shadow_miss image1 it1 b1 off1 col1 st Hk) in H1.
        injection H1 as <- <-. simpl.
        rewrite lookup_insert_ne by exact Hne. exact Hnone. }
    rewrite (add_drop_shadow_miss _ _ _ _ _ _ Hnone1) in H2.
    injection H2 as <- <-. simpl. repeat split.
Qed.

End DropShadowFacts.


(** The theorem at work on images that only remember how often they were
    blurred: a 10x20 image, shadowed twice with the default arguments. *)
Lemma add_drop_shadow_cache_reuse_witness :
  let add := ImageUtils.add_drop_shadow nat (λ _, (10, 20)) (λ _ _, 0%nat)
               (λ im _ _, im) (λ canvas _ _, canvas) S in
  let st0 := {| ImageUtils._drop_shadows_cache := ∅;
                ImageUtils.blur_calls := 0 |} in
  let p1 := add 7%nat 3 2 (2, 2) (0, 0, 0, 255) st0 in
  let p2 := add 9%nat 3 2 (2, 2) (0, 0, 0, 255) p1.2 in
  ImageUtils.blur_calls nat p2.2 = ImageUtils.blur_calls nat p1.2
  ∧ ImageUtils.blur_calls nat p1.2 = 3%nat.
Proof.
  intros add st0 p1 p2.
  destruct (add_drop_shadow_cache_reuse (λ _, (10, 20)) (λ _ _, 0%nat)
              (λ im _ _, im) (λ canvas _ _, canvas) S
              7%nat 3 2 (2, 2) (0, 0, 0, 255) 9%nat 3 2 (2, 2) (0, 0, 0, 255)
              st0 p1.1 p1.2 p2.1 p2.2
              (surjective_pairing p1) (surjective_pairing p2))
    as [Hsame _].
  destruct (Hsame eq_refl) as (Hcalls & _ & canvas & _ & _ & Hfirst).
  split; [exact Hcalls|].
  exact (proj1 (Hfirst eq_refl)).
Defined.

(** ** The tree view's column widths *)

Lemma foldr_max_upper (l : Z) (ls : list Z) :
  l <= foldr Z.max l ls ∧ ∀ x, x ∈ ls → x <= foldr Z.max l ls.
Proof.
  induction ls as [|y ls [IH1 IH2]]; simpl.
  - split; [lia|]. intros x Hx. inversion Hx.
  - split; [lia|]. intros x Hx. inversion Hx; subst; [lia|].
    specialize (IH2 x ltac:(assumption)). lia.
Qed.

Lemma foldr_max_elem (l : Z) (ls : list Z) : foldr Z.max l ls ∈ l :: ls.
Proof.
  induction ls as [|y ls IH]; simpl.
  - left.
  - destruct (Z.max_spec y (foldr Z.max l ls)) as [[_ E]|[_ E]]; rewrite E.
    + apply elem_of_cons in IH as [IH|IH].
      * rewrite IH. left.
      * right. right. exact IH.
    + right. left.
Qed.

(** The width computed from the measured lengths, in the words of the
    specification. *)
Lemma best_width_spec (lengths : list Z) (label_width : Z) :
  ∃ measured_max,
    (lengths = [] → measured_max = 1)
    ∧ (lengths ≠ [] →
       measured_max ∈ lengths ∧ ∀ x, x ∈ lengths → x <= measured_max)
    ∧ (measured_max < Grid.MIN_WIDTH ∧ Grid.MIN_WIDTH < label_width →
       Grid.best_width lengths label_width = label_width + 20)
    ∧ (¬ (measured_max < Grid.MIN_WIDTH ∧ Grid.MIN_WIDTH < label_width) →
       Grid.best_width lengths label_width
       = Z.max Grid.MIN_WIDTH (Z.min Grid.MAX_WIDTH measured_max)).
Proof.
  exists (match lengths with [] => 1 | l :: ls => foldr Z.max l ls end).
  split; [intros ->; reflexivity|]. split.
  { destruct lengths as [|l ls]; [congruence|]. intros _. split.
    - apply foldr_max_elem.
    - intros x Hx. destruct (foldr_max_upper l ls) as [H1 H2].
      inversion Hx; subst; [lia | auto]. }
  unfold Grid.best_width, Grid.MIN_WIDTH, Grid.MAX_WIDTH.
  set (mx := match lengths with [] => 1 | l :: ls => foldr Z.max l ls end).
  split.
  - intros [H1 H2].
    destruct (Z.ltb_spec mx 40); [|lia].
    destruct (Z.ltb_spec 40 label_width); [reflexivity|lia].
  - intros Hn.
    destruct (Z.ltb_spec mx 40).
    + destruct (Z.ltb_spec 40 label_width); [lia|lia].
    + destruct (Z.gtb_spec mx 400); lia.
Qed.

Section BestWidthFacts.

Variable get_transformer : string → option Grid.transformer.
Variable create_pango_layout : string → result Z.
Variable splitlines : string → list string.

(** C8: whenever [_get_best_column_width] returns, it returns the maximum
    of the measured sample widths (1 when nothing was measured) clamped
    to at least 40 and at most 400, except that a maximum below 40 with a
    header label wider than 40 gives the label width plus 20; the measured
    widths 20, 500, 45 give 400, and widths of 10 throughout with a label
    width of 60 give 80. *)
Theorem best_column_width_clamped (colnum : Z) (samples : list (list Grid.scalar))
    (m m' : Grid.DataGridModel) (width : Z) :
  Grid._get_best_column_width get_transformer create_pango_layout splitlines
    colnum samples m = (Ok width, m') →
  ∃ col_dict label_width lengths m1 measured_max,
    getitem (Grid.columns m) colnum = Ok col_dict
    ∧ create_pango_layout ("  " +:+ Grid.display col_dict +:+ "  ") = Ok label_width
    ∧ Grid.sample_lengths get_transformer create_pango_layout splitlines
        colnum samples m = (Ok lengths, m1)
    ∧ (lengths = [] → measured_max = 1)
    ∧ (lengths ≠ [] →
       measured_max ∈ lengths ∧ ∀ x, x ∈ lengths → x <= measured_max)
    ∧ (measured_max < 40 ∧ 40 < label_width → width = label_width + 20)
    ∧ (¬ (measured_max < 40 ∧ 40 < label_width) →
       width = Z.max 40 (Z.min 400 measured_max))
    ∧ Grid.best_width [20; 500; 45] label_width = 400
    ∧ Grid.best_width [10; 10; 10] 60 = 80.
Proof.
  unfold Grid._get_best_column_width, mbind, Grid.M_bind, Grid.get, Grid.lift.
  destruct (getitem (Grid.columns m) colnum) as [col_dict|e]; [|discriminate].
  destruct (create_pango_layout _) as [label_width|e] eqn:Hl; [|discriminate].
  destruct (Grid.sample_lengths _ _ _ colnum samples m) as [[lengths|e] m1] eqn:Hs;
    [|discriminate].
  intros [= <- <-].
  destruct (best_width_spec lengths label_width) as (mx & H1 & H2 & H3 & H4).
  exists col_dict, label_width, lengths, m1, mx.
  repeat split; try assumption; try reflexivity; apply H2; assumption.
Qed.

End BestWidthFacts.


(** The theorem at a column holding three texts that measure 20, 500 and
    45 pixels. *)
Lemma best_column_width_clamped_witness :
  let layout := λ s : string,
    if String.eqb s "  a  " then Ok 20
    else if String.eqb s "  wide  " then Ok 500
    else if String.eqb s "  bc  " then Ok 45
    else Ok 30 in
  let m := Grid.init
    {| Grid.ds_columns := [ {| Grid.name := "title"; Grid.display := "Title";
                               Grid.transform := None; Grid.visible := true;
                               Grid.expand := false |} ];
       Grid.load := λ _ _, {| Grid.loaded := Grid.mkNode [] None [] 0;
                              Grid.ds_id_column_idx := None;
                              Grid.ds_parent_column_idx := None;
                              Grid.ds_flat_column_idx := None;
                              Grid.ds_total_recs := 0 |};
       Grid.config := [] |} in
  Grid._get_best_column_width (λ _, None) layout (λ s, [s]) 0
    [[Grid.SStr "a"]; [Grid.SStr "wide"]; [Grid.SStr "bc"]] m = (Ok 400, m)
  ∧ Grid.best_width [20; 500; 45] 30 = 400.
Proof.
  intros layout m. split; [reflexivity|].
  destruct (best_column_width_clamped (λ _, None) layout (λ s, [s]) 0
              [[Grid.SStr "a"]; [Grid.SStr "wide"]; [Grid.SStr "bc"]]
              m m 400 eq_refl)
    as (col_dict & label_width & lengths & m1 & mx & Hc & Hl & _ & _ & _ & _ & _ & H & _).
  injection Hc as <-. injection Hl as <-. exact H.
Defined.

(** ** The model *)

Import Grid.

#[global] Arguments getitem : simpl never.
#[global] Arguments getitem_opt : simpl never.
#[global] Arguments setitem : simpl never.
#[global] Arguments norm_index : simpl never.
#[global] Arguments pval_add_one : simpl never.

(** Unfolding the monad of model methods. *)
Ltac mstep :=
  repeat (progress (unfold mbind, mret, M_bind, M_ret, get, modify, lift,
                      emit, the_rows, deref, update_node; simpl)).
Ltac mnorm :=
  cbv beta iota delta [mbind M_bind get modify lift mret M_ret emit
                       update_node update_data_source deref the_rows].

(** *** [refresh] *)

Lemma bind_run {A B} (c : M A) (f : A → M B) (m : DataGridModel) :
  (c ≫= f) m = match c m with
               | (Ok a, m') => f a m'
               | (Raise e, m') => (Raise e, m')
               end.
Proof. reflexivity. Qed.

Lemma register_rows_app parent k keys1 keys2 mapper :
  register_rows parent k (keys1 ++ keys2) mapper
  = register_rows parent (k + length keys1) keys2 (register_rows parent k keys1 mapper).
Proof.
  revert k mapper. induction keys1 as [|key keys1 IH]; intros k mapper; simpl.
  - rewrite Nat.add_0_r. reflexivity.
  - rewrite IH. f_equal. lia.
Qed.

(** Last write wins. *)
Lemma register_rows_lookup parent k keys mapper i key :
  keys !! i = Some key →
  ∃ j key_j,
    register_rows parent k keys mapper !! dict_key key = Some (parent ++ [(k + j)%nat])
    ∧ (i <= j)%nat
    ∧ keys !! j = Some key_j ∧ dict_key key_j = dict_key key
    ∧ ∀ j' key', keys !! j' = Some key' → dict_key key' = dict_key key → (j' <= j)%nat.
Proof.
  revert i key. induction keys as [|key_last keys IH] using rev_ind; intros i key Hi.
  - discriminate.
  - rewrite register_rows_app. simpl.
    destruct (decide (dict_key key_last = dict_key key)) as [Heq|Hne].
    + exists (length keys), key_last. rewrite Heq, lookup_insert_eq.
      assert (i < length (keys ++ [key_last]))%nat by (eapply lookup_lt_Some; eauto).
      rewrite length_app in H. simpl in H.
      split; [reflexivity|]. split; [lia|].
      split; [rewrite lookup_app_r, Nat.sub_diag by lia; reflexivity|].
      split; [reflexivity|].
      intros j' key' Hj' _. apply lookup_lt_Some in Hj'.
      rewrite length_app in Hj'. simpl in Hj'. lia.
    + rewrite lookup_insert_ne by assumption.
      assert (Hi' : keys !! i = Some key).
      { destruct (decide (i < length keys)%nat).
        - rewrite lookup_app_l in Hi by assumption. exact Hi.
        - rewrite lookup_app_r in Hi by lia.
          destruct (i - length keys)%nat; simpl in Hi; [|discriminate].
          injection Hi as ->. congruence. }
      destruct (IH i key Hi') as (j & key_j & H1 & H2 & H3 & H4 & H5).
      exists j, key_j. split; [assumption|]. split; [assumption|].
      split; [rewrite lookup_app_l by (eapply lookup_lt_Some; eauto); assumption|].
      split; [assumption|].
      intros j' key' Hj' Hk.
      destruct (decide (j' < length keys)%nat).
      * rewrite lookup_app_l in Hj' by assumption. eauto.
      * rewrite lookup_app_r in Hj' by lia.
        destruct (j' - length keys)%nat; simpl in Hj'; [|discriminate].
        injection Hj' as ->. congruence.
Qed.

Lemma register_rows_other parent k keys mapper key :
  (∀ key', key' ∈ keys → dict_key key' ≠ key) →
  register_rows parent k keys mapper !! key = mapper !! key.
Proof.
  revert k mapper. induction keys as [|key0 keys IH]; intros k mapper H; simpl.
  - reflexivity.
  - rewrite IH by (intros; apply H; right; assumption).
    apply lookup_insert_ne. apply H. left.
Qed.

Abbreviation st := Grid.with_rows_mapper.

Lemma refresh_loop (idx : Z) (m : DataGridModel) (xs : list Node) :
  ∀ (k : nat) (R : Node) (MP : gmap scalar ref) (keys : list scalar),
  row_keys (Some idx) xs = Ok keys →
  for_enumerate (Z.of_nat k) xs
    (λ i row,
       update_node (set_path (Some [i])) [Z.to_nat i];;
       key ← lift (getitem (data row) idx);
       modify (with_row_id_mapper (<[dict_key key := [Z.to_nat i]]>)))
    (st m R MP)
  = (Ok (), st m (assign_paths k (length xs) R) (register_rows [] k keys MP)).
Proof.
  induction xs as [|x xs IH]; intros k R MP keys Hk; simpl in *.
  - injection Hk as <-. reflexivity.
  - unfold getitem_opt in Hk.
    destruct (getitem (data x) idx) as [key|e] eqn:Hx in Hk; [|discriminate].
    destruct (row_keys (Some idx) xs) as [keys'|e] eqn:Hxs; [|discriminate].
    injection Hk as <-.
    unfold mbind at 1, M_bind. unfold mbind at 1, M_bind, update_node, modify.
    unfold mbind at 1, M_bind, lift. rewrite Hx.
    replace (Z.of_nat k + 1) with (Z.of_nat (S k)) by lia.
    rewrite Nat2Z.id.
    exact (IH (S k) (node_update (set_path (Some [Z.of_nat k])) [k] R)
              (<[dict_key key := [k]]> MP) keys' eq_refl).
Qed.

Lemma refresh_loop_raise (idx : Z) (m : DataGridModel) (xs : list Node) :
  ∀ (k : nat) (R : Node) (MP : gmap scalar ref) (e : exn),
  row_keys (Some idx) xs = Raise e →
  ∃ m',
  for_enumerate (Z.of_nat k) xs
    (λ i row,
       update_node (set_path (Some [i])) [Z.to_nat i];;
       key ← lift (getitem (data row) idx);
       modify (with_row_id_mapper (<[dict_key key := [Z.to_nat i]]>)))
    (st m R MP)
  = (Raise e, m') ∧ total_recs m' = total_recs m ∧ log m' = log m
    ∧ active_params m' = active_params m ∧ columns m' = columns m.
Proof.
  induction xs as [|x xs IH]; intros k R MP e Hk; simpl in *.
  - discriminate.
  - unfold getitem_opt in Hk.
    destruct (getitem (data x) idx) as [key|e'] eqn:Hx in Hk.
    + destruct (row_keys (Some idx) xs) as [keys'|e'] eqn:Hxs; [discriminate|].
      injection Hk as ->.
      unfold mbind at 1, M_bind. unfold mbind at 1, M_bind, update_node, modify.
      unfold mbind at 1, M_bind, lift. rewrite Hx.
      replace (Z.of_nat k + 1) with (Z.of_nat (S k)) by lia.
      rewrite Nat2Z.id.
      exact (IH (S k) (node_update (set_path (Some [Z.of_nat k])) [k] R)
                (<[dict_key key := [k]]> MP) e eq_refl).
    + injection Hk as ->.
      unfold mbind at 1, M_bind. unfold mbind at 1, M_bind, update_node, modify.
      unfold mbind at 1, M_bind, lift. rewrite Hx.
      eexists. split; [reflexivity|]. repeat split.
Qed.

Lemma assign_paths_root k n R :
  data (assign_paths k n R) = data R ∧ path (assign_paths k n R) = path R
  ∧ priv (assign_paths k n R) = priv R
  ∧ length (children (assign_paths k n R)) = length (children R).
Proof.
  revert k R. induction n as [|n IH]; intros k R; cbn [assign_paths].
  - repeat split.
  - destruct (IH (S k) (node_update (set_path (Some [Z.of_nat k])) [k] R))
      as (H1 & H2 & H3 & H4).
    rewrite H1, H2, H3, H4. simpl. rewrite length_alter. repeat split.
Qed.

Lemma assign_paths_lookup k n R i :
  children (assign_paths k n R) !! i
  = if decide (k <= i < k + n)%nat
    then set_path (Some [Z.of_nat i]) <$> children R !! i
    else children R !! i.
Proof.
  revert k R. induction n as [|n IH]; intros k R; cbn [assign_paths].
  - destruct (decide _); [lia|reflexivity].
  - rewrite IH. simpl.
    destruct (decide (k = i)) as [->|Hne];
      [rewrite list_lookup_alter_eq | rewrite list_lookup_alter_ne by assumption];
      repeat case_decide; try lia; try reflexivity.
Qed.

Lemma row_keys_lookup idx xs keys :
  row_keys idx xs = Ok keys →
  length keys = length xs
  ∧ ∀ i x, xs !! i = Some x →
      ∃ key, keys !! i = Some key ∧ getitem_opt (data x) idx = Ok key.
Proof.
  revert keys. induction xs as [|x xs IH]; intros keys H; simpl in H.
  - injection H as <-. split; [reflexivity|]. intros i x Hx. discriminate.
  - destruct (getitem_opt (data x) idx) as [key|e] eqn:Hx; [|discriminate].
    destruct (row_keys idx xs) as [keys'|e]; [|discriminate].
    injection H as <-. destruct (IH keys' eq_refl) as [Hlen Hl].
    split; [simpl; congruence|].
    intros [|i] y Hy; simpl in *.
    + injection Hy as <-. eauto.
    + eauto.
Qed.

Lemma row_keys_ok idx xs :
  (∀ x, x ∈ xs → ∃ key, getitem_opt (data x) idx = Ok key) ↔
  ∃ keys, row_keys idx xs = Ok keys.
Proof.
  induction xs as [|x xs IH]; simpl.
  - split; [eauto|]. intros _ x Hx. inversion Hx.
  - split.
    + intros H. destruct (H x) as [key Hk]; [left|]. rewrite Hk.
      destruct (proj1 IH) as [keys Hks]; [intros; apply H; right; assumption|].
      rewrite Hks. eauto.
    + intros [keys H] y Hy.
      destruct (getitem_opt (data x) idx) as [key|e] eqn:Hx; [|discriminate].
      destruct (row_keys idx xs) as [keys'|e] eqn:Hxs; [|discriminate].
      apply elem_of_cons in Hy as [->|Hy]; [eauto|].
      apply (proj2 IH); eauto.
Qed.

Lemma refresh_unfold (m : DataGridModel) :
  refresh m =
  let r := refresh_load m in
  let m0 := st (with_indices r
                  (with_log (Load (refresh_params m))
                     (with_active_params (λ _, refresh_params m) m)))
               (set_path (Some []) (loaded r)) ∅ in
  match ds_id_column_idx r with
  | Some idx =>
      (for_enumerate (Z.of_nat 0) (children (loaded r)) (λ i row,
         update_node (set_path (Some [i])) [Z.to_nat i];;
         key ← lift (getitem (data row) idx);
         modify (with_row_id_mapper (<[dict_key key := [Z.to_nat i]]>)));;
       emit (DataLoaded (ds_total_recs r))) m0
  | None => emit (DataLoaded (ds_total_recs r)) m0
  end.
Proof.
  unfold refresh, refresh_load, refresh_params. mstep.
  destruct (ds_id_column_idx _) eqn:E; reflexivity.
Qed.

(** C1 (amended): after every [refresh] the stored total-record count is
    the count the data source reports for that load.  The refresh
    completes, with the load and a [data-loaded] event carrying that count
    as its only events, exactly when no id column is defined or every root
    row's data reaches the id column.  With an id column, root row [i]
    then has the path [(i,)] and the row-id index maps its id to the last
    root row carrying that id; without one, the root rows are left as they
    were loaded and the index is empty. *)
Theorem refresh_consistency (m : DataGridModel) :
  let p := refresh_params m in
  let r := refresh_load m in
  let roots := children (loaded r) in
  let res := (refresh m).1 in
  let m' := (refresh m).2 in
  total_recs m' = Some (ds_total_recs r)
  ∧ (res = Ok () ↔
     ∀ idx, ds_id_column_idx r = Some idx →
       ∀ row, row ∈ roots → ∃ key, getitem (data row) idx = Ok key)
  ∧ (res = Ok () →
     log m' = log m ++ [Load p; DataLoaded (ds_total_recs r)]
     ∧ ∃ root',
         rows m' = Some root' ∧ path root' = Some []
         ∧ length (children root') = length roots
         ∧ (ds_id_column_idx r = None →
            children root' = roots ∧ row_id_mapper m' = ∅)
         ∧ (∀ idx, ds_id_column_idx r = Some idx →
            ∀ i row, roots !! i = Some row →
              children root' !! i = Some (set_path (Some [Z.of_nat i]) row)
              ∧ ∃ key j row_j key_j,
                  getitem (data row) idx = Ok key
                  ∧ row_id_mapper m' !! dict_key key = Some [j]
                  ∧ (i <= j)%nat
                  ∧ roots !! j = Some row_j
                  ∧ getitem (data row_j) idx = Ok key_j
                  ∧ dict_key key_j = dict_key key
                  ∧ ∀ j' row' key',
                      roots !! j' = Some row' →
                      getitem (data row') idx = Ok key' →
                      dict_key key' = dict_key key → (j' <= j)%nat)).
Proof.
  intros p r roots res m'. subst res m'. rewrite refresh_unfold. cbv zeta.
  fold r. fold p. fold roots.
  destruct (ds_id_column_idx r) as [idx|] eqn:Hid.
  - destruct (row_keys (Some idx) roots) as [keys|e] eqn:Hkeys.
    + unfold mbind, M_bind.
      rewrite (refresh_loop idx _ roots 0 _ _ keys Hkeys). simpl.
      split; [reflexivity|]. split.
      { split; [|reflexivity]. intros _ idx' [= <-].
        apply (proj2 (row_keys_ok (Some idx) roots)). eauto. }
      intros _. split; [rewrite <- app_assoc; reflexivity|].
      eexists. split; [reflexivity|].
      destruct (assign_paths_root 0 (length roots) (set_path (Some []) (loaded r)))
        as (_ & Hp & _ & Hlen).
      split; [exact Hp|]. split; [exact Hlen|]. split; [discriminate|].
      intros idx' [= <-] i row Hi.
      rewrite assign_paths_lookup. simpl. fold roots. rewrite Hi.
      case_decide; [|apply lookup_lt_Some in Hi; lia].
      split; [reflexivity|].
      destruct (row_keys_lookup _ _ _ Hkeys) as [Hlen' Hl].
      destruct (Hl i row Hi) as (key & Hki & Hkey).
      destruct (register_rows_lookup [] 0 keys ∅ i key Hki)
        as (j & key_j & H1 & H2 & H3 & H4 & H5).
      assert (Hj : ∃ row_j, roots !! j = Some row_j).
      { apply lookup_lt_is_Some. rewrite <- Hlen'. eapply lookup_lt_Some; eauto. }
      destruct Hj as [row_j Hj].
      destruct (Hl j row_j Hj) as (key_j' & Hkj & Hkeyj).
      assert (key_j' = key_j) as -> by congruence.
      exists key, j, row_j, key_j. repeat split; try assumption.
      intros j' row' key' Hj' Hk' Heq.
      destruct (Hl j' row' Hj') as (key'' & Hk'' & Hkey'').
      unfold getitem_opt in Hkey''. assert (key'' = key') as -> by congruence.
      eauto.
    + destruct (refresh_loop_raise idx
                  (with_indices r (with_log (Load p)
                     (with_active_params (λ _, p) m)))
                  roots 0 (set_path (Some []) (loaded r)) ∅ e Hkeys)
        as (m1 & Hrun & Htot & _).
      rewrite bind_run. fold roots.
      rewrite Hrun. simpl. split; [exact Htot|]. split; [|discriminate].
      split; [discriminate|]. intros H. exfalso.
      destruct (proj1 (row_keys_ok (Some idx) roots)) as [keys Hk];
        [|congruence].
      intros x Hx. apply (H idx eq_refl x Hx).
  - simpl. split; [reflexivity|]. split.
    { split; [|reflexivity]. intros _ idx' [=]. }
    intros _. split; [rewrite <- app_assoc; reflexivity|].
    eexists. split; [reflexivity|]. split; [reflexivity|].
    split; [reflexivity|]. split; [intros _; split; reflexivity|].
    intros idx' [=].
Qed.

(** *** [add_rows] *)

Section AddRowsFacts.
Variable is_children_loaded : Node → bool.
Abbreviation add_rows := (Grid.add_rows is_children_loaded).

Lemma add_rows_unfold (fuel : nat) (parent_node : option ref) (m : DataGridModel) :
  add_rows (S fuel) parent_node m =
  if is_tree m && bool_decide (parent_node = None) then (Ok false, m)
  else
    match add_rows_target m parent_node with
    | Raise e => (Raise e, m)
    | Ok (parent_id, parent_row, path_offset, params) =>
        let rows := loaded (load (data_source m) (log m) params) in
        if bool_decide (length (children rows) = 0%nat)
        then (Ok false, queried params m)
        else
          (for_enumerate 0 (children rows)
             (add_rows_turn is_children_loaded (add_rows fuel) (is_tree m)
                (id_column_idx m) parent_row path_offset);;
           mret true) (queried params m)
    end.
Proof.
  cbn [Grid.add_rows]. unfold add_rows_body. rewrite bind_run. unfold get at 1.
  destruct (is_tree m && bool_decide (parent_node = None)); [reflexivity|].
  unfold add_rows_target.
  destruct parent_node as [node|].
  - mstep. destruct (rows m) as [root|]; [|reflexivity]. mstep.
    destruct (node_at root node) as [parent|]; [|reflexivity]. mstep.
    destruct (getitem_opt (data parent) (id_column_idx m)) as [pid|]; [|reflexivity].
    mstep. destruct (bool_decide _); reflexivity.
  - mstep. destruct (rows m) as [root|]; [|reflexivity]. mstep.
    destruct (getitem (children root) (-1)) as [last|]; [|reflexivity].
    mstep. destruct (path last) as [lp|]; [|reflexivity]. mstep.
    destruct (getitem lp (-1)) as [li|]; [|reflexivity]. mstep.
    destruct (pval_add_one _) as [page|]; [|reflexivity].
    mstep. destruct (bool_decide _); reflexivity.
Qed.

Lemma loop_then_true_not_false {A} (xs : list A) (body : Z → A → M ()) m m' :
  (for_enumerate 0 xs body;; mret true) m ≠ (Ok false, m').
Proof.
  rewrite bind_run. destruct (for_enumerate 0 xs body m) as [[[]|e] m1];
    mstep; congruence.
Qed.

(** In hierarchical display a call without a parent node is a no-op. *)
Lemma add_rows_tree_root_noop (fuel : nat) (m : DataGridModel) :
  is_tree m = true → add_rows (S fuel) None m = (Ok false, m).
Proof. intros H. rewrite add_rows_unfold, H. reflexivity. Qed.

(** C2 at its failing input: root pagination over an empty root
    collection neither returns [False] nor appends anything and returns
    [True]; [self.rows[-1]] raises before the data source is asked. *)
Theorem add_rows_empty_root (fuel : nat) (m : DataGridModel) (root : Node) :
  is_tree m = false → rows m = Some root → children root = [] →
  add_rows (S fuel) None m = (Raise IndexError, m)
  ∧ ¬ (∃ m', add_rows (S fuel) None m = (Ok false, m'))
  ∧ ¬ (∃ m', add_rows (S fuel) None m = (Ok true, m')).
Proof.
  intros H Hr Hc.
  assert (Hrun : add_rows (S fuel) None m = (Raise IndexError, m)).
  { rewrite add_rows_unfold, H. simpl. unfold add_rows_target.
    rewrite Hr, Hc, getitem_empty. reflexivity. }
  rewrite Hrun. split; [reflexivity|].
  split; intros [m' Hm']; discriminate.
Qed.

(** When nothing was loaded, the hierarchy and the row-id index are as
    before. *)
Lemma add_rows_false_frame (fuel : nat) (parent_node : option ref)
    (m m' : DataGridModel) :
  add_rows (S fuel) parent_node m = (Ok false, m') →
  rows m' = rows m ∧ row_id_mapper m' = row_id_mapper m.
Proof.
  rewrite add_rows_unfold.
  destruct (is_tree m && bool_decide (parent_node = None)).
  { intros [= <-]. split; reflexivity. }
  destruct (add_rows_target m parent_node) as [[[[pid prow] off] params]|e];
    [|discriminate].
  cbv zeta. destruct (bool_decide _).
  - intros [= <-]. split; reflexivity.
  - intros H. exfalso. revert H. apply loop_then_true_not_false.
Qed.

(** [True] is only returned after the data source returned rows. *)
Lemma add_rows_true_loaded (fuel : nat) (parent_node : option ref)
    (m m' : DataGridModel) :
  add_rows (S fuel) parent_node m = (Ok true, m') →
  ∃ parent_id parent_row path_offset params,
    add_rows_target m parent_node = Ok (parent_id, parent_row, path_offset, params)
    ∧ children (loaded (load (data_source m) (log m) params)) ≠ [].
Proof.
  rewrite add_rows_unfold.
  destruct (is_tree m && bool_decide (parent_node = None)); [discriminate|].
  destruct (add_rows_target m parent_node) as [[[[pid prow] off] params]|e];
    [|discriminate].
  cbv zeta. case_bool_decide as Hlen; [discriminate|].
  intros _. exists pid, prow, off, params. split; [reflexivity|].
  intros Hnil. apply Hlen. rewrite Hnil. reflexivity.
Qed.

Lemma pval_add_one_changes (p page : pval) :
  pval_add_one p = Ok page → page ≠ p.
Proof.
  destruct p as [[| b | z |]|]; simpl; try discriminate.
  - intros [= <-]. discriminate.
  - intros [= <-]. intros [= H]. lia.
Qed.

(** C10: when [add_rows] returns [False], either hierarchical display is
    active and no parent node was given, and the model (its query
    parameters included) is untouched; or the data source returned no
    rows, the rows and the row-id index are as before, and the query
    parameters stay written: [parent_id] is the target parent's id
    ([None] for root pagination), and for root pagination [page] is one
    more than it was (1 when it was absent). *)
Theorem add_rows_nothing_changed_params (fuel : nat) (parent_node : option ref)
    (m m' : DataGridModel) :
  add_rows (S fuel) parent_node m = (Ok false, m') →
  (is_tree m = true ∧ parent_node = None ∧ m' = m)
  ∨ (¬ (is_tree m = true ∧ parent_node = None)
     ∧ ∃ parent_id,
         active_params m' !! "parent_id" = Some (PScalar parent_id)
         ∧ (parent_node = None →
            parent_id = SNone
            ∧ ∃ page,
                pval_add_one (default (PScalar (SInt 0))
                                      (active_params m !! "page")) = Ok page
                ∧ (active_params m !! "page" = None → page = PScalar (SInt 1))
                ∧ (∀ z, active_params m !! "page" = Some (PScalar (SInt z)) →
                        page = PScalar (SInt (z + 1)))
                ∧ active_params m' = <["parent_id" := PScalar SNone]>
                                       (<["page" := page]> (active_params m))
                ∧ active_params m' !! "page" = Some page
                ∧ active_params m' ≠ active_params m)
         ∧ (∀ node, parent_node = Some node →
            ∃ root parent,
              rows m = Some root ∧ node_at root node = Some parent
              ∧ getitem_opt (data parent) (id_column_idx m) = Ok parent_id
              ∧ active_params m' = <["parent_id" := PScalar parent_id]>
                                     (active_params m))
         ∧ children (loaded (load (data_source m) (log m) (active_params m'))) = []
         ∧ rows m' = rows m
         ∧ row_id_mapper m' = row_id_mapper m
         ∧ log m' = log m ++ [Load (active_params m')]).
Proof.
  rewrite add_rows_unfold.
  destruct (is_tree m && bool_decide (parent_node = None)) eqn:Hearly.
  { intros [= <-]. left. apply andb_true_iff in Hearly as [H1 H2].
    apply bool_decide_eq_true in H2. repeat split; assumption. }
  intros H. right. split.
  { intros [H1 H2]. rewrite H1, H2 in Hearly. discriminate. }
  destruct (add_rows_target m parent_node) as [[[[pid prow] off] params]|e] eqn:Ht;
    [|discriminate].
  cbv zeta in H.
  destruct (bool_decide (length (children (loaded (load (data_source m) (log m) params))) = 0%nat))
    eqn:Hlen; [|exfalso; revert H; apply loop_then_true_not_false].
  apply bool_decide_eq_true in Hlen. apply length_zero_iff_nil in Hlen.
  injection H as <-. simpl.
  unfold add_rows_target in Ht.
  destruct (rows m) as [root|] eqn:Hrows;
    [|destruct parent_node; discriminate].
  destruct parent_node as [node|].
  - destruct (node_at root node) as [parent|] eqn:Hnode; [|discriminate].
    mstep. unfold mbind, result_bind, rbind in Ht.
    destruct (getitem_opt (data parent) (id_column_idx m)) as [pid'|] eqn:Hpid;
      [|discriminate].
    injection Ht as <- <- <- <-. exists pid'.
    split; [apply lookup_insert_eq|]. split; [discriminate|].
    split; [intros node0 Heq; assert (node0 = node) as -> by congruence; eauto 10|].
    repeat split. exact Hlen.
  - mstep. unfold mbind, result_bind, rbind in Ht.
    destruct (getitem (children root) (-1)) as [last|]; [|discriminate].
    destruct (path last) as [lp|]; [|discriminate].
    destruct (getitem lp (-1)) as [li|]; [|discriminate].
    destruct (pval_add_one _) as [page|] eqn:Hpage; [|discriminate].
    injection Ht as <- <- <- <-. exists SNone.
    split; [apply lookup_insert_eq|].
    split; [|split; [discriminate|repeat split; exact Hlen]].
    intros _. split; [reflexivity|]. exists page.
    split; [reflexivity|].
    split; [intros Hn; rewrite Hn in Hpage; injection Hpage as <-; reflexivity|].
    split; [intros z Hz; rewrite Hz in Hpage; injection Hpage as <-; reflexivity|].
    split; [reflexivity|].
    assert (Hl : (<["parent_id" := PScalar SNone]>
                    (<["page" := page]> (active_params m))) !! "page" = Some page)
      by (rewrite lookup_insert_ne by discriminate; apply lookup_insert_eq).
    split; [exact Hl|].
    intros Heq. rewrite Heq in Hl. rewrite Hl in Hpage. simpl in Hpage.
    apply pval_add_one_changes in Hpage. congruence.
Qed.
End AddRowsFacts.

(** *** [set_value] *)

Lemma node_at_update (f : Node → Node) (pos : ref) :
  ∀ root n, node_at root pos = Some n →
  node_at (node_update f pos root) pos = Some (f n).
Proof.
  induction pos as [|i pos IH]; intros root n H; simpl in *.
  - congruence.
  - destruct (children root !! i) as [c|] eqn:Hc; [|discriminate].
    rewrite list_lookup_alter_eq, Hc. simpl. apply IH, H.
Qed.

Lemma node_at_app root pos1 pos2 :
  node_at root (pos1 ++ pos2)
  = match node_at root pos1 with Some n => node_at n pos2 | None => None end.
Proof.
  revert root. induction pos1 as [|i pos1 IH]; intros root; simpl.
  - reflexivity.
  - destruct (children root !! i); [apply IH|reflexivity].
Qed.

(** The walk only looks at how many children each node has. *)
Lemma resolve_path_update (f : Node → Node) :
  (∀ n, children (f n) = children n) →
  ∀ (iter_ : list Z) (pos : ref) (root : Node) (acc : ref),
  resolve_path iter_ (node_update f pos root) acc = resolve_path iter_ root acc.
Proof.
  intros Hf. induction iter_ as [|i rest IH]; intros pos root acc.
  - reflexivity.
  - destruct pos as [|p pos].
    + simpl. rewrite Hf. reflexivity.
    + simpl. rewrite length_alter.
      destruct (norm_index (length (children root)) i) as [n|e]; [|reflexivity].
      destruct rest as [|i' rest']; [reflexivity|].
      destruct (decide (p = n)) as [->|Hne].
      * rewrite list_lookup_alter_eq.
        destruct (children root !! n) as [c|]; [|reflexivity]. simpl.
        apply IH.
      * rewrite list_lookup_alter_ne by assumption. reflexivity.
Qed.

(** A successful walk ends at a resident node. *)
Lemma resolve_path_node_at (iter_ : list Z) :
  ∀ (root : Node) (acc pos : ref),
  resolve_path iter_ root acc = Ok pos →
  ∃ suffix node, pos = acc ++ suffix ∧ suffix ≠ [] ∧ node_at root suffix = Some node.
Proof.
  induction iter_ as [|i rest IH]; intros root acc pos H; simpl in H.
  - discriminate.
  - destruct (norm_index (length (children root)) i) as [n|e] eqn:Hn; [|discriminate].
    pose proof (norm_index_lt _ _ _ Hn) as Hlt.
    destruct (lookup_lt_is_Some_2 (children root) n Hlt) as [c Hc].
    rewrite Hc in H.
    destruct rest as [|i' rest'].
    + injection H as <-. exists [n], c. simpl. rewrite Hc. repeat split. discriminate.
    + destruct (IH c (acc ++ [n]) pos H) as (suffix & node & -> & Hne & Hnode).
      exists (n :: suffix), node. simpl. rewrite Hc, <- app_assoc.
      repeat split; [discriminate|assumption].
Qed.

Section SetValueFacts.
Variable is_children_loaded : Node → bool.
Variable get_transformer : string → option transformer.
Abbreviation add_rows := (Grid.add_rows is_children_loaded).
Abbreviation _get_row_by_path := (Grid._get_row_by_path is_children_loaded).
Abbreviation set_value := (Grid.set_value is_children_loaded get_transformer).
Abbreviation on_get_value := (Grid.on_get_value is_children_loaded get_transformer).

Lemma resolve_path_nonempty iter_ root acc pos :
  resolve_path iter_ root acc = Ok pos → iter_ ≠ [].
Proof. destruct iter_; [discriminate|discriminate]. Qed.

(** Looking up a row whose children are loaded reads the model only. *)
Lemma get_row_by_path_loaded (fuel : nat) (iter_ : list Z) (m : DataGridModel)
    (root : Node) (pos : ref) (node : Node) :
  rows m = Some root → resolve_path iter_ root [] = Ok pos →
  node_at root pos = Some node → is_children_loaded node = true →
  _get_row_by_path fuel iter_ m = (Ok pos, m).
Proof.
  intros Hr Hp Hn Hl. unfold Grid._get_row_by_path, get_row_by_path_body.
  rewrite bind_run. unfold get at 1. rewrite Hr.
  destruct iter_ as [|i rest]; [discriminate|].
  rewrite bind_run. unfold lift at 1. rewrite Hp.
  rewrite bind_run. unfold ensure_children_is_loaded_body.
  rewrite bind_run. unfold deref. rewrite bind_run. unfold the_rows.
  rewrite bind_run. unfold get at 1. rewrite Hr. 
  unfold mret at 1, M_ret. rewrite Hn. unfold mret at 1, M_ret.
  rewrite Hl. reflexivity.
Qed.

Lemma set_value_run (fuel : nat) (itr : list Z) (column : Z) (value : scalar)
    (emit_event : bool) (m : DataGridModel) (root : Node) (pos : ref)
    (node : Node) (new_data : list scalar) (id_idx : Z) (id_ : scalar)
    (col_dict : Column) :
  rows m = Some root → resolve_path itr root [] = Ok pos →
  node_at root pos = Some node → is_children_loaded node = true →
  setitem (data node) column value = Ok new_data →
  is_children_loaded (set_data new_data node) = true →
  id_column_idx m = Some id_idx → getitem new_data id_idx = Ok id_ →
  getitem (columns m) column = Ok col_dict →
  set_value fuel itr column value emit_event m =
    let m1 := with_rows (fmap (node_update (set_data new_data) pos)) m in
    match py_int id_ with
    | Ok id_int =>
        (Ok (),
         (if emit_event then with_log (RowChanged itr) else id)
           (with_log (Update (name col_dict) value [id_int]) m1))
    | Raise e => (Raise e, m1)
    end.
Proof.
  intros Hr Hp Hn Hl Hset Hl' Hid Hidv Hcol.
  unfold Grid.set_value. mnorm.
  rewrite (get_row_by_path_loaded fuel itr m root pos node Hr Hp Hn Hl).
  mnorm. rewrite Hr. mnorm. rewrite Hn. mnorm. rewrite Hset. mnorm.
  set (m1 := with_rows (fmap (node_update (set_data new_data) pos)) m).
  assert (Hr1 : rows m1 = Some (node_update (set_data new_data) pos root))
    by (unfold m1; simpl; rewrite Hr; reflexivity).
  assert (Hid1 : id_column_idx m1 = Some id_idx) by exact Hid.
  rewrite Hid1. unfold get_value, Grid.on_get_value. mnorm.
  rewrite (get_row_by_path_loaded fuel itr m1 _ pos (set_data new_data node) Hr1).
  2:{ rewrite resolve_path_update by reflexivity. exact Hp. }
  2:{ apply node_at_update, Hn. }
  2:{ exact Hl'. }
  mnorm. rewrite Hr1. mnorm.
  rewrite (node_at_update _ _ _ _ Hn). mnorm.
  simpl data. rewrite Hidv. mnorm. rewrite Hid1.
  rewrite bool_decide_eq_true_2 by reflexivity. rewrite orb_true_l. mnorm.
  change (columns m1) with (columns m). rewrite Hcol. mnorm.
  unfold fvalue_int.
  destruct (py_int id_) as [id_int|e]; [|reflexivity].
  mnorm. destruct emit_event; reflexivity.
Qed.


Lemma get_formatted_value_selected (value : scalar) (column_index : Z)
    (visible : bool) (m : DataGridModel) (col_dict : Column) (t : transformer) :
  getitem (columns m) column_index = Ok col_dict →
  name col_dict = "__selected" → transform col_dict = Some "boolean" →
  get_transformer "boolean" = Some t →
  get_formatted_value get_transformer value column_index visible m
  = (Ok (FValue (SBool (truthy value))), m).
Proof.
  intros Hcol Hname Htr Ht. unfold get_formatted_value. mnorm.
  rewrite Hcol. mnorm. rewrite Htr, Hname. simpl. rewrite Ht. reflexivity.
Qed.

(** The write-through update when the id converts to an integer: the
    record holds the new value, exactly one [update] call is logged, keyed
    by that integer, and the [__selected] value reads back as a plain
    boolean. *)
Lemma set_value_selected_roundtrip (fuel : nat) (itr : list Z) (b : bool)
    (emit_event : bool) (m : DataGridModel) (root : Node) (pos : ref)
    (node : Node) (new_data : list scalar) (id_idx : Z) (id_ : scalar)
    (id_int : Z) (col_dict : Column) (t : transformer) :
  rows m = Some root → resolve_path itr root [] = Ok pos →
  node_at root pos = Some node → is_children_loaded node = true →
  setitem (data node) 0 (SBool b) = Ok new_data →
  is_children_loaded (set_data new_data node) = true →
  id_column_idx m = Some id_idx → getitem new_data id_idx = Ok id_ →
  py_int id_ = Ok id_int →
  getitem (columns m) 0 = Ok col_dict →
  name col_dict = "__selected" → transform col_dict = Some "boolean" →
  get_transformer "boolean" = Some t →
  ∃ m' root',
    set_value fuel itr 0 (SBool b) emit_event m = (Ok (), m')
    ∧ rows m' = Some root'
    ∧ node_at root' pos = Some (set_data new_data node)
    ∧ getitem new_data 0 = Ok (SBool b)
    ∧ log m' = log m ++ Update "__selected" (SBool b) [id_int]
                        :: (if emit_event then [RowChanged itr] else [])
    ∧ ∀ visible,
        get_formatted_value get_transformer (SBool b) 0 visible m'
        = (Ok (FValue (SBool b)), m').
Proof.
  intros Hr Hp Hn Hl Hset Hl' Hid Hidv Hint Hcol Hname Htr Ht.
  rewrite (set_value_run fuel itr 0 (SBool b) emit_event m root pos node
             new_data id_idx id_ col_dict) by assumption.
  cbv zeta. rewrite Hint, Hname.
  eexists. exists (node_update (set_data new_data) pos root).
  split; [reflexivity|].
  split; [destruct emit_event; simpl; rewrite Hr; reflexivity|].
  split; [apply node_at_update, Hn|].
  split.
  { unfold setitem in Hset.
    destruct (norm_index (length (data node)) 0) as [n|] eqn:Hnorm; [|discriminate].
    injection Hset as <-. unfold getitem. rewrite length_insert, Hnorm.
    rewrite list_lookup_insert_eq by (eapply norm_index_lt; eauto). reflexivity. }
  split; [destruct emit_event; simpl; rewrite <- ?app_assoc; reflexivity|].
  intros visible.
  apply (get_formatted_value_selected (SBool b) _ _ _ col_dict t);
    try assumption.
  destruct emit_event; exact Hcol.
Qed.

(** C3 at its failing input: for a loaded row whose id is a string that
    is not a numeral, [set_value] writes the new value into the record,
    then [int(id_)] raises [ValueError] and no [update] call reaches the
    data source. *)
Theorem set_value_string_id_raises (fuel : nat) (itr : list Z) (column : Z)
    (value : scalar) (emit_event : bool) (m : DataGridModel) (root : Node)
    (pos : ref) (node : Node) (new_data : list scalar) (id_idx : Z)
    (s : string) (col_dict : Column) :
  rows m = Some root → resolve_path itr root [] = Ok pos →
  node_at root pos = Some node → is_children_loaded node = true →
  setitem (data node) column value = Ok new_data →
  is_children_loaded (set_data new_data node) = true →
  id_column_idx m = Some id_idx → getitem new_data id_idx = Ok (SStr s) →
  int_of_string s = Raise ValueError →
  getitem (columns m) column = Ok col_dict →
  ∃ m' root',
    set_value fuel itr column value emit_event m = (Raise ValueError, m')
    ∧ log m' = log m
    ∧ rows m' = Some root'
    ∧ node_at root' pos = Some (set_data new_data node).
Proof.
  intros Hr Hp Hn Hl Hset Hl' Hid Hidv Hint Hcol.
  rewrite (set_value_run fuel itr column value emit_event m root pos node
             new_data id_idx (SStr s) col_dict) by assumption.
  cbv zeta. simpl py_int. rewrite Hint.
  eexists. exists (node_update (set_data new_data) pos root).
  split; [reflexivity|]. split; [reflexivity|].
  split; [simpl; rewrite Hr; reflexivity|].
  apply node_at_update, Hn.
Qed.

End SetValueFacts.

(** *** The model on the sample data sources *)

(** C1, as stated, fails for a data source without an id column: the
    refresh completes, but the root rows keep the paths they came with. *)
Lemma refresh_no_id_column_keeps_paths :
  let run := Grid.refresh (Grid.init Samples.no_id_source) in
  run.1 = Ok ()
  ∧ ∃ root row,
      rows run.2 = Some root
      ∧ children root !! 0%nat = Some row
      ∧ path row = None
      ∧ path row ≠ Some [0].
Proof.
  split; [reflexivity|].
  eexists _, _. split; [vm_compute; reflexivity|].
  split; [reflexivity|]. split; [reflexivity|discriminate].
Qed.

Lemma refresh_consistency_witness :
  let m := Grid.init Samples.flat_source in
  (Grid.refresh m).1 = Ok ()
  ∧ total_recs (Grid.refresh m).2 = Some 2
  ∧ log (Grid.refresh m).2
    = [Load {["flat" := PScalar (SBool false)]}; DataLoaded 2].
Proof.
  intros m.
  destruct (refresh_consistency m) as (Htotal & Hok & Hrest).
  assert (Hres : (Grid.refresh m).1 = Ok ()) by reflexivity.
  split; [exact Hres|]. split; [exact Htotal|].
  destruct (Hrest Hres) as [Hlog _]. rewrite Hlog. vm_compute. reflexivity.
Defined.

(** The failing input of C2: a flat list whose query matches nothing,
    refreshed, then asked for its next page. *)
Lemma add_rows_empty_root_witness :
  let m := (Grid.refresh (Grid.init Samples.empty_source)).2 in
  is_tree m = false
  ∧ Grid.add_rows Samples.loaded_by_count 1 None m = (Raise IndexError, m).
Proof.
  intros m. split; [reflexivity|].
  refine (proj1 (add_rows_empty_root Samples.loaded_by_count 0 m _ _ _ _));
    reflexivity.
Defined.

(** Root pagination past the last page of the flat sample: nothing is
    added, and the page counter and [parent_id] stay written. *)
Lemma add_rows_nothing_changed_params_witness :
  let m := (Grid.refresh (Grid.init Samples.flat_source)).2 in
  ∃ m', Grid.add_rows Samples.loaded_by_count 1 None m = (Ok false, m')
        ∧ active_params m' !! "page" = Some (PScalar (SInt 1))
        ∧ active_params m' !! "parent_id" = Some (PScalar SNone).
Proof.
  intros m.
  destruct (Grid.add_rows Samples.loaded_by_count 1 None m) as [res m'] eqn:Hrun.
  assert (Hres : res = Ok false) by (vm_compute in Hrun; congruence).
  subst res. exists m'. split; [reflexivity|].
  destruct (add_rows_nothing_changed_params Samples.loaded_by_count 0 None m m' Hrun)
    as [(Htree & _)|(_ & pid & Hpid & Hroot & _)].
  - discriminate Htree.
  - destruct (Hroot eq_refl) as (-> & page & _ & Hnone & _ & _ & Hpage & _).
    rewrite Hpage, (Hnone eq_refl). split; [reflexivity|exact Hpid].
Defined.

(** The failing input of C3: a row whose id is the string ["abc"] has its
    checkbox toggled. *)
Lemma set_value_string_id_raises_witness :
  let m := (Grid.refresh (Grid.init Samples.string_id_source)).2 in
  ∃ m' root',
    Grid.set_value Samples.loaded_by_count Samples.sample_transformers
      1 [0] 0 (SBool true) true m = (Raise ValueError, m')
    ∧ log m' = log m
    ∧ rows m' = Some root'
    ∧ node_at root' [0%nat]
      = Some (set_data [SBool true; SStr "abc"; SStr "a"]
                (set_path (Some [0]) (Samples.row (SStr "abc") "a" 0))).
Proof.
  intros m.
  eapply (set_value_string_id_raises Samples.loaded_by_count
            Samples.sample_transformers 1 [0] 0 (SBool true) true m
            _ [0%nat] _ _ 1 "abc");
    reflexivity.
Defined.

(** [refresh] leaves the query as it was, less [page] and [parent_id],
    whether it completes or not. *)
Lemma refresh_active_params (m : DataGridModel) :
  active_params (refresh m).2 = refresh_params m
  ∧ columns (refresh m).2 = columns m.
Proof.
  rewrite refresh_unfold. cbv zeta.
  destruct (ds_id_column_idx (refresh_load m)) as [idx|]; [|split; reflexivity].
  rewrite bind_run.
  destruct (row_keys (Some idx) (children (loaded (refresh_load m))))
    as [keys|e] eqn:Hkeys.
  - rewrite (refresh_loop idx _ _ 0 _ _ keys Hkeys). split; reflexivity.
  - destruct (refresh_loop_raise idx
                (with_indices (refresh_load m)
                   (with_log (Load (refresh_params m))
                      (with_active_params (λ _, refresh_params m) m)))
                _ 0 (set_path (Some []) (loaded (refresh_load m))) ∅ e Hkeys)
      as (m1 & Hrun & _ & _ & Hp & Hc).
    rewrite Hrun. split; [exact Hp | exact Hc].
Qed.

(** ** The controller's filters *)

Lemma where_of_refresh_params (m : DataGridModel) :
  refresh_params m !! "where" = active_params m !! "where".
Proof.
  unfold refresh_params.
  rewrite !lookup_delete_ne by discriminate. reflexivity.
Qed.

Lemma lookup_foldl_delete (keys : list wkey) (w : gmap wkey clause) (k : wkey) :
  foldl (λ w key, delete key w) w keys !! k
  = if decide (k ∈ keys) then None else w !! k.
Proof.
  revert w. induction keys as [|key keys IH]; intros w; simpl.
  - destruct (decide (k ∈ [])) as [H|_]; [inversion H|reflexivity].
  - rewrite IH.
    destruct (decide (k ∈ keys)) as [Hin|Hnin].
    + destruct (decide (k ∈ key :: keys)) as [_|Hn]; [reflexivity|].
      exfalso. apply Hn. right. exact Hin.
    + destruct (decide (k = key)) as [->|Hne].
      * rewrite lookup_delete_eq.
        destruct (decide (key ∈ key :: keys)) as [_|Hn]; [reflexivity|].
        exfalso. apply Hn. left.
      * rewrite lookup_delete_ne by congruence.
        destruct (decide (k ∈ key :: keys)) as [Hin|_]; [|reflexivity].
        apply elem_of_cons in Hin as [?|?]; contradiction.
Qed.

Lemma refresh_view_params_ok update_dict remove_keys params :
  where_is_dict params →
  ∃ params',
    refresh_view_params update_dict remove_keys params = Ok params'
    ∧ where_of params' = merged_where update_dict remove_keys (where_of params)
    ∧ where_is_dict params'.
Proof.
  intros Hd. unfold refresh_view_params, where_of, merged_where.
  destruct (params !! "where") as [[v|w]|] eqn:Hw.
  - exfalso. exact (Hd v Hw).
  - simpl. case_bool_decide as He.
    + eexists. split; [reflexivity|]. unfold where_is_dict.
      rewrite lookup_delete_eq. split; [symmetry; exact He|discriminate].
    + eexists. split; [reflexivity|]. unfold where_is_dict.
      rewrite lookup_insert_eq. split; [reflexivity|discriminate].
  - simpl. case_bool_decide as He.
    + eexists. split; [reflexivity|]. unfold where_is_dict.
      rewrite lookup_delete_eq. split; [symmetry; exact He|discriminate].
    + eexists. split; [reflexivity|]. unfold where_is_dict.
      rewrite lookup_insert_eq. split; [reflexivity|discriminate].
Qed.

(** [_refresh_view] merges the filters and touches nothing else of the
    [where] dictionary, whatever the refresh that follows does. *)
Lemma refresh_view_where update_dict remove_keys (m : DataGridModel) :
  where_is_dict (active_params m) →
  where_of (active_params (_refresh_view update_dict remove_keys m).2)
  = merged_where update_dict remove_keys (where_of (active_params m))
  ∧ where_is_dict (active_params (_refresh_view update_dict remove_keys m).2)
  ∧ columns (_refresh_view update_dict remove_keys m).2 = columns m.
Proof.
  intros Hd.
  destruct (refresh_view_params_ok update_dict remove_keys _ Hd)
    as (params' & Hp & Hw & Hd').
  unfold _refresh_view. mnorm. rewrite Hp. mnorm.
  destruct (refresh_active_params (with_active_params (λ _, params') m))
    as [Ha Hc].
  rewrite Ha, Hc. unfold where_of, where_is_dict in *.
  rewrite where_of_refresh_params. simpl. auto.
Qed.


Section DateRangeFacts.

Variable ts : string → result Z.

Abbreviation on_date_change := (Grid.on_date_change ts).
Abbreviation date_bound := (Grid.date_bound ts).
Abbreviation range_clause s e :=
  {| operator := "range"; param := CRange s e |}.

Lemma on_date_change_where (m : DataGridModel) (start_date end_date : string)
    (active : Z) (cols : list (string * string)) (row : string * string)
    (s e : Z) :
  where_is_dict (active_params m) →
  0 <= active → getitem cols active = Ok row →
  date_bound start_date " 00:00" MIN_TIMESTAMP = Ok s →
  date_bound end_date " 23:59" MAX_TIMESTAMP = Ok e →
  let m' := (on_date_change start_date end_date active cols m).2 in
  where_of (active_params m')
  = <[ColName row.1 := range_clause s e]>
      (foldl (λ w key, delete key w) (where_of (active_params m))
             ((λ column, ColName column.1) <$> cols))
  ∧ where_is_dict (active_params m')
  ∧ columns m' = columns m.
Proof.
  intros Hd Ha Hrow Hs He m'. subst m'.
  unfold Grid.on_date_change. mnorm. rewrite Hs, He. mnorm.
  unfold date_column. destruct (Z.leb_spec 0 active); [|lia].
  unfold mbind at 1, result_bind, rbind. rewrite Hrow. mnorm.
  destruct (refresh_view_where
              (Some {[ColName row.1 := range_clause s e]})
              (Some ((λ column, ColName column.1) <$> cols)) m Hd)
    as (Hw & Hd' & Hc).
  rewrite Hw. split; [|split; assumption].
  unfold merged_where. simpl. rewrite insert_union_singleton_l. reflexivity.
Qed.

(** A handler that raises before [_refresh_view] leaves the model alone;
    otherwise the [where] dictionary is merged as the event says. *)
Lemma handle_where (cols : list (string * string)) (ev : filter_event)
    (m : DataGridModel) :
  where_is_dict (active_params m) →
  (∀ start_date end_date active, ev = DateChange start_date end_date active →
     0 <= active < Z.of_nat (length cols)) →
  let m' := (handle ts cols ev m).2 in
  (m' = m
   ∨ (∃ update_dict remove_keys,
        where_of (active_params m')
        = merged_where update_dict remove_keys (where_of (active_params m))
        ∧ match ev with
          | DateChange _ _ active =>
              ∃ row s e, getitem cols active = Ok row
                ∧ update_dict = Some {[ColName row.1 := range_clause s e]}
                ∧ remove_keys = Some ((λ column, ColName column.1) <$> cols)
          | _ =>
              (∀ k c, default ∅ update_dict !! k = Some c →
                      operator c ≠ "range")
          end))
  ∧ where_is_dict (active_params m')
  ∧ columns m' = columns m.
Proof.
  intros Hd Hsel m'. subst m'. destruct ev as [sd ed active|attr value|search].
  - destruct (Hsel sd ed active eq_refl) as [H0 Hlt].
    assert (Hrow : ∃ row, getitem cols active = Ok row).
    { unfold getitem. rewrite norm_index_nonneg by lia.
      destruct (lookup_lt_is_Some_2 cols (Z.to_nat active)) as [row Hr]; [lia|].
      rewrite Hr. eauto. }
    destruct Hrow as [row Hrow]. simpl.
    destruct (date_bound sd " 00:00" MIN_TIMESTAMP) as [s|e1] eqn:Hs.
    2:{ unfold Grid.on_date_change. mnorm. rewrite Hs.
        split; [left; reflexivity|]. split; [exact Hd|reflexivity]. }
    destruct (date_bound ed " 23:59" MAX_TIMESTAMP) as [e|e1] eqn:He.
    2:{ unfold Grid.on_date_change. mnorm. rewrite Hs, He.
        split; [left; reflexivity|]. split; [exact Hd|reflexivity]. }
    destruct (on_date_change_where m sd ed active cols row s e Hd H0 Hrow Hs He)
      as (Hw & Hd' & Hc).
    split; [|split; assumption]. right.
    exists (Some {[ColName row.1 := range_clause s e]}),
           (Some ((λ column, ColName column.1) <$> cols)).
    split.
    + rewrite Hw. unfold merged_where. simpl.
      rewrite insert_union_singleton_l. reflexivity.
    + exists row, s, e. repeat split. exact Hrow.
  - simpl. unfold on_filter_changed. destruct value as [value|].
    + destruct (refresh_view_where
                  (Some {[ColName attr :=
                            {| operator := if bool_decide (value = SNone)
                                           then "is" else "=";
                               param := CValue value |}]}) None m Hd)
        as (Hw & Hd' & Hc).
      split; [|split; assumption]. right. eexists _, _. split; [exact Hw|].
      intros k c. simpl. intros Hk.
      apply lookup_singleton_Some in Hk as [_ <-]. simpl.
      case_bool_decide; discriminate.
    + destruct (refresh_view_where None (Some [ColName attr]) m Hd)
        as (Hw & Hd' & Hc).
      split; [|split; assumption]. right. eexists _, _. split; [exact Hw|].
      intros k c. simpl. rewrite lookup_empty. discriminate.
  - simpl. unfold on_search_clicked.
    destruct (refresh_view_where
                (Some {[ColName "search" :=
                          {| operator := "="; param := CValue (SStr search) |}]})
                None m Hd)
      as (Hw & Hd' & Hc).
    split; [|split; assumption]. right. eexists _, _. split; [exact Hw|].
    intros k c. simpl. intros Hk.
    apply lookup_singleton_Some in Hk as [_ <-]. discriminate.
Qed.


Lemma range_on_date_column_merge (cols : list (string * string))
    (w : gmap wkey clause) (row : string * string) (s e : Z) :
  row ∈ cols → range_on_date_column cols w →
  range_on_date_column cols
    (merged_where (Some {[ColName row.1 := range_clause s e]})
       (Some ((λ column, ColName column.1) <$> cols)) w).
Proof.
  intros Hrow [Hon Hone]. unfold merged_where. simpl.
  rewrite <- insert_union_singleton_l.
  assert (Hother : ∀ k c,
    <[ColName row.1 := range_clause s e]>
      (foldl (λ w key, delete key w) w ((λ column, ColName column.1) <$> cols))
      !! k = Some c →
    operator c = "range" → k = ColName row.1).
  { intros k c Hk Hop.
    destruct (decide (k = ColName row.1)) as [|Hne]; [assumption|].
    rewrite lookup_insert_ne in Hk by congruence.
    rewrite lookup_foldl_delete in Hk.
    destruct (decide (k ∈ (λ column, ColName column.1) <$> cols)) as [|Hnin];
      [discriminate|].
    destruct (Hon k c Hk Hop) as (row' & Hin & ->).
    exfalso. apply Hnin. apply list_elem_of_fmap. eauto. }
  split.
  - intros k c Hk Hop. exists row. split; [assumption|]. eauto.
  - intros k1 k2 c1 c2 H1 H2 Ho1 Ho2.
    rewrite (Hother k1 c1 H1 Ho1), (Hother k2 c2 H2 Ho2). reflexivity.
Qed.

Lemma range_on_date_column_other (cols : list (string * string))
    (w : gmap wkey clause) update_dict remove_keys :
  (∀ k c, default ∅ update_dict !! k = Some c → operator c ≠ "range") →
  range_on_date_column cols w →
  range_on_date_column cols (merged_where update_dict remove_keys w).
Proof.
  intros Hu [Hon Hone]. unfold merged_where.
  assert (Hold : ∀ k c,
    (default ∅ update_dict
     ∪ match remove_keys with
       | Some keys => foldl (λ w key, delete key w) w keys
       | None => w
       end) !! k = Some c →
    operator c = "range" → w !! k = Some c).
  { intros k c Hk Hop. apply lookup_union_Some_raw in Hk as [Hk|[_ Hk]].
    - exfalso. exact (Hu k c Hk Hop).
    - destruct remove_keys as [keys|]; [|exact Hk].
      rewrite lookup_foldl_delete in Hk.
      destruct (decide (k ∈ keys)); [discriminate|exact Hk]. }
  split.
  - intros k c Hk Hop. eauto.
  - intros k1 k2 c1 c2 H1 H2 Ho1 Ho2. eauto.
Qed.

Lemma filter_run_invariant (ds : DataSource) (m : DataGridModel) :
  filter_run ts ds m →
  where_is_dict (active_params m)
  ∧ range_on_date_column (date_store m) (where_of (active_params m)).
Proof.
  induction 1 as [|m ev Hrun [Hd Hinv] Hsel].
  - unfold bind_datasource.
    assert (Hd0 : where_is_dict (active_params (init ds))).
    { intros v. unfold init. simpl. rewrite lookup_singleton_ne by discriminate.
      discriminate. }
    destruct (refresh_view_where None None (init ds) Hd0) as (Hw & Hd & Hc).
    split; [exact Hd|]. rewrite Hw. unfold merged_where, where_of. simpl.
    rewrite lookup_singleton_ne by discriminate.
    rewrite (left_id_L ∅ (∪)).
    split.
    + intros k c Hk. rewrite lookup_empty in Hk. discriminate.
    + intros k1 k2 c1 c2 Hk. rewrite lookup_empty in Hk. discriminate.
  - destruct (handle_where (date_store m) ev m Hd Hsel) as (Hcase & Hd' & Hc).
    split; [exact Hd'|].
    assert (Hstore : date_store (handle ts (date_store m) ev m).2 = date_store m).
    { revert Hc. generalize (handle ts (date_store m) ev m).2. intros m' Hc.
      unfold date_store, datetime_columns. rewrite Hc. reflexivity. }
    rewrite Hstore.
    destruct Hcase as [->|(update_dict & remove_keys & Hw & Hev)];
      [exact Hinv|].
    rewrite Hw. destruct ev as [sd ed active|attr value|search].
    + destruct Hev as (row & s & e & Hrow & -> & ->).
      apply range_on_date_column_merge; [|exact Hinv].
      unfold getitem in Hrow.
      destruct (norm_index _ active) as [n|]; [|discriminate].
      destruct (date_store m !! n) as [row'|] eqn:Hn; [|discriminate].
      injection Hrow as <-. eapply list_elem_of_lookup_2; eauto.
    + apply range_on_date_column_other; assumption.
    + apply range_on_date_column_other; assumption.
Qed.

(** With a date column selected.  An empty start date resolves to 0 and
    an empty end date to 2147485547; a date change with a date column
    selected leaves exactly the clause
    [{operator: "range", param: (start, end)}] on that column, no clause
    on any other date column, and the clauses of all other keys as they
    were; and while the user changes dates with a column selected, filters
    and the search text of a bound grid, at most one range clause is ever
    in the query. *)
Theorem date_range_filter :
  date_bound "" " 00:00" MIN_TIMESTAMP = Ok 0
  ∧ date_bound "" " 23:59" MAX_TIMESTAMP = Ok 2147485547
  ∧ (∀ (m : DataGridModel) (start_date end_date : string) (active : Z)
       (cols : list (string * string)) (row : string * string) (s e : Z),
       where_is_dict (active_params m) →
       0 <= active → getitem cols active = Ok row →
       date_bound start_date " 00:00" MIN_TIMESTAMP = Ok s →
       date_bound end_date " 23:59" MAX_TIMESTAMP = Ok e →
       let w := where_of (active_params m) in
       let w' := where_of (active_params
                   (on_date_change start_date end_date active cols m).2) in
       w' !! ColName row.1 = Some (range_clause s e)
       ∧ (∀ row', row' ∈ cols → row'.1 ≠ row.1 → w' !! ColName row'.1 = None)
       ∧ (∀ k, (∀ row', row' ∈ cols → k ≠ ColName row'.1) → w' !! k = w !! k)
       ∧ (start_date = "" → s = 0)
       ∧ (end_date = "" → e = 2147485547))
  ∧ (∀ (ds : DataSource) (m : DataGridModel),
       filter_run ts ds m →
       at_most_one_range (where_of (active_params m))).
Proof.
  split; [reflexivity|]. split; [reflexivity|]. split.
  - intros m sd ed active cols row s e Hd Ha Hrow Hs He w w'.
    destruct (on_date_change_where m sd ed active cols row s e Hd Ha Hrow Hs He)
      as (Hw & _ & _).
    subst w'. rewrite Hw.
    assert (Hin : row ∈ cols).
    { unfold getitem in Hrow.
      destruct (norm_index _ active) as [n|]; [|discriminate].
      destruct (cols !! n) as [row'|] eqn:Hn; [|discriminate].
      injection Hrow as <-. eapply list_elem_of_lookup_2; eauto. }
    split; [apply lookup_insert_eq|]. split; [|split; [|split]].
    + intros row' Hin' Hne.
      rewrite lookup_insert_ne by (intros [= Heq]; exact (Hne (eq_sym Heq))).
      rewrite lookup_foldl_delete.
      destruct (decide (ColName row'.1 ∈ (λ column, ColName column.1) <$> cols))
        as [|Hnin]; [reflexivity|].
      exfalso. apply Hnin. apply list_elem_of_fmap. eauto.
    + intros k Hk. rewrite lookup_insert_ne by (intros <-; exact (Hk row Hin eq_refl)).
      rewrite lookup_foldl_delete.
      destruct (decide (k ∈ (λ column, ColName column.1) <$> cols))
        as [Hkin|]; [|reflexivity].
      apply list_elem_of_fmap in Hkin as (row' & -> & Hin').
      exfalso. exact (Hk row' Hin' eq_refl).
    + intros ->. unfold Grid.date_bound in Hs. simpl in Hs.
      injection Hs as <-. reflexivity.
    + intros ->. unfold Grid.date_bound in He. simpl in He.
      injection He as <-. reflexivity.
  - intros ds m Hrun. apply (filter_run_invariant ds m Hrun).
Qed.

(** Without a selected column the clause goes under the last row of the
    chooser's list store. *)
Lemma on_date_change_unselected_where (m : DataGridModel)
    (start_date end_date : string) (active : Z)
    (cols : list (string * string)) (row : string * string) (s e : Z) :
  where_is_dict (active_params m) →
  active < 0 → last cols = Some row →
  date_bound start_date " 00:00" MIN_TIMESTAMP = Ok s →
  date_bound end_date " 23:59" MAX_TIMESTAMP = Ok e →
  let m' := (on_date_change start_date end_date active cols m).2 in
  where_of (active_params m')
  = <[StoreRow row := range_clause s e]>
      (foldl (λ w key, delete key w) (where_of (active_params m))
             ((λ column, ColName column.1) <$> cols))
  ∧ where_is_dict (active_params m').
Proof.
  intros Hd Ha Hrow Hs He m'. subst m'.
  unfold Grid.on_date_change. mnorm. rewrite Hs, He. mnorm.
  unfold date_column. destruct (Z.leb_spec 0 active); [lia|].
  rewrite Hrow. mnorm.
  destruct (refresh_view_where
              (Some {[StoreRow row := range_clause s e]})
              (Some ((λ column, ColName column.1) <$> cols)) m Hd)
    as (Hw & Hd' & _).
  rewrite Hw. split; [|exact Hd'].
  unfold merged_where. simpl. rewrite insert_union_singleton_l. reflexivity.
Qed.

(** C5 at its failing input: a date change while the column chooser has
    no active row ([get_active() = -1], as after a second
    [bind_datasource], which replaces the chooser's list store and does
    not select a row again), followed by a date change with a column
    selected.  The first change installs the range clause on no date
    column at all: it goes under the last row of the list store, the name
    [column] still holding what the list comprehension left in it.  The
    second change installs its clause on the selected column and removes
    the clauses of the date columns, which the stray clause is not among:
    two range clauses are then in the query. *)
Theorem date_change_unselected_two_ranges (m : DataGridModel)
    (cols : list (string * string)) (last_row row : string * string)
    (start_date end_date start_date' end_date' : string)
    (active active' s e s' e' : Z) :
  where_is_dict (active_params m) →
  active < 0 → last cols = Some last_row →
  date_bound start_date " 00:00" MIN_TIMESTAMP = Ok s →
  date_bound end_date " 23:59" MAX_TIMESTAMP = Ok e →
  0 <= active' → getitem cols active' = Ok row →
  date_bound start_date' " 00:00" MIN_TIMESTAMP = Ok s' →
  date_bound end_date' " 23:59" MAX_TIMESTAMP = Ok e' →
  let m1 := (on_date_change start_date end_date active cols m).2 in
  let m2 := (on_date_change start_date' end_date' active' cols m1).2 in
  let w1 := where_of (active_params m1) in
  let w2 := where_of (active_params m2) in
  w1 !! StoreRow last_row = Some (range_clause s e)
  ∧ (∀ column, column ∈ cols → w1 !! ColName column.1 = None)
  ∧ w2 !! StoreRow last_row = Some (range_clause s e)
  ∧ w2 !! ColName row.1 = Some (range_clause s' e')
  ∧ ¬ at_most_one_range w2.
Proof.
  intros Hd Ha Hlast Hs He Ha' Hrow Hs' He' m1 m2 w1 w2.
  destruct (on_date_change_unselected_where m start_date end_date active cols
              last_row s e Hd Ha Hlast Hs He) as [Hw1 Hd1].
  fold m1 in Hw1, Hd1. fold w1 in Hw1.
  destruct (on_date_change_where m1 start_date' end_date' active' cols row
              s' e' Hd1 Ha' Hrow Hs' He') as (Hw2 & _ & _).
  fold m2 in Hw2. fold w1 in Hw2. fold w2 in Hw2.
  assert (H1 : w1 !! StoreRow last_row = Some (range_clause s e))
    by (rewrite Hw1; apply lookup_insert_eq).
  assert (H2 : w2 !! StoreRow last_row = Some (range_clause s e)).
  { rewrite Hw2, lookup_insert_ne by discriminate.
    rewrite lookup_foldl_delete. case_decide as Hin; [|exact H1].
    apply list_elem_of_fmap in Hin as (column & Heq & _). discriminate. }
  assert (H3 : w2 !! ColName row.1 = Some (range_clause s' e'))
    by (rewrite Hw2; apply lookup_insert_eq).
  split; [exact H1|]. split.
  { intros column Hin. rewrite Hw1, lookup_insert_ne by discriminate.
    rewrite lookup_foldl_delete. rewrite decide_True; [reflexivity|].
    apply list_elem_of_fmap. exists column. split; [reflexivity|exact Hin]. }
  split; [exact H2|]. split; [exact H3|].
  intros Hone.
  specialize (Hone _ _ _ _ H2 H3 eq_refl eq_refl). discriminate.
Qed.

End DateRangeFacts.

(** A date change on the second of two date columns, both entries empty. *)
Lemma date_range_filter_witness :
  let ts := λ _ : string, Raise ValueError in
  let m := (bind_datasource Samples.dated_source).2 in
  date_store m = [("created", "Created"); ("modified", "Modified")]
  ∧ where_of (active_params
                (Grid.on_date_change ts "" "" 1 (date_store m) m).2)
      !! ColName "modified"
    = Some {| operator := "range"; param := CRange 0 2147485547 |}
  ∧ where_of (active_params
                (Grid.on_date_change ts "" "" 1 (date_store m) m).2)
      !! ColName "created" = None.
Proof.
  intros ts m. split; [reflexivity|].
  destruct (date_range_filter ts) as (_ & _ & Hstep & _).
  assert (Hd : where_is_dict (active_params m)).
  { intros v. vm_compute. discriminate. }
  destruct (Hstep m "" "" 1 (date_store m) ("modified", "Modified") 0 2147485547
              Hd ltac:(lia) eq_refl eq_refl eq_refl)
    as (Hsel & Hothers & _).
  split; [exact Hsel|].
  apply (Hothers ("created", "Created")); [left|discriminate].
Defined.

(** The grid with two date columns: a date change without a selected
    column, then one with the first column selected, both entries
    empty. *)
Lemma date_change_unselected_two_ranges_witness :
  let ts := λ _ : string, Raise ValueError in
  let m := (bind_datasource Samples.dated_source).2 in
  let m1 := (Grid.on_date_change ts "" "" (-1) (date_store m) m).2 in
  let m2 := (Grid.on_date_change ts "" "" 0 (date_store m) m1).2 in
  where_of (active_params m1) !! ColName "modified" = None
  ∧ where_of (active_params m2) !! StoreRow ("modified", "Modified")
    = Some {| operator := "range"; param := CRange 0 2147485547 |}
  ∧ where_of (active_params m2) !! ColName "created"
    = Some {| operator := "range"; param := CRange 0 2147485547 |}
  ∧ ¬ at_most_one_range (where_of (active_params m2)).
Proof.
  intros ts m m1 m2.
  assert (Hd : where_is_dict (active_params m)).
  { intros v. vm_compute. discriminate. }
  destruct (date_change_unselected_two_ranges ts m (date_store m)
              ("modified", "Modified") ("created", "Created")
              "" "" "" "" (-1) 0 0 2147485547 0 2147485547
              Hd ltac:(lia) eq_refl eq_refl eq_refl ltac:(lia) eq_refl
              eq_refl eq_refl)
    as (_ & Hnone & Hstray & Hsel & Htwo).
  split; [apply (Hnone ("modified", "Modified")); right; left|].
  split; [exact Hstray|]. split; [exact Hsel|exact Htwo].
Defined.
Lemma norm_index_nonneg_inv (len : nat) (i : Z) (n : nat) :
  0 <= i → norm_index len i = Ok n → n = Z.to_nat i ∧ i < Z.of_nat len.
Proof.
  intros H0. unfold norm_index.
  destruct (Z.leb_spec 0 i); [|lia].
  destruct (Z.ltb_spec i (Z.of_nat len)); simpl.
  - intros [= <-]. split; [reflexivity|assumption].
  - destruct (Z.ltb_spec i 0); [lia|]. rewrite andb_false_r. discriminate.
Qed.

(** ** The tree view's expansion tracking *)

Section ViewFacts.

Variable is_children_loaded : Node → bool.
Variable get_transformer : string → option transformer.

Abbreviation loaded_rec := (is_children_loaded_recursive is_children_loaded).
Abbreviation fully_loaded := (Grid.fully_loaded is_children_loaded).
Abbreviation get_row_by_path := (Grid._get_row_by_path is_children_loaded).
Abbreviation ensure_loaded := (Grid._ensure_children_is_loaded is_children_loaded).
Abbreviation on_get_value := (Grid.on_get_value is_children_loaded get_transformer).
Abbreviation get_value := (Grid.get_value is_children_loaded get_transformer).
Abbreviation set_value := (Grid.set_value is_children_loaded get_transformer).
Abbreviation check := (Grid._check_all_expanded is_children_loaded).
Abbreviation get_expandable := (Grid._get_expandable_ids is_children_loaded).

Lemma loaded_rec_unfold (n : Node) :
  loaded_rec n = is_children_loaded n && forallb loaded_rec (children n).
Proof. destruct n. reflexivity. Qed.

Lemma loaded_rec_node_at (pos : ref) :
  ∀ root n, loaded_rec root = true → node_at root pos = Some n →
  loaded_rec n = true.
Proof.
  induction pos as [|i pos IH]; intros root n Hl Hn; simpl in Hn.
  - congruence.
  - destruct (children root !! i) as [c|] eqn:Hc; [|discriminate].
    rewrite loaded_rec_unfold in Hl. apply andb_true_iff in Hl as [_ Hl].
    rewrite forallb_forall in Hl.
    apply (IH c n); [|exact Hn].
    apply Hl. apply list_elem_of_In. eapply list_elem_of_lookup_2; eauto.
Qed.

Lemma loaded_rec_here (n : Node) :
  loaded_rec n = true → is_children_loaded n = true.
Proof.
  rewrite loaded_rec_unfold. intros H. apply andb_true_iff in H as [H _]. exact H.
Qed.

(** While nothing waits for children, walking the hierarchy reads it only. *)
Lemma ensure_fully_loaded (fuel : nat) (row : ref) (m : DataGridModel) :
  fully_loaded m = true → ∃ r, ensure_loaded fuel row m = (r, m).
Proof.
  unfold Grid.fully_loaded, Grid._ensure_children_is_loaded,
    ensure_children_is_loaded_body. intros Hl. mnorm.
  destruct (rows m) as [root|]; [|eauto]. mnorm.
  destruct (node_at root row) as [n|] eqn:Hn; [|eauto]. mnorm.
  rewrite (loaded_rec_here n (loaded_rec_node_at row root n Hl Hn)). eauto.
Qed.

Lemma get_row_by_path_fully_loaded (fuel : nat) (iter_ : list Z)
    (m : DataGridModel) :
  fully_loaded m = true → ∃ r, get_row_by_path fuel iter_ m = (r, m).
Proof.
  intros Hl. unfold Grid._get_row_by_path, get_row_by_path_body. mnorm.
  destruct (match iter_, rows m with
            | [], _ => Raise IndexError
            | _, None => Raise TypeError
            | _, Some root => resolve_path iter_ root []
            end) as [row|e]; [|eauto].
  destruct (ensure_fully_loaded fuel row m Hl) as [r Hr].
  unfold Grid._ensure_children_is_loaded in Hr. rewrite Hr.
  destruct r; eauto.
Qed.

(** Formatting a value writes the image caches only. *)
Lemma get_formatted_value_frame (value : scalar) (column_index : Z)
    (visible : bool) (m : DataGridModel) :
  ∃ r inv fb,
    get_formatted_value get_transformer value column_index visible m
    = (r, with_images inv fb m).
Proof.
  assert (Hid : ∀ r : result fvalue,
            ∃ r' inv fb, (r, m) = (r', with_images inv fb m)).
  { intros r. exists r, (_invisible_images m), (_fallback_images m).
    destruct m; reflexivity. }
  unfold get_formatted_value. mnorm.
  destruct (getitem (columns m) column_index) as [col|e]; [|apply Hid]. mnorm.
  destruct (get_transformer _) as [t|]; [|apply Hid].
  destruct (_ && _); [apply Hid|].
  destruct (String.eqb _ "image").
  - destruct (negb (truthy value)).
    + destruct (_invisible_images m !! image_max_size m); [apply Hid|]. mnorm.
      eauto.
    + destruct (negb visible).
      * destruct (_fallback_images m !! _) as [fallback|].
        -- destruct (fvalue_truthy fallback); [apply Hid|]. mnorm. eauto.
        -- mnorm. eauto.
      * destruct value; apply Hid.
  - destruct (_ || _); apply Hid.
Qed.

Lemma on_get_value_fully_loaded (fuel : nat) (iter_ : list Z) (column : Z)
    (m : DataGridModel) :
  fully_loaded m = true →
  ∃ r inv fb, on_get_value fuel iter_ column m = (r, with_images inv fb m).
Proof.
  intros Hl.
  assert (Hid : ∀ r : result fvalue,
            ∃ r' inv fb, (r, m) = (r', with_images inv fb m)).
  { intros r. exists r, (_invisible_images m), (_fallback_images m).
    destruct m; reflexivity. }
  unfold Grid.on_get_value. mnorm.
  destruct (get_row_by_path_fully_loaded fuel iter_ m Hl) as [r Hr].
  rewrite Hr. destruct r as [row|e]; [|apply Hid]. mnorm.
  destruct (rows m) as [root|]; [|apply Hid]. mnorm.
  destruct (node_at root row) as [n|]; [|apply Hid]. mnorm.
  destruct (getitem (data n) column) as [raw|e]; [|apply Hid]. mnorm.
  destruct (_ || _); [apply Hid|].
  apply get_formatted_value_frame.
Qed.


(** Whether a node waits for children does not depend on the values or
    paths stored in the hierarchy. *)
Hypothesis loaded_by_shape :
  ∀ n n', priv n = priv n' → length (children n) = length (children n') →
          is_children_loaded n = is_children_loaded n'.

Lemma forallb_alter {A} (p : A → bool) (h : A → A) (i : nat) (l : list A) :
  (∀ x, l !! i = Some x → p (h x) = p x) →
  forallb p (alter h i l) = forallb p l.
Proof.
  revert i. induction l as [|y l IH]; intros i H; [reflexivity|].
  destruct i as [|i]; simpl.
  - rewrite (H y eq_refl). reflexivity.
  - f_equal. apply IH. intros x Hx. apply H. exact Hx.
Qed.

Lemma loaded_rec_update (d : list scalar) (pos : ref) :
  ∀ root node, node_at root pos = Some node →
  loaded_rec (node_update (set_data d) pos root) = loaded_rec root.
Proof.
  induction pos as [|i pos IH]; intros root node Hn; simpl in Hn;
    cbn [node_update].
  - rewrite (loaded_rec_unfold (set_data d root)), (loaded_rec_unfold root).
    f_equal. apply loaded_by_shape; reflexivity.
  - destruct (children root !! i) as [c|] eqn:Hc; [|discriminate].
    rewrite (loaded_rec_unfold (set_children _ _)), (loaded_rec_unfold root).
    simpl. f_equal.
    + apply loaded_by_shape; [reflexivity|]. simpl. apply length_alter.
    + apply forallb_alter. intros x Hx.
      assert (x = c) as -> by congruence. eapply IH; eauto.
Qed.

Lemma iter_children_unfold (n : Node) :
  iter_children n = flat_map (λ row, row :: iter_children row) (children n).
Proof. destruct n. reflexivity. Qed.

Lemma collect_expandable_ext (idx : option Z) (rows1 : list Node) :
  ∀ rows2 ids,
  row_view idx <$> rows1 = row_view idx <$> rows2 →
  collect_expandable idx rows1 ids = collect_expandable idx rows2 ids.
Proof.
  induction rows1 as [|r1 rows1 IH]; intros [|r2 rows2] ids H;
    try discriminate; [reflexivity|].
  injection H as Hlen Hid Hrest. simpl. rewrite Hlen, Hid.
  destruct (bool_decide _); [|apply IH, Hrest].
  destruct (getitem_opt (data r2) idx); [apply IH, Hrest|reflexivity].
Qed.

Lemma flat_map_alter_view {A B C} (view : B → C) (g : A → list B) (h : A → A)
    (i : nat) (l : list A) (x : A) :
  l !! i = Some x → view <$> g (h x) = view <$> g x →
  view <$> flat_map g (alter h i l) = view <$> flat_map g l.
Proof.
  revert i. induction l as [|y l IH]; intros i Hx Hg; [discriminate|].
  destruct i as [|i]; simpl in *.
  - injection Hx as ->. rewrite !fmap_app, Hg. reflexivity.
  - rewrite !fmap_app. f_equal. apply (IH i Hx Hg).
Qed.

Lemma row_view_update (idx : option Z) (d : list scalar) (pos : ref) :
  ∀ root node, node_at root pos = Some node →
  getitem_opt d idx = getitem_opt (data node) idx →
  row_view idx (node_update (set_data d) pos root) = row_view idx root
  ∧ row_view idx <$> iter_children (node_update (set_data d) pos root)
    = row_view idx <$> iter_children root.
Proof.
  induction pos as [|i pos IH]; intros root node Hn Hd; simpl in Hn;
    cbn [node_update].
  - injection Hn as ->. split.
    + unfold row_view. simpl. rewrite Hd. reflexivity.
    + rewrite (iter_children_unfold (set_data d node)),
        (iter_children_unfold node). reflexivity.
  - destruct (children root !! i) as [c|] eqn:Hc; [|discriminate].
    destruct (IH c node Hn Hd) as [Hv Hi]. split.
    + unfold row_view. simpl. rewrite length_alter. reflexivity.
    + rewrite (iter_children_unfold (set_children _ _)),
        (iter_children_unfold root). simpl.
      apply (flat_map_alter_view _ _ _ _ _ c Hc).
      cbv beta. rewrite !fmap_cons, Hv, Hi. reflexivity.
Qed.


Abbreviation view_inv := (Grid.view_inv is_children_loaded).
Abbreviation harmless := (Grid.harmless is_children_loaded).
Abbreviation expandable_ids := Grid.expandable_ids.

Lemma harmless_same_rows (m m' : DataGridModel) :
  rows m' = rows m → id_column_idx m' = id_column_idx m → harmless m m'.
Proof.
  intros Hr Hi Hl. unfold Grid.fully_loaded, Grid.expandable_ids in *.
  rewrite Hr, Hi. split; [exact Hl|reflexivity].
Qed.

Lemma harmless_trans (m1 m2 m3 : DataGridModel) :
  harmless m1 m2 → harmless m2 m3 → harmless m1 m3.
Proof.
  intros H12 H23 Hl. destruct (H12 Hl) as [Hl2 He2].
  destruct (H23 Hl2) as [Hl3 He3]. split; [exact Hl3|congruence].
Qed.

Lemma view_inv_model_step (m m' : DataGridModel) (v : DataGridView) :
  view_inv (m, v) → harmless m m' → view_inv (m', v).
Proof.
  intros [HI HJ] Hh. split; simpl in *.
  - intros Hc. destruct (HI Hc) as [Hl He]. destruct (Hh Hl) as [Hl' He'].
    split; [exact Hl'|]. rewrite He'. exact He.
  - intros Hb Ha. destruct (HJ Hb Ha) as [Hl He]. destruct (Hh Hl) as [Hl' He'].
    split; [exact Hl'|]. rewrite He'. exact He.
Qed.

(** The check re-establishes what the view promises, given a sound cache. *)
Lemma check_inv (m : DataGridModel) (v : DataGridView) :
  (_expandable_ids v ≠ ∅ →
     fully_loaded m = true
     ∧ ∀ ids, expandable_ids m = (Ok (), ids) → _expandable_ids v = ids) →
  view_inv (m, (check m v).2).
Proof.
  intros HI. unfold Grid._check_all_expanded, Grid.view_inv.
  destruct (_block_all_expanded v) eqn:Hb.
  { split; simpl; [exact HI|congruence]. }
  unfold Grid._get_expandable_ids.
  case_bool_decide as Hc.
  - unfold Grid.expandable_ids, Grid.fully_loaded in *. cbn [fst].
    destruct (rows m) as [root|] eqn:Hr.
    + destruct (loaded_rec root) eqn:Hl; simpl.
      * rewrite Hc.
        destruct (collect_expandable (id_column_idx m) (iter_children root) ∅)
          as [[[]|e] ids] eqn:Hcol; simpl.
        -- split; simpl.
           ++ intros _. split; [reflexivity|]. intros ids' [= <-]. reflexivity.
           ++ intros _ Ha. apply bool_decide_eq_true in Ha.
              split; [reflexivity|]. intros ids' [= <-]. exact Ha.
        -- split; simpl.
           ++ intros _. split; [reflexivity|]. discriminate.
           ++ intros _ _. split; [reflexivity|]. discriminate.
      * split; simpl; [intros Hne; contradiction|discriminate].
    + split; simpl; [intros Hne; contradiction|].
      intros _ _. split; [reflexivity|]. discriminate.
  - simpl. destruct (HI Hc) as [Hl He]. split; simpl.
    + intros _. split; assumption.
    + intros _ Ha. apply bool_decide_eq_true in Ha.
      split; [exact Hl|]. intros ids Hids. rewrite Ha. exact (He ids Hids).
Qed.


Lemma harmless_with_images (m : DataGridModel) inv fb :
  harmless m (with_images inv fb m).
Proof. apply harmless_same_rows; reflexivity. Qed.

Lemma navigate_harmless (fuel : nat) (iter_ : list Z) (m : DataGridModel) :
  harmless m (get_row_by_path fuel iter_ m).2.
Proof.
  intros Hl. destruct (get_row_by_path_fully_loaded fuel iter_ m Hl) as [r ->].
  split; [exact Hl|reflexivity].
Qed.

Lemma ensure_harmless (fuel : nat) (row : ref) (m : DataGridModel) :
  harmless m (ensure_loaded fuel row m).2.
Proof.
  intros Hl. destruct (ensure_fully_loaded fuel row m Hl) as [r ->].
  split; [exact Hl|reflexivity].
Qed.

Lemma on_get_value_harmless (fuel : nat) (iter_ : list Z) (column : Z)
    (m : DataGridModel) :
  harmless m (on_get_value fuel iter_ column m).2.
Proof.
  intros Hl.
  destruct (on_get_value_fully_loaded fuel iter_ column m Hl)
    as (r & inv & fb & ->).
  apply harmless_with_images, Hl.
Qed.

Lemma get_value_harmless (fuel : nat) (iter_ : list Z) (column : option Z)
    (m : DataGridModel) :
  harmless m (get_value fuel iter_ column m).2.
Proof.
  destruct column as [c|]; simpl.
  - apply on_get_value_harmless.
  - intros Hl. split; [exact Hl|reflexivity].
Qed.

Lemma add_rows_root_harmless (fuel : nat) (m : DataGridModel) :
  is_tree m = true → harmless m (add_rows is_children_loaded fuel None m).2.
Proof.
  intros Ht Hl. destruct fuel as [|fuel].
  - split; [exact Hl|reflexivity].
  - rewrite add_rows_tree_root_noop by exact Ht. split; [exact Hl|reflexivity].
Qed.

(** Writing another column than the id column into a row changes neither
    what waits for children nor the expandable ids. *)
Lemma write_harmless (m : DataGridModel) (root : Node) (pos : ref)
    (node : Node) (column : Z) (value : scalar) (new_data : list scalar)
    (idx : Z) :
  rows m = Some root → node_at root pos = Some node →
  setitem (data node) column value = Ok new_data →
  id_column_idx m = Some idx → 0 <= column < idx →
  harmless m (with_rows (fmap (node_update (set_data new_data) pos)) m).
Proof.
  intros Hr Hn Hset Hid Hcol Hl.
  unfold Grid.fully_loaded, Grid.expandable_ids in *. simpl.
  rewrite Hr in *. simpl. split.
  - rewrite (loaded_rec_update new_data pos root node Hn). exact Hl.
  - apply collect_expandable_ext.
    apply (row_view_update _ new_data pos root node Hn).
    rewrite Hid. unfold getitem_opt. unfold setitem in Hset.
    destruct (norm_index (length (data node)) column) as [n|] eqn:Hnorm;
      [|discriminate].
    injection Hset as <-. unfold getitem. rewrite length_insert.
    destruct (norm_index (length (data node)) idx) as [k|] eqn:Hk;
      [|reflexivity].
    rewrite list_lookup_insert_ne; [reflexivity|].
    apply norm_index_nonneg_inv in Hnorm as [-> _]; [|lia].
    apply norm_index_nonneg_inv in Hk as [-> _]; [|lia]. lia.
Qed.

Lemma set_value_harmless (fuel : nat) (itr : list Z) (column : Z)
    (value : scalar) (emit_event : bool) (m : DataGridModel) (idx : Z) :
  id_column_idx m = Some idx → 0 <= column < idx →
  harmless m (set_value fuel itr column value emit_event m).2.
Proof.
  intros Hid Hcol Hl. unfold Grid.set_value. mnorm.
  destruct (get_row_by_path_fully_loaded fuel itr m Hl) as [r Hr].
  rewrite Hr. destruct r as [row|e]; [|split; [exact Hl|reflexivity]].
  mnorm. destruct (rows m) as [root|] eqn:Hrows;
    [|split; [exact Hl|reflexivity]].
  mnorm. destruct (node_at root row) as [node|] eqn:Hn;
    [|split; [exact Hl|reflexivity]].
  mnorm. destruct (setitem (data node) column value) as [new_data|e] eqn:Hset;
    [|split; [exact Hl|reflexivity]].
  mnorm.
  set (m1 := with_rows (fmap (node_update (set_data new_data) row)) m).
  assert (H1 : harmless m m1)
    by (eapply write_harmless; eauto).
  destruct (H1 Hl) as [Hl1 He1].
  change (id_column_idx m1) with (id_column_idx m). rewrite Hid.
  destruct (on_get_value_fully_loaded fuel itr idx m1 Hl1)
    as (r & inv & fb & Hg).
  simpl Grid.get_value. rewrite Hg.
  assert (H2 : harmless m (with_images inv fb m1)).
  { apply (harmless_trans m m1); [exact H1|apply harmless_with_images]. }
  destruct r as [id_|e]; [|exact (H2 Hl)]. mnorm.
  destruct (getitem (columns (with_images inv fb m1)) column) as [col|e];
    [|exact (H2 Hl)].
  mnorm. destruct (fvalue_int id_) as [id_int|e]; [|exact (H2 Hl)].
  mnorm. destruct emit_event; exact (H2 Hl).
Qed.

Lemma on_toggle_harmless (fuel : nat) (path : list Z) (m : DataGridModel)
    (idx : Z) :
  id_column_idx m = Some idx → 0 < idx →
  harmless m (on_toggle is_children_loaded get_transformer fuel path 0 m).2.
Proof.
  intros Hid Hpos.
  destruct (fully_loaded m) eqn:Hl;
    [|intros Hc; rewrite Hl in Hc; discriminate].
  destruct (get_row_by_path_fully_loaded fuel path m Hl) as [r Hr].
  unfold Grid._get_row_by_path in Hr.
  unfold Grid.on_toggle, Grid.on_get_iter, on_get_iter_body, except_IndexError.
  mnorm. rewrite Hr.
  destruct r as [row|e].
  - mnorm.
    destruct (on_get_value_fully_loaded fuel path 0 m Hl)
      as (r & inv & fb & Hg).
    rewrite Hg. destruct r as [val|e]; [|apply harmless_with_images].
    apply (harmless_trans m (with_images inv fb m));
      [apply harmless_with_images|].
    apply (set_value_harmless _ _ _ _ _ _ idx); [exact Hid|lia].
  - destruct e; mnorm; apply harmless_same_rows; reflexivity.
Qed.


Abbreviation tree_run := (Grid.tree_run is_children_loaded get_transformer).
Abbreviation tree_view_step :=
  (Grid.tree_view_step is_children_loaded get_transformer).

Lemma tree_run_display (s : DataGridModel * DataGridView) :
  tree_run s → tree_display s.1.
Proof. intros [m H|s0 s' _ _ H]; exact H. Qed.

Lemma view_inv_expanded (m : DataGridModel) (v : DataGridView)
    (ids : gset fvalue) :
  view_inv (m, v) →
  (_expandable_ids (with_expanded_ids ids v) ≠ ∅ →
     fully_loaded m = true
     ∧ ∀ ids', expandable_ids m = (Ok (), ids') →
               _expandable_ids (with_expanded_ids ids v) = ids').
Proof. intros [HI _]. exact HI. Qed.

Lemma view_step_inv (s s' : DataGridModel * DataGridView) :
  tree_display s.1 → view_inv s → tree_view_step s s' → view_inv s'.
Proof.
  intros [Htree (idx & Hid & Hpos)] Hinv Hstep.
  destruct Hstep as [[m v] s' Hrun|m v|[m v]|fuel iter_ [m v]|fuel iter_ [m v]
                     |fuel iter_ m v|fuel iter_ column m v|fuel row m v
                     |fuel m v|fuel path m v]; simpl in *.
  - unfold Grid.refresh_begin in Hrun.
    destruct (Grid.refresh m) as [[[]|e] m']; [|discriminate].
    injection Hrun as <-. split; simpl; [intros H; contradiction|discriminate].
  - destruct Hinv as [HI HJ]. split; simpl; [exact HI|discriminate].
  - unfold Grid.bulk_end.
    destruct (check m (with_block false v)) as [r v'] eqn:Hc.
    change v' with (r, v').2. rewrite <- Hc. apply check_inv.
    destruct Hinv as [HI _]. exact HI.
  - unfold Grid.on_row_expanded.
    pose proof (get_value_harmless fuel iter_ (id_column_idx m) m) as Hh.
    destruct (get_value fuel iter_ (id_column_idx m) m) as [[row_id|e] m'];
      simpl in Hh.
    + pose proof (view_inv_model_step m m' v Hinv Hh) as Hinv'.
      destruct (check m' (with_expanded_ids ({[fvalue_key row_id]} ∪ _expanded_ids v) v))
        as [r v'] eqn:Hc.
      change v' with (r, v').2. rewrite <- Hc. apply check_inv.
      apply (view_inv_expanded m' v _ Hinv').
    + apply (view_inv_model_step m m' v Hinv Hh).
  - unfold Grid.on_row_collapsed.
    pose proof (get_value_harmless fuel iter_ (id_column_idx m) m) as Hh.
    destruct (get_value fuel iter_ (id_column_idx m) m) as [[row_id|e] m'];
      simpl in Hh.
    + pose proof (view_inv_model_step m m' v Hinv Hh) as Hinv'.
      destruct (check m' (with_expanded_ids (_expanded_ids v ∖ {[fvalue_key row_id]}) v))
        as [r v'] eqn:Hc.
      change v' with (r, v').2. rewrite <- Hc. apply check_inv.
      apply (view_inv_expanded m' v _ Hinv').
    + apply (view_inv_model_step m m' v Hinv Hh).
  - apply (view_inv_model_step m _ v Hinv), navigate_harmless.
  - apply (view_inv_model_step m _ v Hinv), on_get_value_harmless.
  - apply (view_inv_model_step m _ v Hinv), ensure_harmless.
  - apply (view_inv_model_step m _ v Hinv), add_rows_root_harmless, Htree.
  - apply (view_inv_model_step m _ v Hinv).
    apply (on_toggle_harmless _ _ _ idx); assumption.
Qed.


Lemma tree_run_inv (s : DataGridModel * DataGridView) :
  tree_run s → view_inv s.
Proof.
  induction 1 as [m Hd|s s' Hrun IH Hstep Hd].
  - split; simpl; [intros H; contradiction|discriminate].
  - apply (view_step_inv s s'); [apply tree_run_display, Hrun|exact IH|exact Hstep].
Qed.

(** One check with an empty cache of expandable ids, outside bulk
    operations. *)
Lemma check_from_empty_cache (m : DataGridModel) (v : DataGridView) :
  _block_all_expanded v = false → _expandable_ids v = ∅ →
  (fully_loaded m = false → check m v = (Ok (), with_all_expanded false v))
  ∧ ((check m v).1 = Ok () → _all_expanded (check m v).2 = true →
     fully_loaded m = true ∧ expandable_ids m = (Ok (), _expanded_ids v)).
Proof.
  intros Hb He.
  unfold Grid._check_all_expanded, Grid._get_expandable_ids,
    Grid.fully_loaded, Grid.expandable_ids.
  rewrite Hb, He. rewrite bool_decide_eq_true_2 by reflexivity.
  destruct (rows m) as [root|].
  - destruct (loaded_rec root); simpl.
    + split; [discriminate|].
      destruct (collect_expandable (id_column_idx m) (iter_children root) ∅)
        as [[[]|e] ids]; simpl; [|discriminate].
      intros _. case_bool_decide as Heq; [|destruct (_all_expanded v); discriminate].
      intros _. split; [reflexivity|]. rewrite Heq. reflexivity.
    + split; [reflexivity|]. intros _.
      destruct (_all_expanded v); simpl; discriminate.
  - simpl. split; discriminate.
Qed.

(** What the bookkeeping does achieve.  A check of the all-expanded
    state that starts outside bulk operations with an empty cache of
    expandable ids leaves all-expanded false while anything in the
    resident hierarchy waits for children, and sets it to true only if the
    recursive children-loaded check succeeds and the expanded ids are the
    expandable ids.  While only the tree view touches the model,
    hierarchical display is active, the selection flag is not the id
    column and a node's children-loaded flag depends only on its expected
    and resident children, every state the view reaches outside bulk
    operations has all-expanded true only if nothing waits for children
    and the expanded ids are the expandable ids. *)
Theorem all_expanded_only_when_loaded :
  (∀ (m : DataGridModel) (v : DataGridView),
     _block_all_expanded v = false → _expandable_ids v = ∅ →
     (fully_loaded m = false → check m v = (Ok (), with_all_expanded false v))
     ∧ ((check m v).1 = Ok () → _all_expanded (check m v).2 = true →
        fully_loaded m = true ∧ expandable_ids m = (Ok (), _expanded_ids v)))
  ∧ (∀ s : DataGridModel * DataGridView,
       tree_run s →
       _block_all_expanded s.2 = false → _all_expanded s.2 = true →
       fully_loaded s.1 = true
       ∧ ∀ ids, expandable_ids s.1 = (Ok (), ids) → _expanded_ids s.2 = ids).
Proof.
  split.
  - exact check_from_empty_cache.
  - intros s Hrun. exact (proj2 (tree_run_inv s Hrun)).
Qed.

End ViewFacts.

(** *** The view on the sample data sources *)

Lemma loaded_by_count_shape (n n' : Node) :
  priv n = priv n' → length (children n) = length (children n') →
  Samples.loaded_by_count n = Samples.loaded_by_count n'.
Proof. intros Hp Hl. unfold Samples.loaded_by_count. rewrite Hp, Hl. reflexivity. Qed.

Lemma paged_next_run :
  Grid.view_run Samples.loaded_by_count Samples.sample_transformers
    Samples.paged_next.
Proof.
  unfold Samples.paged_next.
  apply (Grid.run_step _ _ (Samples.paged_opened.1, Samples.paged_opened.2));
    [|apply Grid.step_tree_view, Grid.step_add_rows].
  rewrite <- surjective_pairing. unfold Samples.paged_opened.
  eapply Grid.run_step; [|apply Grid.step_tree_view, Grid.step_row_expanded].
  eapply Grid.run_step; [|apply Grid.step_tree_view, Grid.step_bulk_end].
  apply (Grid.run_step _ _ (Grid.init Samples.paged_source, init_view));
    [apply Grid.run_init|].
  apply Grid.step_tree_view, Grid.step_refresh_begin. vm_compute. reflexivity.
Qed.

(** Pagination leaves the cache of expandable ids as it is, too: once a
    view without hierarchical display has asserted all-expanded and the
    next page brings a row that waits for children, the state stays
    asserted, and a further check finds the cache filled and asserts it
    again. *)
Lemma all_expanded_stale_after_next_page :
  let s := Samples.paged_next in
  Grid.view_run Samples.loaded_by_count Samples.sample_transformers s
  ∧ is_tree s.1 = false
  ∧ _block_all_expanded s.2 = false
  ∧ _all_expanded s.2 = true
  ∧ Grid.fully_loaded Samples.loaded_by_count s.1 = false
  ∧ Grid._check_all_expanded Samples.loaded_by_count s.1 s.2 = (Ok (), s.2).
Proof.
  intros s. split; [exact paged_next_run|].
  repeat split; vm_compute; reflexivity.
Qed.

Lemma tree_display_sample (m : DataGridModel) :
  is_tree m = true → id_column_idx m = Some 1 → Grid.tree_display m.
Proof. intros Ht Hid. split; [exact Ht|]. exists 1. split; [exact Hid|lia]. Qed.

Lemma tree_opened_run :
  Grid.tree_run Samples.loaded_by_count Samples.sample_transformers
    Samples.tree_opened.
Proof.
  unfold Samples.tree_opened.
  eapply Grid.tree_step;
    [|apply Grid.step_row_expanded|apply tree_display_sample; vm_compute; reflexivity].
  unfold Samples.tree_loaded.
  apply (Grid.tree_step _ _ (Samples.tree_refreshed.1, Samples.tree_refreshed.2));
    [|apply Grid.step_ensure_loaded|apply tree_display_sample; vm_compute; reflexivity].
  rewrite <- surjective_pairing. unfold Samples.tree_refreshed.
  eapply Grid.tree_step;
    [|apply Grid.step_bulk_end|apply tree_display_sample; vm_compute; reflexivity].
  apply (Grid.tree_step _ _ ((Grid.refresh (Grid.init Samples.tree_source)).2, init_view)).
  - apply Grid.tree_init, tree_display_sample; vm_compute; reflexivity.
  - apply Grid.step_refresh_begin. vm_compute. reflexivity.
  - apply tree_display_sample; vm_compute; reflexivity.
Qed.

(** The hierarchy of one root and one child: before the child is loaded a
    check leaves all-expanded false; once it is loaded and the root
    expanded, all-expanded holds and the expanded ids are the expandable
    ids. *)
Lemma all_expanded_only_when_loaded_witness :
  (Grid.fully_loaded Samples.loaded_by_count Samples.tree_refreshed.1 = false
   ∧ Grid._check_all_expanded Samples.loaded_by_count
       Samples.tree_refreshed.1 init_view
     = (Ok (), with_all_expanded false init_view))
  ∧ (_block_all_expanded Samples.tree_opened.2 = false
     ∧ _all_expanded Samples.tree_opened.2 = true
     ∧ Grid.fully_loaded Samples.loaded_by_count Samples.tree_opened.1 = true
     ∧ ∀ ids, Grid.expandable_ids Samples.tree_opened.1 = (Ok (), ids)
              → _expanded_ids Samples.tree_opened.2 = ids).
Proof.
  destruct (all_expanded_only_when_loaded Samples.loaded_by_count
              Samples.sample_transformers loaded_by_count_shape) as [HA HB].
  assert (Hf : Grid.fully_loaded Samples.loaded_by_count Samples.tree_refreshed.1
               = false) by (vm_compute; reflexivity).
  assert (Hb : _block_all_expanded Samples.tree_opened.2 = false)
    by (vm_compute; reflexivity).
  assert (Ha : _all_expanded Samples.tree_opened.2 = true)
    by (vm_compute; reflexivity).
  split.
  - split; [exact Hf|].
    exact (proj1 (HA Samples.tree_refreshed.1 init_view eq_refl eq_refl) Hf).
  - split; [exact Hb|]. split; [exact Ha|].
    exact (HB Samples.tree_opened tree_opened_run Hb Ha).
Defined.


(** ** More on the image utilities *)

Lemma length_split (sep : ascii) (s : string) :
  length (split sep s) = S (count_char sep s).
Proof.
  induction s as [|c rest IH]; simpl; [reflexivity|].
  destruct (Ascii.eqb c sep); simpl; [rewrite IH; reflexivity|].
  destruct (split sep rest) as [|piece more] eqn:E; simpl in *; [discriminate|].
  exact IH.
Qed.

Lemma unpack2_length {A} (l : list A) :
  (∃ p, unpack2 l = Ok p) ↔ length l = 2%nat.
Proof.
  destruct l as [|a [|b [|c l]]]; simpl; split;
    try (intros [p H]; discriminate); try discriminate; try reflexivity.
  intros _. eexists. reflexivity.
Qed.

Lemma unpack2_raises {A} (l : list A) :
  length l ≠ 2%nat → unpack2 l = Raise ValueError.
Proof.
  destruct l as [|a [|b [|c l]]]; simpl; try reflexivity. intros H. lia.
Qed.

Section IconMoreFacts.

Variable isdir : string → bool.
Variable guess_type : string → option string.

(** X1: for a file that is not a directory, the lookup gets as far as the
    icon theme exactly when the guessed mimetype holds one slash; with
    none, or more than one, the unpacking of the split raises
    [ValueError] whatever the theme holds. *)
Theorem get_icon_for_file_one_slash (filename : string) :
  isdir filename = false →
  let slashes := count_char "/" (ImageUtils.guessed_mime guess_type filename) in
  (slashes = 1%nat ↔
   ∃ p, ImageUtils.mimetype_details isdir guess_type filename = Ok p)
  ∧ (slashes ≠ 1%nat →
     ∀ choose_icon size,
       ImageUtils.get_icon_for_file isdir guess_type choose_icon filename size
       = Raise ValueError).
Proof.
  intros Hdir slashes. unfold ImageUtils.get_icon_for_file,
    ImageUtils.icon_candidates, ImageUtils.mimetype_details.
  rewrite Hdir. split.
  - rewrite unpack2_length, length_split. fold slashes. lia.
  - intros Hne choose_icon size.
    rewrite unpack2_raises; [reflexivity|].
    rewrite length_split. fold slashes. lia.
Qed.

End IconMoreFacts.

Lemma get_icon_for_file_one_slash_witness :
  (λ _ : string, false) "notes" = false
  ∧ ImageUtils.get_icon_for_file (λ _ : string, false) (λ _, Some "text")
      (λ _ _ _, Some {| ImageUtils.get_filename := Some "icon.png" |})
      "notes" 16 = Raise ValueError.
Proof.
  split; [reflexivity|].
  apply (get_icon_for_file_one_slash (λ _ : string, false) (λ _, Some "text") "notes");
    [reflexivity|]. vm_compute. discriminate.
Defined.

Section DropShadowMoreFacts.

Context {Image : Type}.
Variable image_size : Image → Z * Z.
Variable Image_new : Z * Z → ImageUtils.rgba → Image.
Variable paste_color : Image → ImageUtils.rgba → Z * Z * Z * Z → Image.
Variable paste_image : Image → Image → Z * Z → Image.
Variable blur : Image → Image.

(** X2: on the canvas of a drop shadow, the shadow rectangle has the size
    of the image and lies displaced from it by exactly the offset; for a
    border that is not negative both lie within the canvas, and the
    nearer of the two keeps exactly the border's distance from each
    edge. *)
Theorem drop_shadow_geometry (image : Image) (border_size : Z)
    (offset : Z * Z) (shadow_color : ImageUtils.rgba) :
  let w := (image_size image).1 in
  let h := (image_size image).2 in
  let W := (ImageUtils.canvas_size Image image_size image border_size offset).1 in
  let H := (ImageUtils.canvas_size Image image_size image border_size offset).2 in
  let img_lft := (ImageUtils.image_position border_size offset).1 in
  let img_top := (ImageUtils.image_position border_size offset).2 in
  0 <= border_size → 0 <= w → 0 <= h →
  ∃ lft top rgt btm,
    ImageUtils.shadow_rectangle Image image_size Image_new paste_color
      image border_size offset shadow_color
    = paste_color (Image_new (W, H) (255, 255, 255, 0)) shadow_color
        (lft, top, rgt, btm)
    ∧ rgt - lft = w ∧ btm - top = h
    ∧ lft - img_lft = offset.1 ∧ top - img_top = offset.2
    ∧ 0 <= lft ∧ rgt <= W ∧ 0 <= top ∧ btm <= H
    ∧ 0 <= img_lft ∧ img_lft + w <= W ∧ 0 <= img_top ∧ img_top + h <= H
    ∧ Z.min lft img_lft = border_size
    ∧ W - Z.max rgt (img_lft + w) = border_size
    ∧ Z.min top img_top = border_size
    ∧ H - Z.max btm (img_top + h) = border_size.
Proof.
  intros w h W H img_lft img_top Hb Hw Hh.
  unfold ImageUtils.shadow_rectangle.
  eexists _, _, _, _. split; [reflexivity|].
  subst w h W H img_lft img_top.
  unfold ImageUtils.canvas_size, ImageUtils.image_position in *.
  destruct offset as [ox oy], (image_size image) as [iw ih]. simpl in *.
  repeat split; lia.
Qed.

(** X3: the cache is transparent.  As long as every cached canvas is the
    one its key computes -- which holds for the empty cache and is kept
    by every call -- a call returns the image pasted onto the freshly
    computed shadow, whether or not it found the shadow in the cache. *)
Theorem add_drop_shadow_cache_transparent :
  cache_sound Image image_size Image_new paste_color blur
    {| ImageUtils._drop_shadows_cache := ∅; ImageUtils.blur_calls := 0 |}
  ∧ ∀ image iterations border_size offset shadow_color st r st',
      cache_sound Image image_size Image_new paste_color blur st →
      ImageUtils.add_drop_shadow Image image_size Image_new paste_color
        paste_image blur image iterations border_size offset shadow_color st
      = (r, st') →
      r = paste_image
            (ImageUtils.blurred_shadow Image image_size Image_new paste_color
               blur image iterations border_size offset shadow_color)
            image (ImageUtils.image_position border_size offset)
      ∧ cache_sound Image image_size Image_new paste_color blur st'.
Proof.
  split.
  - intros image iterations border_size offset shadow_color canvas H.
    simpl in H. rewrite lookup_empty in H. discriminate.
  - intros image iterations border_size offset shadow_color st r st' Hs Hrun.
    destruct (ImageUtils._drop_shadows_cache Image st
                !! ImageUtils.key_of Image image_size image iterations
                     border_size offset shadow_color) as [canvas|] eqn:Hk.
    + rewrite (add_drop_shadow_hit image_size Image_new paste_color paste_image
                 blur _ _ _ _ _ _ canvas Hk) in Hrun.
      injection Hrun as <- <-. split; [|exact Hs].
      rewrite (Hs _ _ _ _ _ _ Hk). reflexivity.
    + rewrite (add_drop_shadow_miss image_size Image_new paste_color paste_image
                 blur _ _ _ _ _ _ Hk) in Hrun.
      injection Hrun as <- <-. split; [reflexivity|].
      intros image2 it2 b2 off2 col2 canvas2 H2. simpl in H2.
      destruct (decide (ImageUtils.key_of Image image_size image iterations
                          border_size offset shadow_color
                        = ImageUtils.key_of Image image_size image2 it2 b2
                            off2 col2)) as [Heq|Hne].
      * rewrite Heq, lookup_insert_eq in H2. injection H2 as <-.
        apply (key_determines_canvas image_size Image_new paste_color blur).
        exact Heq.
      * rewrite lookup_insert_ne in H2 by exact Hne.
        apply (Hs _ _ _ _ _ _ H2).
Qed.

End DropShadowMoreFacts.

(** A 10 by 20 image with the default border and an offset to the upper
    left. *)
Lemma drop_shadow_geometry_witness :
  ∃ lft top rgt btm,
    ImageUtils.shadow_rectangle nat (λ _, (10, 20)) (λ _ _, 0%nat)
      (λ im _ box, Z.to_nat (box.1.1.1 + box.1.1.2)) 7%nat 2 (-3, -1)
      (0, 0, 0, 255)
    = Z.to_nat (lft + top)
    ∧ rgt - lft = 10 ∧ btm - top = 20 ∧ lft = 2 ∧ top = 2.
Proof.
  destruct (drop_shadow_geometry (λ _ : nat, (10, 20)) (λ _ _, 0%nat)
              (λ im _ box, Z.to_nat (box.1.1.1 + box.1.1.2)) 7%nat 2 (-3, -1)
              (0, 0, 0, 255))
    as (lft & top & rgt & btm & Hrect & Hw & Hh & Hx & Hy & _);
    [simpl; lia|simpl; lia|simpl; lia|].
  simpl in Hx, Hy, Hw, Hh.
  exists lft, top, rgt, btm. split; [exact Hrect|].
  repeat split; lia.
Defined.

(** Two calls on an empty cache, the second one a hit. *)
Lemma add_drop_shadow_cache_transparent_witness :
  let add := ImageUtils.add_drop_shadow nat (λ _, (10, 20)) (λ _ _, 0%nat)
               (λ im _ _, im) (λ canvas im _, (canvas + im)%nat) S in
  let st0 := {| ImageUtils._drop_shadows_cache := ∅;
                ImageUtils.blur_calls := 0 |} in
  let p1 := add 7%nat 3 2 (2, 2) (0, 0, 0, 255) st0 in
  let p2 := add 9%nat 3 2 (2, 2) (0, 0, 0, 255) p1.2 in
  p2.1 = 12%nat ∧ ImageUtils.blur_calls nat p2.2 = 3%nat.
Proof.
  intros add st0 p1 p2.
  destruct (add_drop_shadow_cache_transparent (λ _ : nat, (10, 20))
              (λ _ _, 0%nat) (λ im _ _, im) (λ canvas im _, (canvas + im)%nat) S)
    as [H0 Hstep].
  destruct (Hstep 7%nat 3 2 (2, 2) (0, 0, 0, 255) st0 p1.1 p1.2 H0)
    as [_ H1]; [reflexivity|].
  destruct (Hstep 9%nat 3 2 (2, 2) (0, 0, 0, 255) p1.2 p2.1 p2.2 H1)
    as [Hr _]; [reflexivity|].
  split; [rewrite Hr; reflexivity|reflexivity].
Defined.

(** ** The tree model interface *)

Lemma getitem_last {A} (l : list A) (x : A) : getitem (l ++ [x]) (-1) = Ok x.
Proof.
  unfold getitem, norm_index. rewrite length_app. simpl.
  replace (0 <=? -1) with false by reflexivity. simpl.
  destruct (Z.leb_spec (- Z.of_nat (length l + 1)) (-1)); [|lia].
  simpl.
  replace (Z.to_nat (Z.of_nat (length l + 1) + -1)) with (length l) by lia.
  rewrite lookup_app_r by lia. rewrite Nat.sub_diag. reflexivity.
Qed.

Lemma getitem_single {A} (x : A) : getitem [x] 0 = Ok x.
Proof. reflexivity. Qed.

Lemma getitem_single_last {A} (x : A) : getitem [x] (-1) = Ok x.
Proof. reflexivity. Qed.

Section TreeModelFacts.

Variable is_children_loaded : Node → bool.

Abbreviation get_row_by_path := (Grid._get_row_by_path is_children_loaded).
Abbreviation on_iter_next := (Grid.on_iter_next is_children_loaded).
Abbreviation on_iter_children := (Grid.on_iter_children is_children_loaded).
Abbreviation on_iter_has_child := (Grid.on_iter_has_child is_children_loaded).
Abbreviation on_iter_n_children := (Grid.on_iter_n_children is_children_loaded).
Abbreviation on_iter_nth_child := (Grid.on_iter_nth_child is_children_loaded).

Lemma get_row_by_path_nonempty (fuel : nat) (p : list Z) (m m' : DataGridModel)
    (pos : ref) :
  get_row_by_path fuel p m = (Ok pos, m') → p ≠ [].
Proof.
  intros H ->. unfold Grid._get_row_by_path, get_row_by_path_body in H.
  rewrite bind_run in H. unfold get at 1 in H. rewrite bind_run in H.
  unfold lift at 1 in H. discriminate.
Qed.

Lemma len_of_row (pos : ref) (m : DataGridModel) (root node : Node) :
  rows m = Some root → node_at root pos = Some node →
  len_of (Some pos) m = (Ok (length (children node)), m).
Proof.
  intros Hr Hn. unfold len_of. mnorm. rewrite Hr. mnorm. rewrite Hn. reflexivity.
Qed.

Lemma len_of_rows (m : DataGridModel) (root : Node) :
  rows m = Some root → len_of None m = (Ok (length (children root)), m).
Proof. intros Hr. unfold len_of. mnorm. rewrite Hr. reflexivity. Qed.

(** X4: the parent of what [on_iter_nth_child] or [on_iter_children]
    returns for a row is that row ([None] at the top level), and what
    [on_iter_next] returns has the parent of the row it was asked about. *)
Theorem tree_model_parent_round_trip (fuel : nat) (m m' : DataGridModel) :
  (∀ parent n c,
     on_iter_nth_child fuel parent n m = (Ok (Some c), m') →
     on_iter_parent c = parent ∧ getitem c (-1) = Ok n ∧ 0 <= n)
  ∧ (∀ parent c,
       on_iter_children fuel parent m = (Ok (Some c), m') →
       on_iter_parent c = parent ∧ getitem c (-1) = Ok 0)
  ∧ (∀ rowref next,
       on_iter_next fuel (Some rowref) m = (Ok (Some next), m') →
       on_iter_parent next = on_iter_parent rowref
       ∧ ∃ i, getitem rowref (-1) = Ok i ∧ getitem next (-1) = Ok (i + 1)).
Proof.
  split; [|split].
  - intros parent n c H. unfold Grid.on_iter_nth_child in H.
    destruct parent as [p|].
    + rewrite bind_run in H. rewrite bind_run in H.
      destruct (get_row_by_path fuel p m) as [[pos|e] m1] eqn:Hp; [|discriminate].
      apply get_row_by_path_nonempty in Hp.
      unfold mret at 1, M_ret in H. cbv beta iota in H.
      rewrite bind_run in H.
      destruct (0 <=? n) eqn:Hn.
      * rewrite bind_run in H.
        destruct (len_of (Some pos) m1) as [[len|e] m2]; [|discriminate].
        unfold mret at 1, M_ret in H.
        destruct (n <? Z.of_nat len); simpl in H; [|discriminate].
        injection H as <- <-. unfold on_iter_parent.
        rewrite length_app. simpl. rewrite bool_decide_eq_false_2.
        -- rewrite removelast_last, getitem_last. repeat split. lia.
        -- destruct p; [contradiction|simpl; lia].
      * simpl in H. discriminate.
    + rewrite bind_run in H. unfold mret at 1, M_ret in H.
      cbv beta iota in H. rewrite bind_run in H.
      destruct (0 <=? n) eqn:Hn.
      * rewrite bind_run in H.
        destruct (len_of None m) as [[len|e] m2]; [|discriminate].
        unfold mret at 1, M_ret in H.
        destruct (n <? Z.of_nat len); simpl in H; [|discriminate].
        injection H as <- <-. repeat split. lia.
      * simpl in H. discriminate.
  - intros parent c H. unfold Grid.on_iter_children in H.
    destruct parent as [p|].
    + rewrite bind_run in H.
      destruct (get_row_by_path fuel p m) as [[pos|e] m1] eqn:Hp; [|discriminate].
      apply get_row_by_path_nonempty in Hp. rewrite bind_run in H.
      destruct (len_of (Some pos) m1) as [[len|e] m2]; [|discriminate].
      case_bool_decide; [discriminate|]. injection H as <- <-.
      unfold on_iter_parent. rewrite length_app. simpl.
      rewrite bool_decide_eq_false_2.
      * rewrite removelast_last, getitem_last. split; reflexivity.
      * destruct p; [contradiction|simpl; lia].
    + injection H as <- <-. split; reflexivity.
  - intros rowref next H. unfold Grid.on_iter_next in H.
    rewrite bind_run in H. case_bool_decide as Hlen.
    + destruct rowref as [|i [|]]; try discriminate.
      rewrite bind_run in H. unfold lift at 1 in H. rewrite getitem_single in H.
      unfold mret at 1, M_ret in H. cbv beta iota in H.
      rewrite bind_run in H. unfold lift at 1 in H.
      rewrite getitem_single_last in H. rewrite bind_run in H.
      destruct (len_of None m) as [[len|e] m2]; [|discriminate].
      destruct (negb (i + 1 <? Z.of_nat len)); [discriminate|].
      injection H as <- <-. split; [reflexivity|].
      exists i. split; reflexivity.
    + rewrite bind_run in H.
      destruct (get_row_by_path fuel (removelast rowref) m) as [[pos|e] m1] eqn:Hp;
        [|discriminate].
      apply get_row_by_path_nonempty in Hp. rewrite bind_run in H.
      unfold lift at 1 in H.
      destruct (getitem rowref (-1)) as [last|e] eqn:Hlast; [|discriminate].
      unfold mret at 1, M_ret in H. cbv beta iota in H.
      rewrite bind_run in H. unfold lift at 1 in H. rewrite getitem_last in H.
      rewrite bind_run in H.
      destruct (len_of (Some pos) m1) as [[len|e] m2]; [|discriminate].
      destruct (negb (last + 1 <? Z.of_nat len)); [discriminate|].
      injection H as <- <-. split.
      * unfold on_iter_parent. rewrite length_app. simpl.
        rewrite (bool_decide_eq_false_2 (length rowref = 1%nat)) by exact Hlen.
        rewrite bool_decide_eq_false_2.
        -- rewrite removelast_last. reflexivity.
        -- destruct (removelast rowref); [contradiction|simpl; lia].
      * exists last. split; [reflexivity|apply getitem_last].
Qed.

(** X5: for a row that [_get_row_by_path] reaches, the five navigation
    calls agree on its resident children: with [len] of them,
    [on_iter_n_children] answers [len], [on_iter_has_child] whether
    [len] is positive, [on_iter_children] the first child's path exactly
    when there is one, [on_iter_nth_child] the path of child [n] exactly
    for [0 <= n < len], and [on_iter_next] on child [i] the path of child
    [i + 1] exactly when [i + 1 < len]. *)
Theorem tree_model_children_agree (fuel : nat) (p : list Z)
    (m m' : DataGridModel) (pos : ref) (root' node : Node) :
  get_row_by_path fuel p m = (Ok pos, m') →
  rows m' = Some root' → node_at root' pos = Some node →
  let len := length (children node) in
  on_iter_n_children fuel (Some p) m = (Ok len, m')
  ∧ on_iter_has_child fuel (Some p) m = (Ok (bool_decide (0 < len)%nat), m')
  ∧ on_iter_children fuel (Some p) m
    = (Ok (if decide (0 < len)%nat then Some (p ++ [0]) else None), m')
  ∧ (∀ n, on_iter_nth_child fuel (Some p) n m
          = (Ok (if decide (0 <= n < Z.of_nat len) then Some (p ++ [n])
                 else None), m'))
  ∧ (∀ i, on_iter_next fuel (Some (p ++ [i])) m
          = (Ok (if decide (i + 1 < Z.of_nat len) then Some (p ++ [i + 1])
                 else None), m')).
Proof.
  intros Hp Hr Hn len.
  pose proof (len_of_row pos m' root' node Hr Hn) as Hlen. fold len in Hlen.
  pose proof (get_row_by_path_nonempty fuel p m m' pos Hp) as Hne.
  split; [|split; [|split; [|split]]].
  - unfold Grid.on_iter_n_children. rewrite bind_run, Hp. exact Hlen.
  - unfold Grid.on_iter_has_child. rewrite bind_run, Hp. rewrite bind_run, Hlen.
    unfold mret, M_ret. f_equal. f_equal.
    repeat case_bool_decide; try reflexivity; lia.
  - unfold Grid.on_iter_children. rewrite bind_run, Hp. rewrite bind_run, Hlen.
    case_bool_decide; destruct (decide (0 < len)%nat); try reflexivity; lia.
  - intros n. unfold Grid.on_iter_nth_child. rewrite bind_run. rewrite bind_run, Hp.
    unfold mret at 1, M_ret. cbv beta iota. rewrite bind_run.
    destruct (Z.leb_spec 0 n).
    + rewrite bind_run, Hlen. unfold mret at 1, M_ret.
      destruct (Z.ltb_spec n (Z.of_nat len)); simpl;
        destruct (decide (0 <= n < Z.of_nat len)); try reflexivity; lia.
    + unfold mret at 1, M_ret. simpl.
      destruct (decide (0 <= n < Z.of_nat len)); [lia|reflexivity].
  - intros i. unfold Grid.on_iter_next. rewrite bind_run.
    rewrite bool_decide_eq_false_2.
    2:{ rewrite length_app. simpl. destruct p; [contradiction|simpl; lia]. }
    rewrite removelast_last. rewrite bind_run, Hp. rewrite bind_run.
    unfold lift at 1. rewrite getitem_last. unfold mret at 1, M_ret.
    cbv beta iota. rewrite bind_run. unfold lift at 1. rewrite getitem_last.
    rewrite bind_run, Hlen.
    destruct (Z.ltb_spec (i + 1) (Z.of_nat len)); simpl;
      destruct (decide (i + 1 < Z.of_nat len)); try reflexivity; lia.
Qed.

(** X6: at the top level the calls do not agree on an empty model:
    [on_iter_children(None)] answers [(0,)] whatever the model holds,
    while with no root rows [on_iter_n_children(None)] is 0,
    [on_iter_nth_child(None, 0)] is [None] and [on_get_iter] rejects
    [(0,)]; before the first refresh [on_iter_n_children(None)] raises
    [TypeError]. *)
Theorem tree_model_empty_top_level (fuel : nat) (m : DataGridModel) :
  on_iter_children fuel None m = (Ok (Some [0]), m)
  ∧ (∀ root, rows m = Some root → children root = [] →
       on_iter_n_children fuel None m = (Ok 0%nat, m)
       ∧ on_iter_nth_child fuel None 0 m = (Ok None, m)
       ∧ Grid.on_get_iter is_children_loaded fuel [0] m = (Ok None, m))
  ∧ (rows m = None →
       on_iter_n_children fuel None m = (Raise TypeError, m)).
Proof.
  split; [reflexivity|]. split.
  - intros root Hr Hc.
    pose proof (len_of_rows m root Hr) as Hlen. rewrite Hc in Hlen. simpl in Hlen.
    split; [exact Hlen|]. split.
    + unfold Grid.on_iter_nth_child, len_of. mnorm.
      change (0 <=? 0) with true. cbv beta iota.
      rewrite Hr. cbv beta iota. rewrite Hc. reflexivity.
    + unfold Grid.on_get_iter, on_get_iter_body, except_IndexError.
      rewrite bind_run. unfold get_row_by_path_body. rewrite bind_run.
      unfold get at 1. rewrite bind_run. unfold lift at 1. rewrite Hr.
      unfold resolve_path. rewrite Hc. simpl length.
      rewrite norm_index_empty. reflexivity.
  - intros Hr. unfold Grid.on_iter_n_children, len_of. mnorm. rewrite Hr.
    reflexivity.
Qed.

End TreeModelFacts.

(** *** The interface on the sample hierarchy *)

Lemma tree_model_parent_round_trip_witness :
  let m := Samples.tree_loaded.1 in
  Grid.on_iter_nth_child Samples.loaded_by_count 1 (Some [0]) 0 m
  = (Ok (Some [0; 0]), m)
  ∧ on_iter_parent [0; 0] = Some [0].
Proof.
  intros m.
  assert (H : Grid.on_iter_nth_child Samples.loaded_by_count 1 (Some [0]) 0 m
              = (Ok (Some [0; 0]), m)) by (vm_compute; reflexivity).
  split; [exact H|].
  destruct (tree_model_parent_round_trip Samples.loaded_by_count 1 m m)
    as [Hnth _].
  exact (proj1 (Hnth (Some [0]) 0 [0; 0] H)).
Defined.

Lemma tree_model_children_agree_witness :
  let m := Samples.tree_loaded.1 in
  Grid.on_iter_n_children Samples.loaded_by_count 1 (Some [0]) m = (Ok 1%nat, m)
  ∧ Grid.on_iter_next Samples.loaded_by_count 1 (Some [0; 0]) m = (Ok None, m).
Proof.
  intros m.
  set (root := default (mkNode [] None [] 0) (rows m)).
  set (node := default (mkNode [] None [] 0) (node_at root [0%nat])).
  destruct (tree_model_children_agree Samples.loaded_by_count 1 [0] m m
              [0%nat] root node) as (Hn & _ & _ & _ & Hnext);
    [vm_compute; reflexivity|vm_compute; reflexivity|vm_compute; reflexivity|].
  split.
  - refine (eq_trans Hn _). vm_compute. reflexivity.
  - refine (eq_trans (Hnext 0) _). vm_compute. reflexivity.
Defined.

Lemma tree_model_empty_top_level_witness :
  let m := (Grid.refresh (Grid.init Samples.empty_source)).2 in
  Grid.on_iter_children Samples.loaded_by_count 1 None m = (Ok (Some [0]), m)
  ∧ Grid.on_get_iter Samples.loaded_by_count 1 [0] m = (Ok None, m).
Proof.
  intros m.
  destruct (tree_model_empty_top_level Samples.loaded_by_count 1 m)
    as (Hc & Hempty & _).
  split; [exact Hc|].
  set (root := default (mkNode [] None [] 0) (rows m)).
  destruct (Hempty root) as (_ & _ & Hi);
    [vm_compute; reflexivity|vm_compute; reflexivity|exact Hi].
Defined.

(** ** Formatting image cells *)

Lemma with_images_same (m : DataGridModel) :
  with_images (_invisible_images m) (_fallback_images m) m = m.
Proof. destruct m. reflexivity. Qed.

Lemma strip_prefix_spec (prefix s rest : string) :
  strip_prefix prefix s = Some rest ↔ s = prefix +:+ rest.
Proof.
  revert s. induction prefix as [|a prefix IH]; intros s; simpl.
  - split; [intros [= ->]; reflexivity|intros ->; reflexivity].
  - destruct s as [|b s]; [split; discriminate|].
    destruct (Ascii.eqb_spec a b) as [->|Hne].
    + rewrite IH. split; [intros ->; reflexivity|intros [= ->]; reflexivity].
    + split; [discriminate|]. intros [= Hab _]. congruence.
Qed.

Section ImageCellFacts.

Variable get_transformer : string → option transformer.

Abbreviation get_formatted_value := (Grid.get_formatted_value get_transformer).

Lemma image_cell_unfold (value : scalar) (column_index : Z) (visible : bool)
    (m : DataGridModel) (col_dict : Column) (t : transformer) :
  getitem (columns m) column_index = Ok col_dict →
  transform col_dict = Some "image" →
  get_transformer "image" = Some t →
  get_formatted_value value column_index visible m =
  let kwargs := image_kwargs m in
  if negb (truthy value) then
    match _invisible_images m !! image_max_size m with
    | Some invisible_img => (Ok (FPixbuf invisible_img), m)
    | None =>
        (Ok (FPixbuf (NoImageScaled (image_max_size m))),
         with_images
           (<[image_max_size m := NoImageScaled (image_max_size m)]>
              (_invisible_images m))
           (_fallback_images m) m)
    end
  else if negb visible then
    let key := (image_draw_border m, image_max_size m) in
    match _fallback_images m !! key with
    | Some fallback =>
        if fvalue_truthy fallback then (Ok fallback, m)
        else (Ok (t SNone kwargs),
              with_images (_invisible_images m)
                (<[key := t SNone kwargs]> (_fallback_images m)) m)
    | None =>
        (Ok (t SNone kwargs),
         with_images (_invisible_images m)
           (<[key := t SNone kwargs]> (_fallback_images m)) m)
    end
  else
    match value with
    | SStr s =>
        (Ok (t match strip_prefix IMAGE_PREFIX s with
               | Some rest => SStr rest
               | None => SNone
               end (kwargs ++ config_kwargs m column_index)), m)
    | _ => (Raise AttributeError, m)
    end.
Proof.
  intros Hcol Htr Ht. unfold Grid.get_formatted_value. mnorm.
  rewrite Hcol. mnorm. rewrite Htr.
  change (String.eqb "image" "") with false. cbv beta iota.
  rewrite Ht.
  change (String.eqb "image" "boolean") with false.
  change (String.eqb "image" "image") with true. cbv beta iota zeta.
  rewrite andb_false_l.
  destruct (negb (truthy value)).
  - destruct (_invisible_images m !! image_max_size m); reflexivity.
  - destruct (negb visible).
    + destruct (_fallback_images m !! (image_draw_border m, image_max_size m))
        as [fallback|]; [destruct (fvalue_truthy fallback)|]; reflexivity.
    + destruct value; reflexivity.
Qed.

(** X7: an image cell without a value shows the placeholder for the
    current image size.  The placeholder is made once per size and kept:
    a further empty cell, visible or not, gets the same pixel buffer and
    leaves the model as it is; no transformer is involved. *)
Theorem image_placeholder_cached (value value' : scalar) (column_index : Z)
    (visible visible' : bool) (m : DataGridModel) (col_dict : Column)
    (t : transformer) :
  getitem (columns m) column_index = Ok col_dict →
  transform col_dict = Some "image" →
  get_transformer "image" = Some t →
  truthy value = false → truthy value' = false →
  ∃ img m',
    get_formatted_value value column_index visible m = (Ok (FPixbuf img), m')
    ∧ (_invisible_images m !! image_max_size m = None →
       img = NoImageScaled (image_max_size m))
    ∧ m' = with_images (<[image_max_size m := img]> (_invisible_images m))
             (_fallback_images m) m
    ∧ get_formatted_value value' column_index visible' m'
      = (Ok (FPixbuf img), m').
Proof.
  intros Hcol Htr Ht Hv Hv'.
  rewrite (image_cell_unfold value column_index visible m col_dict t Hcol Htr Ht).
  cbv zeta. rewrite Hv. simpl negb. cbv iota.
  destruct (_invisible_images m !! image_max_size m) as [img|] eqn:Hc.
  - exists img, m. split; [reflexivity|]. split; [discriminate|].
    split; [rewrite insert_id by exact Hc; symmetry; apply with_images_same|].
    rewrite (image_cell_unfold value' column_index visible' m col_dict t Hcol Htr Ht).
    cbv zeta. rewrite Hv'. simpl negb. cbv iota. rewrite Hc. reflexivity.
  - eexists _, _. split; [reflexivity|]. split; [reflexivity|].
    split; [reflexivity|].
    rewrite (image_cell_unfold value' column_index visible'
               (with_images _ _ m) col_dict t Hcol Htr Ht).
    cbv zeta. rewrite Hv'. simpl negb. cbv iota.
    simpl _invisible_images. simpl image_max_size.
    rewrite lookup_insert_eq. reflexivity.
Qed.

(** X8: an image cell that has a value but is not visible never has its
    value rendered: it shows what the transformer makes of [None], cached
    per border flag and image size.  A further such cell, whatever its
    value, gets the same result and leaves the model as it is. *)
Theorem image_fallback_cached (value value' : scalar) (column_index : Z)
    (m : DataGridModel) (col_dict : Column) (t : transformer) :
  getitem (columns m) column_index = Ok col_dict →
  transform col_dict = Some "image" →
  get_transformer "image" = Some t →
  truthy value = true → truthy value' = true →
  let key := (image_draw_border m, image_max_size m) in
  ∃ fallback m',
    get_formatted_value value column_index false m = (Ok fallback, m')
    ∧ (fallback = t SNone (image_kwargs m)
       ∨ _fallback_images m !! key = Some fallback
         ∧ fvalue_truthy fallback = true)
    ∧ m' = with_images (_invisible_images m)
             (<[key := fallback]> (_fallback_images m)) m
    ∧ get_formatted_value value' column_index false m' = (Ok fallback, m').
Proof.
  intros Hcol Htr Ht Hv Hv' key.
  rewrite (image_cell_unfold value column_index false m col_dict t Hcol Htr Ht).
  cbv zeta. rewrite Hv. simpl negb. cbv iota. fold key.
  assert (Hagain : ∀ fb,
    (fvalue_truthy fb = false → fb = t SNone (image_kwargs m)) →
    let m' := with_images (_invisible_images m)
                (<[key := fb]> (_fallback_images m)) m in
    get_formatted_value value' column_index false m' = (Ok fb, m')).
  { intros fb Hfb m'.
    rewrite (image_cell_unfold value' column_index false m' col_dict t Hcol Htr Ht).
    cbv zeta. rewrite Hv'. simpl negb. cbv iota.
    change (image_draw_border m', image_max_size m') with key.
    change (_fallback_images m') with (<[key := fb]> (_fallback_images m)).
    rewrite lookup_insert_eq.
    destruct (fvalue_truthy fb) eqn:Hfbt; [reflexivity|].
    change (image_kwargs m') with (image_kwargs m).
    rewrite <- (Hfb eq_refl). unfold m'. simpl.
    rewrite insert_insert_eq. reflexivity. }
  destruct (_fallback_images m !! key) as [fb|] eqn:Hc.
  - destruct (fvalue_truthy fb) eqn:Hfbt.
    + exists fb, m. split; [reflexivity|]. split; [right; split; [reflexivity|exact Hfbt]|].
      assert (Hm : m = with_images (_invisible_images m)
                         (<[key := fb]> (_fallback_images m)) m).
      { rewrite insert_id by exact Hc. symmetry. apply with_images_same. }
      split; [exact Hm|].
      assert (Hf : fvalue_truthy fb = false → fb = t SNone (image_kwargs m))
        by (intros Hf; congruence).
      pose proof (Hagain fb Hf) as H. cbv zeta in H. rewrite <- Hm in H. exact H.
    + eexists _, _. split; [reflexivity|]. split; [left; reflexivity|].
      split; [reflexivity|]. apply Hagain. reflexivity.
  - eexists _, _. split; [reflexivity|]. split; [left; reflexivity|].
    split; [reflexivity|]. apply Hagain. reflexivity.
Qed.

(** X9: a visible image cell hands the transformer the file name behind
    the [file://] prefix of its value, and [None] for a string without
    that prefix; a value that is not a string has no [startswith] and
    raises [AttributeError].  The model is left as it is. *)
Theorem image_value_prefix (value : scalar) (column_index : Z)
    (m : DataGridModel) (col_dict : Column) (t : transformer) :
  getitem (columns m) column_index = Ok col_dict →
  transform col_dict = Some "image" →
  get_transformer "image" = Some t →
  truthy value = true →
  let kwargs := image_kwargs m ++ config_kwargs m column_index in
  (∀ rest, value = SStr ("file://" +:+ rest) →
     get_formatted_value value column_index true m
     = (Ok (t (SStr rest) kwargs), m))
  ∧ (∀ s, value = SStr s → (∀ rest, s ≠ "file://" +:+ rest) →
       get_formatted_value value column_index true m
       = (Ok (t SNone kwargs), m))
  ∧ ((∀ s, value ≠ SStr s) →
       get_formatted_value value column_index true m
       = (Raise AttributeError, m)).
Proof.
  intros Hcol Htr Ht Hv kwargs.
  rewrite (image_cell_unfold value column_index true m col_dict t Hcol Htr Ht).
  cbv zeta. rewrite Hv. simpl negb. cbv iota. fold kwargs.
  split; [|split].
  - intros rest ->.
    rewrite (proj2 (strip_prefix_spec IMAGE_PREFIX ("file://" +:+ rest) rest)
               eq_refl).
    reflexivity.
  - intros s -> Hno.
    destruct (strip_prefix IMAGE_PREFIX s) as [rest|] eqn:Hs; [|reflexivity].
    apply strip_prefix_spec in Hs. destruct (Hno rest Hs).
  - intros Hns. destruct value; try reflexivity. destruct (Hns s eq_refl).
Qed.

End ImageCellFacts.

(** *** Image cells of the sample with thumbnails *)

Lemma image_placeholder_cached_witness :
  let m := Grid.init Samples.image_source in
  ∃ m',
    Grid.get_formatted_value Samples.image_transformers SNone 3 true m
    = (Ok (FPixbuf (NoImageScaled 24)), m')
    ∧ Grid.get_formatted_value Samples.image_transformers (SStr "") 3 false m'
      = (Ok (FPixbuf (NoImageScaled 24)), m').
Proof.
  intros m.
  edestruct (image_placeholder_cached Samples.image_transformers SNone
               (SStr "") 3 true false m) as (img & m' & H1 & Himg & _ & H2);
    [reflexivity|reflexivity|reflexivity|reflexivity|reflexivity|].
  rewrite (Himg eq_refl) in H1, H2. exists m'. split; assumption.
Defined.

Lemma image_fallback_cached_witness :
  let m := Grid.init Samples.image_source in
  ∃ m',
    Grid.get_formatted_value Samples.image_transformers
      (SStr "file:///tmp/a.png") 3 false m = (Ok (FPixbuf (Rendered 0)), m')
    ∧ Grid.get_formatted_value Samples.image_transformers
        (SStr "file:///tmp/b.png") 3 false m' = (Ok (FPixbuf (Rendered 0)), m').
Proof.
  intros m.
  edestruct (image_fallback_cached Samples.image_transformers
               (SStr "file:///tmp/a.png") (SStr "file:///tmp/b.png") 3 m)
    as (fb & m' & H1 & [->|[Hc _]] & _ & H2);
    [reflexivity|reflexivity|reflexivity|reflexivity|reflexivity| |].
  - exists m'. split; assumption.
  - discriminate Hc.
Defined.

Lemma image_value_prefix_witness :
  let m := Grid.init Samples.image_source in
  Grid.get_formatted_value Samples.image_transformers
    (SStr "file:///tmp/a.png") 3 true m = (Ok (FPixbuf (Rendered 10)), m)
  ∧ Grid.get_formatted_value Samples.image_transformers (SInt 5) 3 true m
    = (Raise AttributeError, m).
Proof.
  intros m. split.
  - edestruct (image_value_prefix Samples.image_transformers
                 (SStr "file:///tmp/a.png") 3 m) as (H & _ & _);
      [reflexivity|reflexivity|reflexivity|reflexivity|].
    exact (H "/tmp/a.png" eq_refl).
  - edestruct (image_value_prefix Samples.image_transformers (SInt 5) 3 m)
      as (_ & _ & H); [reflexivity|reflexivity|reflexivity|reflexivity|].
    apply H. discriminate.
Defined.

(** ** What [add_rows] appends *)

Lemma node_update_ext (f g : Node → Node) (pos : ref) :
  (∀ n, f n = g n) → ∀ root, node_update f pos root = node_update g pos root.
Proof.
  intros Hfg. induction pos as [|i pos IH]; intros root; simpl; [apply Hfg|].
  f_equal. apply list_alter_ext; [|reflexivity]. intros x _. apply IH.
Qed.

Lemma node_update_compose (f g : Node → Node) (pos : ref) :
  ∀ root, node_update f pos (node_update g pos root)
          = node_update (f ∘ g) pos root.
Proof.
  induction pos as [|i pos IH]; intros root; simpl; [reflexivity|].
  unfold set_children at 1. simpl. unfold set_children. simpl. f_equal.
  rewrite list_alter_alter_eq.
  apply list_alter_ext; [|reflexivity]. intros x _. apply IH.
Qed.

Lemma append_rows_spec (parent : ref) (parent_path : list Z) (path_offset : Z)
    (xs : list Node) :
  ∀ (k : nat) (root : Node),
  append_rows parent parent_path path_offset k xs root
  = node_update
      (λ n, set_children
              (children n
               ++ imap (λ i row,
                          set_path (Some (parent_path
                                          ++ [path_offset + Z.of_nat (k + i)]))
                                   row) xs) n)
      parent root.
Proof.
  induction xs as [|x xs IH]; intros k root; simpl.
  - induction parent as [|i parent IHp] in root |- *; simpl.
    + rewrite app_nil_r. destruct root; reflexivity.
    + destruct root as [d p c v]. unfold set_children. simpl. f_equal.
      symmetry. rewrite <- (list_alter_id id c i) at 2 by reflexivity.
      apply list_alter_ext; [|reflexivity]. intros x _. symmetry. apply IHp.
  - rewrite IH, node_update_compose. apply node_update_ext. intros n.
    unfold compose, append, set_children. simpl. f_equal.
    rewrite <- app_assoc. simpl. f_equal. f_equal.
    + rewrite Nat.add_0_r. reflexivity.
    + apply imap_ext. intros i row _. simpl. do 4 f_equal. lia.
Qed.

Lemma with_logs_app (evs1 evs2 : list event) (m : DataGridModel) :
  with_logs (evs1 ++ evs2) m = with_logs evs2 (with_logs evs1 m).
Proof. unfold with_logs. apply foldl_app. Qed.

Lemma with_logs_log (evs : list event) (m : DataGridModel) :
  log (with_logs evs m) = log m ++ evs
  ∧ active_params (with_logs evs m) = active_params m
  ∧ rows (with_logs evs m) = rows m
  ∧ row_id_mapper (with_logs evs m) = row_id_mapper m.
Proof.
  revert m. induction evs as [|e evs IH]; intros m; simpl.
  - rewrite app_nil_r. repeat split.
  - destruct (IH (with_log e m)) as (Hl & Hp & Hr & Hm).
    unfold with_logs in *. simpl. rewrite Hl, Hp, Hr, Hm. simpl.
    rewrite <- app_assoc. repeat split.
Qed.

Section AddRowsAppendFacts.

Variable is_children_loaded : Node → bool.

Abbreviation add_rows := (Grid.add_rows is_children_loaded).
Abbreviation add_rows_turn := (Grid.add_rows_turn is_children_loaded).

(** One turn of the loop, up to the notification of the view. *)
Lemma add_rows_turn_run (rec : option ref → M bool) (tree : bool)
    (idx : option Z) (pos : ref) (offset i : Z) (row : Node)
    (m : DataGridModel) (R : Node) (MP : gmap scalar ref) (parent : Node)
    (p : list Z) (key : scalar) :
  node_at R pos = Some parent → path parent = Some p →
  getitem_opt (data row) idx = Ok key →
  add_rows_turn rec tree idx pos offset i row (st m R MP)
  = let row' := set_path (Some (p ++ [offset + i])) row in
    let m1 := st m (node_update (append row') pos R)
                 (<[dict_key key := pos ++ [length (children parent)]]> MP) in
    if negb tree then
      (on_get_iter_body is_children_loaded rec (p ++ [offset + i]);;
       emit (RowInserted (p ++ [offset + i]))) m1
    else (Ok (), m1).
Proof.
  intros Hn Hp Hk. unfold Grid.add_rows_turn. mnorm.
  cbn [rows with_rows_mapper with_row_id_mapper with_rows]. cbv beta iota.
  rewrite Hn. cbv beta iota. rewrite Hp. cbv beta iota zeta.
  cbn [data set_path]. rewrite Hk. cbv beta iota.
  destruct tree; reflexivity.
Qed.

Lemma add_rows_loop_tree (rec : option ref → M bool) (idx : option Z)
    (pos : ref) (p : list Z) (offset : Z) (m : DataGridModel) (xs : list Node) :
  ∀ (k : nat) (R : Node) (MP : gmap scalar ref) (keys : list scalar)
    (parent : Node),
  node_at R pos = Some parent → path parent = Some p →
  row_keys idx xs = Ok keys →
  for_enumerate (Z.of_nat k) xs (add_rows_turn rec true idx pos offset)
    (st m R MP)
  = (Ok (), st m (append_rows pos p offset k xs R)
              (register_rows pos (length (children parent)) keys MP)).
Proof.
  induction xs as [|x xs IH]; intros k R MP keys parent Hn Hp Hk; simpl in *.
  - injection Hk as <-. reflexivity.
  - destruct (getitem_opt (data x) idx) as [key|e] eqn:Hx; [|discriminate].
    destruct (row_keys idx xs) as [keys'|e] eqn:Hxs; [|discriminate].
    injection Hk as <-.
    unfold mbind at 1, M_bind.
    rewrite (add_rows_turn_run rec true idx pos offset (Z.of_nat k) x m R MP
               parent p key Hn Hp Hx).
    cbv zeta. simpl negb. cbv iota.
    replace (Z.of_nat k + 1) with (Z.of_nat (S k)) by lia.
    rewrite (IH (S k) _ _ keys'
               (append (set_path (Some (p ++ [offset + Z.of_nat k])) x) parent)
               (node_at_update _ _ _ _ Hn) Hp eq_refl).
    simpl. rewrite length_app. simpl.
    replace (length (children parent) + 1)%nat with (S (length (children parent)))
      by lia.
    reflexivity.
Qed.

Lemma add_rows_loop_root (fuel : nat) (idx : option Z) (offset : Z)
    (xs : list Node) :
  ∀ (k : nat) (m : DataGridModel) (R : Node) (MP : gmap scalar ref)
    (keys : list scalar),
  path R = Some [] →
  offset + Z.of_nat k = Z.of_nat (length (children R)) →
  row_keys idx xs = Ok keys →
  (∀ i row, xs !! i = Some row →
     is_children_loaded (set_path (Some [offset + Z.of_nat (k + i)]) row) = true) →
  for_enumerate (Z.of_nat k) xs
    (add_rows_turn (add_rows fuel) false idx [] offset) (st m R MP)
  = (Ok (),
     st (with_logs (imap (λ i _, RowInserted [offset + Z.of_nat (k + i)]) xs) m)
        (append_rows [] [] offset k xs R)
        (register_rows [] (length (children R)) keys MP)).
Proof.
  induction xs as [|x xs IH]; intros k m R MP keys Hp Hoff Hk Hl; simpl in *.
  - injection Hk as <-. reflexivity.
  - destruct (getitem_opt (data x) idx) as [key|e] eqn:Hx; [|discriminate].
    destruct (row_keys idx xs) as [keys'|e] eqn:Hxs; [|discriminate].
    injection Hk as <-.
    unfold mbind at 1, M_bind.
    rewrite (add_rows_turn_run (add_rows fuel) false idx [] offset (Z.of_nat k)
               x m R MP R [] key eq_refl Hp Hx).
    cbv zeta. simpl negb. cbv iota. cbn [node_update app].
    set (row' := set_path (Some [offset + Z.of_nat k]) x).
    set (m1 := st m (append row' R) (<[dict_key key := [length (children R)]]> MP)).
    assert (Hiter : on_get_iter_body is_children_loaded (add_rows fuel)
                      [offset + Z.of_nat k] m1
                    = (Ok (Some [offset + Z.of_nat k]), m1)).
    { unfold on_get_iter_body, except_IndexError. rewrite bind_run.
      change (get_row_by_path_body is_children_loaded (add_rows fuel))
        with (Grid._get_row_by_path is_children_loaded fuel).
      rewrite (get_row_by_path_loaded is_children_loaded fuel _ m1 (append row' R)
                 [length (children R)] row').
      - reflexivity.
      - reflexivity.
      - unfold resolve_path. simpl children. rewrite length_app. simpl length.
        rewrite norm_index_nonneg by lia. simpl. do 2 f_equal. lia.
      - simpl. rewrite lookup_app_r by lia. rewrite Nat.sub_diag. reflexivity.
      - specialize (Hl 0%nat x eq_refl). rewrite Nat.add_0_r in Hl. exact Hl. }
    rewrite bind_run, Hiter. unfold emit, modify. cbv beta iota.
    replace (Z.of_nat k + 1) with (Z.of_nat (S k)) by lia.
    change (with_log (RowInserted [offset + Z.of_nat k]) m1)
      with (st (with_log (RowInserted [offset + Z.of_nat k]) m) (append row' R)
              (<[dict_key key := [length (children R)]]> MP)).
    rewrite (IH (S k) _ _ _ keys').
    + simpl. rewrite length_app. simpl.
      replace (length (children R) + 1)%nat with (S (length (children R))) by lia.
      rewrite Nat.add_0_r. f_equal. f_equal. unfold with_logs. simpl. f_equal.
      apply imap_ext. intros i y _. simpl. do 3 f_equal. lia.
    + exact Hp.
    + simpl. rewrite length_app. simpl. lia.
    + reflexivity.
    + intros i row Hi. specialize (Hl (S i) row Hi).
      replace (S k + i)%nat with (k + S i)%nat by lia. exact Hl.
Qed.

Lemma queried_st (params : gmap string pval) (m : DataGridModel) (root : Node) :
  rows m = Some root →
  queried params m = st (queried params m) root (row_id_mapper m).
Proof. intros Hr. destruct m. simpl in *. subst. reflexivity. Qed.

(** The run of [add_rows] for a parent in hierarchical display. *)
Lemma add_rows_children_run (fuel : nat) (pos : ref) (m : DataGridModel)
    (root parent : Node) (p : list Z) (parent_id : scalar)
    (new_rows : list Node) (keys : list scalar) :
  is_tree m = true → rows m = Some root →
  node_at root pos = Some parent → path parent = Some p →
  getitem_opt (data parent) (id_column_idx m) = Ok parent_id →
  let params := <["parent_id" := PScalar parent_id]> (active_params m) in
  children (loaded (load (data_source m) (log m) params)) = new_rows →
  new_rows ≠ [] →
  row_keys (id_column_idx m) new_rows = Ok keys →
  add_rows (S fuel) (Some pos) m
  = (Ok true,
     st (queried params m) (append_rows pos p 0 0 new_rows root)
        (register_rows pos (length (children parent)) keys (row_id_mapper m))).
Proof.
  intros Htree Hr Hn Hp Hid params Hload Hne Hkeys.
  rewrite (add_rows_unfold is_children_loaded). rewrite Htree.
  rewrite bool_decide_eq_false_2 by discriminate. simpl andb. cbv iota.
  unfold add_rows_target. rewrite Hr, Hn, Hid.
  unfold mbind, result_bind, rbind. cbv beta iota. fold params. cbv zeta.
  rewrite Hload. rewrite bool_decide_eq_false_2.
  2:{ destruct new_rows; [contradiction|discriminate]. }
  pose proof (add_rows_loop_tree (add_rows fuel) (id_column_idx m) pos p 0
                (queried params m) new_rows 0 root (row_id_mapper m) keys parent
                Hn Hp Hkeys) as Hloop.
  change (Z.of_nat 0) with 0 in Hloop.
  rewrite (queried_st params m root Hr). unfold M_bind. rewrite Hloop.
  reflexivity.
Qed.

(** X10: loading the children of a row in hierarchical display.  When the
    data source answers the query for the row's id with rows that all
    reach the id column, [add_rows] returns [True] after one [load]; the
    loaded rows stand behind the children the row already had, numbered
    from 0 below the row's path whatever it held before, and each is
    registered under its id at its position.  Nothing else is written and
    no signal is emitted. *)
Theorem add_rows_loads_children (fuel : nat) (pos : ref) (m : DataGridModel)
    (root parent : Node) (p : list Z) (parent_id : scalar)
    (new_rows : list Node) (keys : list scalar) :
  is_tree m = true → rows m = Some root →
  node_at root pos = Some parent → path parent = Some p →
  getitem_opt (data parent) (id_column_idx m) = Ok parent_id →
  let params := <["parent_id" := PScalar parent_id]> (active_params m) in
  children (loaded (load (data_source m) (log m) params)) = new_rows →
  new_rows ≠ [] →
  row_keys (id_column_idx m) new_rows = Ok keys →
  ∃ m',
    add_rows (S fuel) (Some pos) m = (Ok true, m')
    ∧ rows m' = Some (node_update
                        (λ n, set_children (children n ++ numbered p 0 new_rows) n)
                        pos root)
    ∧ row_id_mapper m'
      = register_rows pos (length (children parent)) keys (row_id_mapper m)
    ∧ active_params m' = params
    ∧ log m' = log m ++ [Load params].
Proof.
  intros Htree Hr Hn Hp Hid params Hload Hne Hkeys.
  eexists. split.
  - exact (add_rows_children_run fuel pos m root parent p parent_id new_rows
             keys Htree Hr Hn Hp Hid Hload Hne Hkeys).
  - rewrite append_rows_spec. simpl. repeat split.
Qed.

(** X11: the next page of a list without hierarchical display.  When the
    root rows carry their indices as paths (as [refresh] leaves them), the
    data source answers the next page with rows that reach the id column,
    and none of these waits for children, [add_rows] returns [True]: the
    page counter is one higher, the new rows stand behind the old ones and
    carry their indices as paths again, each is registered under its id,
    and a [row-inserted] signal went out for each in order. *)
Theorem add_rows_next_page (fuel : nat) (m : DataGridModel) (root : Node)
    (page : pval) (new_rows : list Node) (keys : list scalar) :
  is_tree m = false → rows m = Some root → path root = Some [] →
  children root ≠ [] →
  (∀ i row, children root !! i = Some row → path row = Some [Z.of_nat i]) →
  pval_add_one (default (PScalar (SInt 0)) (active_params m !! "page"))
  = Ok page →
  let params := <["parent_id" := PScalar SNone]>
                  (<["page" := page]> (active_params m)) in
  let len := length (children root) in
  children (loaded (load (data_source m) (log m) params)) = new_rows →
  new_rows ≠ [] →
  row_keys (id_column_idx m) new_rows = Ok keys →
  (∀ i row, new_rows !! i = Some row →
     is_children_loaded (set_path (Some [Z.of_nat (len + i)]) row) = true) →
  ∃ m' root',
    add_rows (S fuel) None m = (Ok true, m')
    ∧ rows m' = Some root'
    ∧ children root' = children root ++ numbered [] (Z.of_nat len) new_rows
    ∧ (∀ i row, children root' !! i = Some row → path row = Some [Z.of_nat i])
    ∧ row_id_mapper m' = register_rows [] len keys (row_id_mapper m)
    ∧ active_params m' = params
    ∧ log m' = log m ++ Load params
                 :: imap (λ i _, RowInserted [Z.of_nat (len + i)]) new_rows.
Proof.
  intros Htree Hr Hp Hne0 Hpaths Hpage params len Hload Hne Hkeys Hloaded.
  rewrite (add_rows_unfold is_children_loaded). rewrite Htree.
  simpl andb. cbv iota.
  assert (Hlast : ∃ last, getitem (children root) (-1) = Ok last
                          ∧ path last = Some [Z.of_nat len - 1]).
  { destruct (exists_last Hne0) as (l & c0 & Hc).
    exists c0. rewrite Hc, getitem_last. split; [reflexivity|].
    rewrite (Hpaths (length l) c0).
    - unfold len. rewrite Hc, length_app. simpl. do 2 f_equal. lia.
    - rewrite Hc, lookup_app_r by lia. rewrite Nat.sub_diag. reflexivity. }
  destruct Hlast as (last & Hlast & Hlp).
  unfold add_rows_target. rewrite Hr.
  unfold mbind, result_bind, rbind. rewrite Hlast, Hlp.
  rewrite getitem_single_last, Hpage. cbv beta iota. fold params. cbv zeta.
  rewrite Hload. rewrite bool_decide_eq_false_2.
  2:{ destruct new_rows; [contradiction|discriminate]. }
  replace (Z.of_nat len - 1 + 1) with (Z.of_nat len) by lia.
  assert (Hloop := add_rows_loop_root fuel (id_column_idx m) (Z.of_nat len)
                      new_rows 0 (queried params m) root (row_id_mapper m) keys Hp).
  change (Z.of_nat 0) with 0 in Hloop.
  rewrite (queried_st params m root Hr). unfold M_bind. rewrite Hloop.
  2:{ unfold len. lia. }
  2:{ exact Hkeys. }
  2:{ intros i row Hi. rewrite <- Nat2Z.inj_add. simpl. apply Hloaded, Hi. }
  eexists _, _. split; [reflexivity|].
  rewrite append_rows_spec. cbn [node_update].
  split; [reflexivity|]. split.
  { reflexivity. }
  split.
  { intros i row. simpl. intros Hi.
    apply lookup_app_Some in Hi as [Hi|[Hge Hi]].
    - apply Hpaths, Hi.
    - rewrite list_lookup_imap in Hi.
      destruct (new_rows !! (i - length (children root))%nat) as [x|] eqn:Hx;
        [|discriminate].
      simpl in Hi. injection Hi as <-. simpl. do 3 f_equal. unfold len. lia. }
  split; [reflexivity|]. split.
  { destruct (with_logs_log
                (imap (λ i _, RowInserted [Z.of_nat len + Z.of_nat (0 + i)])
                   new_rows) (queried params m)) as (_ & Hpar & _).
    exact Hpar. }
  destruct (with_logs_log
              (imap (λ i _, RowInserted [Z.of_nat len + Z.of_nat (0 + i)])
                 new_rows) (queried params m)) as (Hlog & _).
  refine (eq_trans Hlog _). simpl. rewrite <- app_assoc. simpl. do 2 f_equal.
  apply imap_ext. intros i row _. simpl. do 2 f_equal. lia.
Qed.

End AddRowsAppendFacts.

(** *** On the sample sources *)

Lemma add_rows_loads_children_witness :
  let m := Samples.tree_refreshed.1 in
  ∃ m',
    Grid.add_rows Samples.loaded_by_count 1 (Some [0%nat]) m = (Ok true, m')
    ∧ row_id_mapper m' !! SInt 2 = Some [0%nat; 0%nat]
    ∧ log m' = log m ++ [Load (<["parent_id" := PScalar (SInt 1)]>
                                 (active_params m))].
Proof.
  intros m.
  set (root := default (mkNode [] None [] 0) (rows m)).
  set (parent := default (mkNode [] None [] 0) (node_at root [0%nat])).
  destruct (add_rows_loads_children Samples.loaded_by_count 0 [0%nat] m root
              parent [0] (SInt 1) [Samples.row (SInt 2) "b" 0] [SInt 2])
    as (m' & Hrun & _ & Hmap & _ & Hlog);
    [vm_compute; reflexivity|vm_compute; reflexivity|vm_compute; reflexivity
    |vm_compute; reflexivity|vm_compute; reflexivity|vm_compute; reflexivity
    |discriminate|vm_compute; reflexivity|].
  exists m'. split; [exact Hrun|]. split; [|exact Hlog].
  rewrite Hmap. vm_compute. reflexivity.
Defined.

Lemma add_rows_next_page_witness :
  let m := (Grid.refresh (Grid.init Samples.two_page_source)).2 in
  ∃ m' root',
    Grid.add_rows Samples.loaded_by_count 1 None m = (Ok true, m')
    ∧ rows m' = Some root'
    ∧ children root' !! 2%nat
      = Some (set_path (Some [2]) (Samples.row (SInt 3) "c" 0))
    ∧ active_params m' !! "page" = Some (PScalar (SInt 1)).
Proof.
  intros m.
  set (root := default (mkNode [] None [] 0) (rows m)).
  destruct (add_rows_next_page Samples.loaded_by_count 0 m root
              (PScalar (SInt 1)) [Samples.row (SInt 3) "c" 0] [SInt 3])
    as (m' & root' & Hrun & Hrows & Hch & _ & _ & Hpar & _).
  - vm_compute. reflexivity.
  - vm_compute. reflexivity.
  - vm_compute. reflexivity.
  - vm_compute. discriminate.
  - intros [|[|i]] row Hi; vm_compute in Hi; try discriminate;
      injection Hi as <-; reflexivity.
  - vm_compute. reflexivity.
  - vm_compute. reflexivity.
  - discriminate.
  - vm_compute. reflexivity.
  - intros [|i] row Hi; [|discriminate]. injection Hi as <-. reflexivity.
  - exists m', root'. split; [exact Hrun|]. split; [exact Hrows|].
    split; [rewrite Hch; vm_compute; reflexivity|].
    rewrite Hpar. vm_compute. reflexivity.
Defined.

(** ** Finding a row by its id *)

Section RowByIdFacts.

Variable is_children_loaded : Node → bool.

Abbreviation get_row_by_id := (Grid.get_row_by_id is_children_loaded).
Abbreviation loaded_rec :=
  (Grid.is_children_loaded_recursive is_children_loaded).

(** Walking rows that are resident (and, when loading is asked for,
    complete) with a body that never stops: nothing happens. *)
Lemma iter_children_aux_static (load_rows : bool) (row_id : scalar)
    (m : DataGridModel) (root : Node) :
  rows m = Some root →
  row_id_mapper m !! dict_key row_id = None →
  ∀ (fuel : nat) (parent : ref) (i : nat) (node : Node),
  node_at root parent = Some node →
  (load_rows = true → loaded_rec node = true) →
  (rows_ahead node i < fuel)%nat →
  iter_children_aux is_children_loaded ref (λ _, in_row_id_mapper row_id)
    fuel load_rows parent i m = (Ok None, m).
Proof.
  intros Hr Hmiss. induction fuel as [|fuel IH]; intros parent i node Hn Hl Hf;
    [lia|].
  cbn [iter_children_aux]. rewrite bind_run. unfold deref. rewrite bind_run.
  unfold the_rows. rewrite bind_run. unfold get at 1. rewrite Hr.
  unfold mret at 1, M_ret. rewrite Hn. unfold mret at 1, M_ret.
  case_bool_decide as Hi; [|reflexivity]. cbv zeta.
  destruct (lookup_lt_is_Some_2 (children node) i Hi) as [c Hc].
  assert (Hnc : node_at root (parent ++ [i]) = Some c).
  { rewrite node_at_app, Hn. simpl. rewrite Hc. reflexivity. }
  assert (Hlc : load_rows = true → loaded_rec c = true).
  { intros Ht. specialize (Hl Ht). rewrite loaded_rec_unfold in Hl.
    apply andb_true_iff in Hl as [_ Hl]. rewrite forallb_forall in Hl.
    apply Hl. apply list_elem_of_In. eapply list_elem_of_lookup_2, Hc. }
  unfold rows_ahead in Hf. rewrite (drop_S _ _ _ Hc) in Hf. simpl in Hf.
  rewrite length_app in Hf.
  rewrite bind_run.
  match goal with
  | |- context [(if load_rows then ?a else ?b) m] =>
      assert (Hens : (if load_rows then a else b) m = (Ok (), m))
  end.
  { destruct load_rows; [|reflexivity].
    unfold Grid._ensure_children_is_loaded, ensure_children_is_loaded_body.
    mnorm. rewrite Hr. cbv beta iota. rewrite Hnc. cbv beta iota.
    specialize (Hlc eq_refl). rewrite loaded_rec_unfold in Hlc.
    apply andb_true_iff in Hlc as [-> _]. reflexivity. }
  rewrite Hens. rewrite bind_run.
  unfold in_row_id_mapper at 1. rewrite bind_run. unfold get at 1.
  unfold mret at 1, M_ret. rewrite Hmiss.
  rewrite bind_run.
  rewrite (IH (parent ++ [i]) 0%nat c Hnc Hlc).
  2:{ unfold rows_ahead. rewrite drop_0, <- iter_children_unfold. lia. }
  apply (IH parent (S i) node Hn Hl). unfold rows_ahead. lia.
Qed.

Lemma get_row_by_id_hit (fuel : nat) (row_id : scalar) (load_rows : bool)
    (m : DataGridModel) (row : ref) :
  row_id_mapper m !! dict_key row_id = Some row →
  get_row_by_id fuel row_id load_rows m = (Ok (Some row), m).
Proof.
  intros Hm. unfold Grid.get_row_by_id, in_row_id_mapper. mnorm.
  rewrite Hm. reflexivity.
Qed.

Lemma rows_ahead_root (root : Node) :
  rows_ahead root 0 = length (iter_children root).
Proof. unfold rows_ahead. rewrite drop_0, <- iter_children_unfold. reflexivity. Qed.

(** X12: [get_row_by_id] without loading is the lookup in the row-id
    index.  An id that is registered is answered at once, with or without
    loading; for one that is not, the resident rows are walked, nothing is
    found and the model is left as it is; and on a model that was never
    refreshed the walk over [self.rows] raises [TypeError]. *)
Theorem get_row_by_id_lookup :
  (∀ fuel row_id load_rows m row,
     row_id_mapper m !! dict_key row_id = Some row →
     get_row_by_id fuel row_id load_rows m = (Ok (Some row), m))
  ∧ (∀ fuel row_id m root,
       rows m = Some root → (length (iter_children root) < fuel)%nat →
       get_row_by_id fuel row_id false m
       = (Ok (row_id_mapper m !! dict_key row_id), m))
  ∧ (∀ fuel row_id load_rows m,
       rows m = None → row_id_mapper m !! dict_key row_id = None →
       get_row_by_id (S fuel) row_id load_rows m = (Raise TypeError, m)).
Proof.
  split; [|split].
  - intros fuel row_id load_rows m row Hm. apply get_row_by_id_hit, Hm.
  - intros fuel row_id m root Hr Hf.
    unfold Grid.get_row_by_id. rewrite bind_run.
    unfold in_row_id_mapper at 1. rewrite bind_run. unfold get at 1.
    unfold mret at 1, M_ret.
    destruct (row_id_mapper m !! dict_key row_id) as [row|] eqn:Hm;
      [reflexivity|].
    unfold iter_rows. rewrite bind_run.
    rewrite (iter_children_aux_static false row_id m root Hr Hm fuel [] 0%nat
               root eq_refl); [reflexivity|discriminate|].
    rewrite rows_ahead_root. exact Hf.
  - intros fuel row_id load_rows m Hr Hm.
    unfold Grid.get_row_by_id. rewrite bind_run.
    unfold in_row_id_mapper at 1. rewrite bind_run. unfold get at 1.
    unfold mret at 1, M_ret. rewrite Hm.
    unfold iter_rows. rewrite bind_run. cbn [iter_children_aux].
    rewrite bind_run. unfold deref. rewrite bind_run. unfold the_rows.
    rewrite bind_run. unfold get at 1. rewrite Hr. reflexivity.
Qed.

(** X13: on a hierarchy in hierarchical display in which nothing waits
    for children, [get_row_by_id] with loading asks the data source for
    nothing: it answers the lookup in the row-id index, [None] for an
    unknown id, and leaves the model as it is. *)
Theorem get_row_by_id_fully_loaded (fuel : nat) (row_id : scalar)
    (m : DataGridModel) (root : Node) :
  is_tree m = true → rows m = Some root → loaded_rec root = true →
  (S (length (iter_children root)) < fuel)%nat →
  get_row_by_id fuel row_id true m
  = (Ok (row_id_mapper m !! dict_key row_id), m).
Proof.
  intros Htree Hr Hl Hf.
  unfold Grid.get_row_by_id. rewrite bind_run.
  unfold in_row_id_mapper at 1. rewrite bind_run. unfold get at 1.
  unfold mret at 1, M_ret.
  destruct (row_id_mapper m !! dict_key row_id) as [row|] eqn:Hm;
    [reflexivity|].
  unfold iter_rows. rewrite bind_run.
  rewrite (iter_children_aux_static true row_id m root Hr Hm fuel [] 0%nat
             root eq_refl (λ _, Hl)).
  2:{ rewrite rows_ahead_root. lia. }
  rewrite bind_run. unfold the_rows at 1. rewrite bind_run. unfold get at 1.
  rewrite Hr. unfold mret at 1, M_ret.
  destruct fuel as [|[|fuel]]; [lia|lia|].
  cbn [iter_new_pages]. rewrite bind_run.
  rewrite (add_rows_tree_root_noop is_children_loaded fuel m Htree).
  reflexivity.
Qed.

End RowByIdFacts.

(** The state a completed refresh with an id column leaves. *)
Lemma refresh_run_ok (m : DataGridModel) (idx : Z) (keys : list scalar) :
  let r := refresh_load m in
  ds_id_column_idx r = Some idx →
  row_keys (Some idx) (children (loaded r)) = Ok keys →
  ∃ m0,
    refresh m
    = (Ok (), st m0 (assign_paths 0 (length (children (loaded r)))
                       (set_path (Some []) (loaded r)))
                (register_rows [] 0 keys ∅)).
Proof.
  intros r Hid Hkeys. rewrite refresh_unfold. fold r. cbv zeta. rewrite Hid.
  unfold mbind, M_bind.
  rewrite (refresh_loop idx _ (children (loaded r)) 0 _ _ keys Hkeys).
  unfold emit, modify.
  exists (with_log (DataLoaded (ds_total_recs r))
            (with_indices r
               (with_log (Load (refresh_params m))
                  (with_active_params (λ _, refresh_params m) m)))).
  reflexivity.
Qed.

(** X14: what a completed refresh registers, [get_row_by_id] finds.  For
    the id of any root row the call answers a root row carrying that id
    (the last one, should several carry it), which sits at the answered
    position with its index as path; the data source is not asked and the
    model is left as it is. *)
Theorem refresh_then_get_row_by_id (is_children_loaded : Node → bool)
    (fuel : nat) (load_rows : bool) (m : DataGridModel) (idx : Z)
    (i : nat) (row : Node) (key : scalar) :
  let r := refresh_load m in
  let roots := children (loaded r) in
  let m' := (refresh m).2 in
  (refresh m).1 = Ok () → ds_id_column_idx r = Some idx →
  roots !! i = Some row → getitem (data row) idx = Ok key →
  ∃ j row_j key_j root',
    Grid.get_row_by_id is_children_loaded fuel key load_rows m'
    = (Ok (Some [j]), m')
    ∧ (i <= j)%nat
    ∧ roots !! j = Some row_j
    ∧ getitem (data row_j) idx = Ok key_j
    ∧ dict_key key_j = dict_key key
    ∧ (∀ j' row' key',
         roots !! j' = Some row' → getitem (data row') idx = Ok key' →
         dict_key key' = dict_key key → (j' <= j)%nat)
    ∧ rows m' = Some root'
    ∧ node_at root' [j] = Some (set_path (Some [Z.of_nat j]) row_j).
Proof.
  intros r roots m' Hok Hid Hi Hkey.
  destruct (row_keys (Some idx) roots) as [keys|e] eqn:Hkeys.
  2:{ exfalso. unfold m' in *. rewrite refresh_unfold in Hok. fold r in Hok.
      cbv zeta in Hok. rewrite Hid in Hok.
      destruct (refresh_loop_raise idx
                  (with_indices r (with_log (Load (refresh_params m))
                     (with_active_params (λ _, refresh_params m) m)))
                  roots 0 (set_path (Some []) (loaded r)) ∅ e Hkeys)
        as (m1 & Hrun & _).
      rewrite bind_run in Hok. fold roots in Hok. rewrite Hrun in Hok.
      discriminate. }
  destruct (refresh_run_ok m idx keys Hid Hkeys) as [m0 Hrun].
  fold r roots in Hrun. unfold m'. rewrite Hrun. cbn [snd].
  destruct (row_keys_lookup _ _ _ Hkeys) as [Hlen Hl].
  destruct (Hl i row Hi) as (key0 & Hki & Hkey0).
  unfold getitem_opt in Hkey0. assert (key0 = key) as -> by congruence.
  destruct (register_rows_lookup [] 0 keys ∅ i key Hki)
    as (j & key_j & H1 & H2 & H3 & H4 & H5).
  assert (Hj : ∃ row_j, roots !! j = Some row_j).
  { apply lookup_lt_is_Some. rewrite <- Hlen. eapply lookup_lt_Some; eauto. }
  destruct Hj as [row_j Hj].
  destruct (Hl j row_j Hj) as (key_j' & Hkj & Hkeyj).
  assert (key_j' = key_j) as -> by congruence.
  exists j, row_j, key_j. eexists. split.
  { apply get_row_by_id_hit. exact H1. }
  split; [exact H2|]. split; [exact Hj|]. split; [exact Hkeyj|].
  split; [exact H4|]. split.
  { intros j' row' key' Hj' Hk' Heq.
    destruct (Hl j' row' Hj') as (key'' & Hk'' & Hkey'').
    unfold getitem_opt in Hkey''. assert (key'' = key') as -> by congruence.
    eauto. }
  split; [reflexivity|].
  simpl. rewrite assign_paths_lookup. simpl. fold roots. rewrite Hj.
  case_decide; [reflexivity|apply lookup_lt_Some in Hj; lia].
Qed.

(** *** On the sample sources *)

Lemma get_row_by_id_lookup_witness :
  let m := (Grid.refresh (Grid.init Samples.flat_source)).2 in
  Grid.get_row_by_id Samples.loaded_by_count 1 (SInt 2) true m
  = (Ok (Some [1%nat]), m)
  ∧ Grid.get_row_by_id Samples.loaded_by_count 3 (SInt 7) false m
    = (Ok None, m).
Proof.
  intros m.
  destruct (get_row_by_id_lookup Samples.loaded_by_count) as (Hhit & Hmiss & _).
  split.
  - apply Hhit. vm_compute. reflexivity.
  - set (root := default (mkNode [] None [] 0) (rows m)).
    refine (eq_trans (Hmiss 3%nat (SInt 7) m root _ _) _).
    + vm_compute. reflexivity.
    + vm_compute. lia.
    + vm_compute. reflexivity.
Defined.

Lemma get_row_by_id_fully_loaded_witness :
  let m := Samples.tree_loaded.1 in
  Grid.get_row_by_id Samples.loaded_by_count 4 (SInt 7) true m = (Ok None, m).
Proof.
  intros m.
  set (root := default (mkNode [] None [] 0) (rows m)).
  refine (eq_trans (get_row_by_id_fully_loaded Samples.loaded_by_count 4
                      (SInt 7) m root _ _ _ _) _).
  - vm_compute. reflexivity.
  - vm_compute. reflexivity.
  - vm_compute. reflexivity.
  - vm_compute. lia.
  - vm_compute. reflexivity.
Defined.

Lemma refresh_then_get_row_by_id_witness :
  let m := Grid.init Samples.flat_source in
  let m' := (Grid.refresh m).2 in
  Grid.get_row_by_id Samples.loaded_by_count 0 (SInt 2) false m'
  = (Ok (Some [1%nat]), m').
Proof.
  intros m m'.
  destruct (refresh_then_get_row_by_id Samples.loaded_by_count 0 false m 1
              1%nat (Samples.row (SInt 2) "b" 0) (SInt 2))
    as (j & row_j & key_j & root' & Hrun & Hle & Hj & _);
    [reflexivity|reflexivity|reflexivity|reflexivity|].
  assert (j = 1%nat) as ->.
  { apply lookup_lt_Some in Hj. vm_compute in Hj. lia. }
  exact Hrun.
Defined.

(** ** The [all-expanded] signal *)

Lemma default_last_cons {A} (d a : A) (l : list A) :
  default d (last (a :: l)) = default a (last l).
Proof.
  revert d a. induction l as [|b l IH]; intros d a; [reflexivity|].
  change (last (a :: b :: l)) with (last (b :: l)).
  rewrite (IH d b). symmetry. apply (IH a b).
Qed.

Lemma signals_from_snoc (prev : bool) (signals : list bool) (b : bool) :
  signals_from prev signals = true →
  b ≠ default prev (last signals) →
  signals_from prev (signals ++ [b]) = true.
Proof.
  revert prev. induction signals as [|a signals IH]; intros prev Hs Hb; simpl in *.
  - rewrite bool_decide_eq_true_2 by exact Hb. reflexivity.
  - apply andb_true_iff in Hs as [Ha Hs]. rewrite Ha. simpl.
    apply IH; [exact Hs|]. rewrite default_last_cons in Hb. exact Hb.
Qed.

Lemma with_all_expanded_signals (new : bool) (v : DataGridView) :
  signals_ok v → signals_ok (with_all_expanded new v).
Proof.
  intros [Hs Hl]. unfold signals_ok, with_all_expanded. simpl.
  case_bool_decide as Hne.
  - split.
    + apply signals_from_snoc; [exact Hs|]. rewrite Hl. exact Hne.
    + rewrite last_snoc. reflexivity.
  - split; [exact Hs|]. rewrite Hl.
    destruct new, (_all_expanded v); try reflexivity; congruence.
Qed.

Section SignalFacts.

Variable is_children_loaded : Node → bool.
Variable get_transformer : string → option transformer.

Lemma check_signals (m : DataGridModel) (v : DataGridView) :
  signals_ok v →
  signals_ok (Grid._check_all_expanded is_children_loaded m v).2.
Proof.
  intros Hv. unfold Grid._check_all_expanded.
  destruct (_block_all_expanded v); [exact Hv|].
  assert (Hg : signals_ok (Grid._get_expandable_ids is_children_loaded m v).2).
  { unfold Grid._get_expandable_ids. case_bool_decide; [|exact Hv].
    destruct (rows m) as [root|]; [|exact Hv].
    destruct (negb _); [exact Hv|].
    destruct (collect_expandable _ _ _) as [[[]|e] ids]; exact Hv. }
  destruct (Grid._get_expandable_ids is_children_loaded m v) as [[exp|e] v'];
    simpl in *; [|exact Hg].
  apply with_all_expanded_signals, Hg.
Qed.

(** X15: every [all-expanded] signal of a tree view reports a change.
    In every state a view reaches, the signals emitted so far alternate
    between [True] and [False], starting with [True], and the view's
    all-expanded flag is the value of the last signal ([False] before the
    first). *)
Theorem all_expanded_signals_alternate (s : DataGridModel * DataGridView) :
  Grid.view_run is_children_loaded get_transformer s →
  signals_from false (emitted s.2) = true
  ∧ default false (last (emitted s.2)) = _all_expanded s.2.
Proof.
  induction 1 as [m|s s' Hrun IH Hstep].
  - split; reflexivity.
  - change (signals_ok s'.2). change (signals_ok s.2) in IH.
    destruct Hstep as [s s' Hstep|ds m v|m v|update_dict remove_keys m v
                       |new_view m v r m' Hswitch
                       |update_dict remove_keys m v m' Hr
                       |new_view m v m' Hswitch];
      try (unfold Grid.refreshed_view; simpl in *; exact IH).
    destruct Hstep as [[m v] s' Hr|m v|[m v]|fuel iter_ [m v]|fuel iter_ [m v]
                       |fuel iter_ m v|fuel iter_ column m v|fuel row m v
                       |fuel m v|fuel path m v]; simpl in *; try exact IH.
    + unfold Grid.refresh_begin in Hr.
      destruct (Grid.refresh m) as [[[]|e] m']; [|discriminate].
      injection Hr as <-. exact IH.
    + unfold Grid.bulk_end.
      pose proof (check_signals m (with_block false v) IH) as Hc.
      destruct (Grid._check_all_expanded is_children_loaded m (with_block false v));
        exact Hc.
    + unfold Grid.on_row_expanded.
      destruct (Grid.get_value _ _ _ _ _ m) as [[row_id|e] m']; [|exact IH].
      match goal with
      | |- context [Grid._check_all_expanded _ m' ?v'] =>
          pose proof (check_signals m' v' IH) as Hc;
          destruct (Grid._check_all_expanded is_children_loaded m' v')
      end.
      exact Hc.
    + unfold Grid.on_row_collapsed.
      destruct (Grid.get_value _ _ _ _ _ m) as [[row_id|e] m']; [|exact IH].
      match goal with
      | |- context [Grid._check_all_expanded _ m' ?v'] =>
          pose proof (check_signals m' v' IH) as Hc;
          destruct (Grid._check_all_expanded is_children_loaded m' v')
      end.
      exact Hc.
Qed.

End SignalFacts.

(** The view around the sample hierarchy, its only expandable row
    expanded and collapsed again: one [True], then one [False]. *)
Lemma all_expanded_signals_alternate_witness :
  let s := (Grid.on_row_collapsed Samples.loaded_by_count
              Samples.sample_transformers 2 [0] Samples.tree_opened).2 in
  emitted s.2 = [true; false] ∧ _all_expanded s.2 = false.
Proof.
  intros s.
  assert (Hrun : Grid.view_run Samples.loaded_by_count
                   Samples.sample_transformers s).
  { eapply Grid.run_step; [|apply Grid.step_tree_view, Grid.step_row_collapsed].
    unfold Samples.tree_opened.
    eapply Grid.run_step; [|apply Grid.step_tree_view, Grid.step_row_expanded].
    unfold Samples.tree_loaded.
    apply (Grid.run_step _ _ (Samples.tree_refreshed.1, Samples.tree_refreshed.2));
      [|apply Grid.step_tree_view, Grid.step_ensure_loaded].
    rewrite <- surjective_pairing. unfold Samples.tree_refreshed.
    eapply Grid.run_step; [|apply Grid.step_tree_view, Grid.step_bulk_end].
    apply (Grid.run_step _ _
             ((Grid.refresh (Grid.init Samples.tree_source)).2, init_view));
      [apply Grid.run_init|].
    apply Grid.step_tree_view, Grid.step_refresh_begin. vm_compute.
    reflexivity. }
  destruct (all_expanded_signals_alternate Samples.loaded_by_count
              Samples.sample_transformers s Hrun) as [_ Hlast].
  assert (He : emitted s.2 = [true; false]) by (vm_compute; reflexivity).
  split; [exact He|]. rewrite <- Hlast, He. reflexivity.
Defined.

(** ** Navigation loads, toggles write *)

Section NavigationLoadsFacts.

Variable is_children_loaded : Node → bool.

(** X16: looking at a row loads its children.  In hierarchical display,
    [_get_row_by_path] on a row that waits for children asks the data
    source for them (one [load] with the row's id as [parent_id]) and
    appends what it gets before it answers; so does [on_get_iter], which
    only has to say whether the path is valid. *)
Theorem get_row_by_path_loads_children (fuel : nat) (itr : list Z)
    (m : DataGridModel) (root parent : Node) (pos : ref) (p : list Z)
    (parent_id : scalar) (new_rows : list Node) (keys : list scalar) :
  is_tree m = true → rows m = Some root →
  resolve_path itr root [] = Ok pos →
  node_at root pos = Some parent → is_children_loaded parent = false →
  path parent = Some p →
  getitem_opt (data parent) (id_column_idx m) = Ok parent_id →
  let params := <["parent_id" := PScalar parent_id]> (active_params m) in
  children (loaded (load (data_source m) (log m) params)) = new_rows →
  new_rows ≠ [] →
  row_keys (id_column_idx m) new_rows = Ok keys →
  ∃ m',
    Grid._get_row_by_path is_children_loaded (S fuel) itr m = (Ok pos, m')
    ∧ Grid.on_get_iter is_children_loaded (S fuel) itr m = (Ok (Some itr), m')
    ∧ rows m' = Some (node_update
                        (λ n, set_children (children n ++ numbered p 0 new_rows) n)
                        pos root)
    ∧ log m' = log m ++ [Load params].
Proof.
  intros Htree Hr Hres Hn Hl Hp Hid params Hload Hne Hkeys.
  pose proof (add_rows_children_run is_children_loaded fuel pos m root parent p
                parent_id new_rows keys Htree Hr Hn Hp Hid Hload Hne Hkeys)
    as Hadd.
  fold params in Hadd.
  set (m' := st (queried params m) (append_rows pos p 0 0 new_rows root)
               (register_rows pos (length (children parent)) keys
                  (row_id_mapper m))) in Hadd.
  exists m'.
  assert (Hget : Grid._get_row_by_path is_children_loaded (S fuel) itr m
                 = (Ok pos, m')).
  { unfold Grid._get_row_by_path, get_row_by_path_body.
    rewrite bind_run. unfold get at 1. rewrite Hr.
    destruct itr as [|i rest]; [discriminate|].
    rewrite bind_run. unfold lift at 1. rewrite Hres.
    rewrite bind_run. unfold ensure_children_is_loaded_body.
    rewrite bind_run. unfold deref. rewrite bind_run. unfold the_rows.
    rewrite bind_run. unfold get at 1. rewrite Hr.
    unfold mret at 1, M_ret. rewrite Hn. unfold mret at 1, M_ret.
    rewrite Hl. rewrite bind_run, Hadd. reflexivity. }
  split; [exact Hget|]. split.
  2:{ unfold m'. rewrite append_rows_spec. simpl. split; reflexivity. }
  unfold Grid.on_get_iter, on_get_iter_body, except_IndexError.
  rewrite bind_run.
  change (get_row_by_path_body is_children_loaded
            (Grid.add_rows is_children_loaded (S fuel)))
    with (Grid._get_row_by_path is_children_loaded (S fuel)).
  rewrite Hget. reflexivity.
Qed.

End NavigationLoadsFacts.

Lemma get_row_by_path_loads_children_witness :
  let m := Samples.tree_refreshed.1 in
  ∃ m',
    Grid.on_get_iter Samples.loaded_by_count 1 [0] m = (Ok (Some [0]), m')
    ∧ log m' = log m ++ [Load (<["parent_id" := PScalar (SInt 1)]>
                                 (active_params m))].
Proof.
  intros m.
  set (root := default (mkNode [] None [] 0) (rows m)).
  set (parent := default (mkNode [] None [] 0) (node_at root [0%nat])).
  destruct (get_row_by_path_loads_children Samples.loaded_by_count 0 [0] m root
              parent [0%nat] [0] (SInt 1) [Samples.row (SInt 2) "b" 0] [SInt 2])
    as (m' & _ & Hiter & _ & Hlog);
    [vm_compute; reflexivity|vm_compute; reflexivity|vm_compute; reflexivity
    |vm_compute; reflexivity|vm_compute; reflexivity|vm_compute; reflexivity
    |vm_compute; reflexivity|vm_compute; reflexivity|discriminate
    |vm_compute; reflexivity|].
  exists m'. split; [exact Hiter|exact Hlog].
Defined.

Section ToggleFacts.

Variable is_children_loaded : Node → bool.
Variable get_transformer : string → option transformer.

Abbreviation on_toggle := (Grid.on_toggle is_children_loaded get_transformer).
Abbreviation _toggle_path :=
  (Grid._toggle_path is_children_loaded get_transformer).

Lemma getitem_setitem_first {A} (l : list A) (x y : A) :
  getitem l 0 = Ok x →
  setitem l 0 y = Ok (<[0%nat := y]> l)
  ∧ getitem (<[0%nat := y]> l) 0 = Ok y.
Proof.
  destruct l as [|a l]; [rewrite getitem_empty; discriminate|].
  intros _. split; reflexivity.
Qed.

Lemma getitem_insert_first {A} (l : list A) (i : Z) (x y : A) :
  0 < i → getitem l i = Ok x → getitem (<[0%nat := y]> l) i = Ok x.
Proof.
  intros Hi. unfold getitem. rewrite length_insert.
  destruct (norm_index (length l) i) as [n|e] eqn:Hn; [|discriminate].
  destruct (norm_index_nonneg_inv (length l) i n ltac:(lia) Hn) as [-> _].
  rewrite list_lookup_insert_ne by lia. tauto.
Qed.

(** The selection flag of a resident row, read as the views read it. *)
Lemma on_get_value_selected (fuel : nat) (itr : list Z) (m : DataGridModel)
    (root node : Node) (pos : ref) (raw : scalar) (id_idx : Z)
    (col_dict : Column) (t : transformer) :
  rows m = Some root → resolve_path itr root [] = Ok pos →
  node_at root pos = Some node → is_children_loaded node = true →
  getitem (data node) 0 = Ok raw →
  id_column_idx m = Some id_idx → 0 < id_idx →
  parent_column_idx m ≠ Some 0 →
  getitem (columns m) 0 = Ok col_dict →
  name col_dict = "__selected" → transform col_dict = Some "boolean" →
  get_transformer "boolean" = Some t →
  Grid.on_get_value is_children_loaded get_transformer fuel itr 0 m
  = (Ok (FValue (SBool (truthy raw))), m).
Proof.
  intros Hr Hp Hn Hl Hraw Hid Hpos Hpar Hcol Hname Htr Ht.
  unfold Grid.on_get_value. mnorm.
  rewrite (get_row_by_path_loaded is_children_loaded fuel itr m root pos node
             Hr Hp Hn Hl).
  cbv beta iota. rewrite Hr. cbv beta iota. rewrite Hn. cbv beta iota.
  rewrite Hraw. cbv beta iota. rewrite Hid.
  rewrite bool_decide_eq_false_2 by (intros [= H]; lia).
  rewrite bool_decide_eq_false_2 by (intros H; apply Hpar; symmetry; exact H).
  simpl orb. cbv iota.
  apply (get_formatted_value_selected get_transformer raw 0 _ m col_dict t
           Hcol Hname Htr Ht).
Qed.

(** One toggle, with or without the [row-changed] signal. *)
Lemma toggle_run (fuel : nat) (itr : list Z) (emit_event : bool)
    (m : DataGridModel) (root node : Node) (pos : ref) (raw id_ : scalar)
    (id_idx id_int : Z) (col_dict : Column) (t : transformer) :
  (∀ d n, is_children_loaded (set_data d n) = is_children_loaded n) →
  rows m = Some root → resolve_path itr root [] = Ok pos →
  node_at root pos = Some node → is_children_loaded node = true →
  getitem (data node) 0 = Ok raw →
  id_column_idx m = Some id_idx → 0 < id_idx →
  getitem (data node) id_idx = Ok id_ → py_int id_ = Ok id_int →
  parent_column_idx m ≠ Some 0 →
  getitem (columns m) 0 = Ok col_dict →
  name col_dict = "__selected" → transform col_dict = Some "boolean" →
  get_transformer "boolean" = Some t →
  let value := SBool (negb (truthy raw)) in
  (itr' ← Grid.on_get_iter is_children_loaded fuel itr;
   match itr' with
   | None => lift (Raise ValueError)
   | Some itr' =>
       val ← Grid.on_get_value is_children_loaded get_transformer fuel itr' 0;
       Grid.set_value is_children_loaded get_transformer fuel itr' 0
         (SBool (negb (fvalue_truthy val))) emit_event
   end) m
  = (Ok (),
     (if emit_event then with_log (RowChanged itr) else id)
       (with_log (Update "__selected" value [id_int])
          (with_rows
             (fmap (node_update (set_data (<[0%nat := value]> (data node))) pos))
             m))).
Proof.
  intros Hst Hr Hp Hn Hl Hraw Hid Hpos Hidv Hint Hpar Hcol Hname Htr Ht value.
  rewrite bind_run.
  assert (Hiter : Grid.on_get_iter is_children_loaded fuel itr m
                  = (Ok (Some itr), m)).
  { unfold Grid.on_get_iter, on_get_iter_body, except_IndexError.
    rewrite bind_run.
    change (get_row_by_path_body is_children_loaded
              (Grid.add_rows is_children_loaded fuel))
      with (Grid._get_row_by_path is_children_loaded fuel).
    rewrite (get_row_by_path_loaded is_children_loaded fuel itr m root pos node
               Hr Hp Hn Hl).
    reflexivity. }
  rewrite Hiter. rewrite bind_run.
  rewrite (on_get_value_selected fuel itr m root node pos raw id_idx col_dict t)
    by assumption.
  cbn [fvalue_truthy truthy]. fold value.
  destruct (getitem_setitem_first (data node) raw value Hraw) as [Hset _].
  rewrite (set_value_run is_children_loaded get_transformer fuel itr 0 value
             emit_event m root pos node (<[0%nat := value]> (data node))
             id_idx id_ col_dict Hr Hp Hn Hl Hset).
  - cbv zeta. rewrite Hint, Hname. reflexivity.
  - rewrite Hst. exact Hl.
  - exact Hid.
  - apply getitem_insert_first; assumption.
  - exact Hcol.
Qed.

(** X17: toggling the selection flag of a resident row that does not
    wait for children and whose id converts to an integer, in a grid
    whose column 0 is the boolean [__selected] column and neither the id
    nor the parent column.  Reaching such a row loads nothing, and the
    tree view's [on_toggle] and the icon view's [_toggle_path] write the
    same thing: the flag of the record becomes the negation of its truth
    value (a [bool], whatever it was), and one [update] of [__selected]
    with that value goes to the data source for the row's id, the query
    and the row-id index staying as they were; the tree view then emits
    [row-changed], the icon view does not. *)
Theorem toggle_selected (fuel : nat) (itr : list Z) (m : DataGridModel)
    (root node : Node) (pos : ref) (raw id_ : scalar) (id_idx id_int : Z)
    (col_dict : Column) (t : transformer) :
  (∀ d n, is_children_loaded (set_data d n) = is_children_loaded n) →
  rows m = Some root → resolve_path itr root [] = Ok pos →
  node_at root pos = Some node → is_children_loaded node = true →
  getitem (data node) 0 = Ok raw →
  id_column_idx m = Some id_idx → 0 < id_idx →
  getitem (data node) id_idx = Ok id_ → py_int id_ = Ok id_int →
  parent_column_idx m ≠ Some 0 →
  getitem (columns m) 0 = Ok col_dict →
  name col_dict = "__selected" → transform col_dict = Some "boolean" →
  get_transformer "boolean" = Some t →
  let value := SBool (negb (truthy raw)) in
  ∃ m1 root1,
    on_toggle fuel itr 0 m = (Ok (), with_log (RowChanged itr) m1)
    ∧ _toggle_path fuel itr m = (Ok (), m1)
    ∧ log m1 = log m ++ [Update "__selected" value [id_int]]
    ∧ rows m1 = Some root1
    ∧ node_at root1 pos = Some (set_data (<[0%nat := value]> (data node)) node)
    ∧ active_params m1 = active_params m
    ∧ row_id_mapper m1 = row_id_mapper m.
Proof.
  intros Hst Hr Hp Hn Hl Hraw Hid Hpos Hidv Hint Hpar Hcol Hname Htr Ht value.
  eexists _, _. split.
  { unfold Grid.on_toggle.
    exact (toggle_run fuel itr true m root node pos raw id_ id_idx id_int
             col_dict t Hst Hr Hp Hn Hl Hraw Hid Hpos Hidv Hint Hpar Hcol Hname
             Htr Ht). }
  split.
  { unfold Grid._toggle_path.
    exact (toggle_run fuel itr false m root node pos raw id_ id_idx id_int
             col_dict t Hst Hr Hp Hn Hl Hraw Hid Hpos Hidv Hint Hpar Hcol Hname
             Htr Ht). }
  split; [reflexivity|]. split; [simpl; rewrite Hr; reflexivity|].
  split; [apply node_at_update, Hn|]. split; reflexivity.
Qed.

(** X18: toggling twice brings the flag back to its truth value, not to
    what was stored.  After two [on_toggle] calls on the same row the
    flag is [bool(raw)] for the value [raw] stored before, every other
    entry of the record is as it was, and the data source has received
    the two updates in order, each followed by a [row-changed] signal. *)
Theorem toggle_twice (fuel : nat) (itr : list Z) (m : DataGridModel)
    (root node : Node) (pos : ref) (raw id_ : scalar) (id_idx id_int : Z)
    (col_dict : Column) (t : transformer) :
  (∀ d n, is_children_loaded (set_data d n) = is_children_loaded n) →
  rows m = Some root → resolve_path itr root [] = Ok pos →
  node_at root pos = Some node → is_children_loaded node = true →
  getitem (data node) 0 = Ok raw →
  id_column_idx m = Some id_idx → 0 < id_idx →
  getitem (data node) id_idx = Ok id_ → py_int id_ = Ok id_int →
  parent_column_idx m ≠ Some 0 →
  getitem (columns m) 0 = Ok col_dict →
  name col_dict = "__selected" → transform col_dict = Some "boolean" →
  get_transformer "boolean" = Some t →
  ∃ m2 root2,
    (on_toggle fuel itr 0;; on_toggle fuel itr 0) m = (Ok (), m2)
    ∧ rows m2 = Some root2
    ∧ node_at root2 pos
      = Some (set_data (<[0%nat := SBool (truthy raw)]> (data node)) node)
    ∧ log m2 = log m ++ [Update "__selected" (SBool (negb (truthy raw))) [id_int];
                         RowChanged itr;
                         Update "__selected" (SBool (truthy raw)) [id_int];
                         RowChanged itr].
Proof.
  intros Hst Hr Hp Hn Hl Hraw Hid Hpos Hidv Hint Hpar Hcol Hname Htr Ht.
  set (v1 := SBool (negb (truthy raw))).
  set (d1 := <[0%nat := v1]> (data node)).
  set (root1 := node_update (set_data d1) pos root).
  set (m1 := with_log (RowChanged itr)
               (with_log (Update "__selected" v1 [id_int])
                  (with_rows (fmap (node_update (set_data d1) pos)) m))).
  assert (H1 : on_toggle fuel itr 0 m = (Ok (), m1)).
  { unfold Grid.on_toggle.
    exact (toggle_run fuel itr true m root node pos raw id_ id_idx id_int
             col_dict t Hst Hr Hp Hn Hl Hraw Hid Hpos Hidv Hint Hpar Hcol Hname
             Htr Ht). }
  assert (Hr1 : rows m1 = Some root1) by (simpl; rewrite Hr; reflexivity).
  assert (Hn1 : node_at root1 pos = Some (set_data d1 node))
    by (apply node_at_update, Hn).
  destruct (getitem_setitem_first (data node) raw v1 Hraw) as [_ Hraw1].
  assert (H2 : on_toggle fuel itr 0 m1
               = (Ok (),
                  with_log (RowChanged itr)
                    (with_log (Update "__selected" (SBool (negb (truthy v1)))
                                 [id_int])
                       (with_rows
                          (fmap (node_update
                                   (set_data (<[0%nat := SBool (negb (truthy v1))]>
                                                (data (set_data d1 node))))
                                   pos)) m1)))).
  { unfold Grid.on_toggle.
    apply (toggle_run fuel itr true m1 root1 (set_data d1 node) pos v1 id_
             id_idx id_int col_dict t Hst Hr1).
    - unfold root1. rewrite resolve_path_update by reflexivity. exact Hp.
    - exact Hn1.
    - rewrite Hst. exact Hl.
    - exact Hraw1.
    - exact Hid.
    - exact Hpos.
    - apply getitem_insert_first; assumption.
    - exact Hint.
    - exact Hpar.
    - exact Hcol.
    - exact Hname.
    - exact Htr.
    - exact Ht. }
  eexists _, _. split.
  { rewrite bind_run, H1. exact H2. }
  split; [simpl; rewrite Hr; reflexivity|]. split.
  { fold root1. rewrite (node_at_update _ _ _ _ Hn1). f_equal.
    unfold set_data, d1, v1. simpl. f_equal.
    rewrite list_insert_insert_eq. rewrite negb_involutive. reflexivity. }
  simpl. rewrite <- !app_assoc. simpl. rewrite negb_involutive. reflexivity.
Qed.

End ToggleFacts.

(** *** On the flat sample *)

Lemma toggle_selected_witness :
  let m := (Grid.refresh (Grid.init Samples.flat_source)).2 in
  ∃ m1,
    Grid._toggle_path Samples.loaded_by_count Samples.sample_transformers
      1 [1] m = (Ok (), m1)
    ∧ log m1 = log m ++ [Update "__selected" (SBool true) [2]].
Proof.
  intros m.
  set (root := default (mkNode [] None [] 0) (rows m)).
  set (node := default (mkNode [] None [] 0) (node_at root [1%nat])).
  edestruct (toggle_selected Samples.loaded_by_count Samples.sample_transformers
               1 [1] m root node [1%nat] (SBool false) (SInt 2) 1 2)
    as (m1 & root1 & _ & Hrun & Hlog & _);
    [reflexivity|vm_compute; reflexivity|vm_compute; reflexivity
    |vm_compute; reflexivity|vm_compute; reflexivity|vm_compute; reflexivity
    |vm_compute; reflexivity|lia|vm_compute; reflexivity|reflexivity
    |vm_compute; discriminate|vm_compute; reflexivity|reflexivity|reflexivity
    |reflexivity|].
  exists m1. split; [exact Hrun|exact Hlog].
Defined.

Lemma toggle_twice_witness :
  let m := (Grid.refresh (Grid.init Samples.flat_source)).2 in
  ∃ m2,
    (Grid.on_toggle Samples.loaded_by_count Samples.sample_transformers 1 [1] 0;;
     Grid.on_toggle Samples.loaded_by_count Samples.sample_transformers 1 [1] 0)
      m = (Ok (), m2)
    ∧ log m2 = log m ++ [Update "__selected" (SBool true) [2]; RowChanged [1];
                         Update "__selected" (SBool false) [2]; RowChanged [1]].
Proof.
  intros m.
  set (root := default (mkNode [] None [] 0) (rows m)).
  set (node := default (mkNode [] None [] 0) (node_at root [1%nat])).
  edestruct (toggle_twice Samples.loaded_by_count Samples.sample_transformers
               1 [1] m root node [1%nat] (SBool false) (SInt 2) 1 2)
    as (m2 & root2 & Hrun & _ & _ & Hlog);
    [reflexivity|vm_compute; reflexivity|vm_compute; reflexivity
    |vm_compute; reflexivity|vm_compute; reflexivity|vm_compute; reflexivity
    |vm_compute; reflexivity|lia|vm_compute; reflexivity|reflexivity
    |vm_compute; discriminate|vm_compute; reflexivity|reflexivity|reflexivity
    |reflexivity|].
  exists m2. split; [exact Hrun|exact Hlog].
Defined.

(** ** Filters, search and the date range without a column *)

Lemma refresh_log (m : DataGridModel) :
  ∃ tail, log (refresh m).2 = log m ++ Load (refresh_params m) :: tail.
Proof.
  rewrite refresh_unfold. cbv zeta.
  destruct (ds_id_column_idx (refresh_load m)) as [idx|];
    [|exists [DataLoaded (ds_total_recs (refresh_load m))]; simpl;
      rewrite <- app_assoc; reflexivity].
  rewrite bind_run.
  destruct (row_keys (Some idx) (children (loaded (refresh_load m))))
    as [keys|e] eqn:Hkeys.
  - rewrite (refresh_loop idx _ _ 0 _ _ keys Hkeys).
    exists [DataLoaded (ds_total_recs (refresh_load m))]. simpl.
    rewrite <- app_assoc. reflexivity.
  - destruct (refresh_loop_raise idx
                (with_indices (refresh_load m)
                   (with_log (Load (refresh_params m))
                      (with_active_params (λ _, refresh_params m) m)))
                _ 0 (set_path (Some []) (loaded (refresh_load m))) ∅ e Hkeys)
      as (m1 & Hrun & _ & Hl & _).
    rewrite Hrun. exists []. exact Hl.
Qed.

(** What [_refresh_view] leaves in the query and sends to the data
    source. *)
Lemma refresh_view_query update_dict remove_keys (m : DataGridModel) :
  where_is_dict (active_params m) →
  let w := merged_where update_dict remove_keys (where_of (active_params m)) in
  let m' := (_refresh_view update_dict remove_keys m).2 in
  active_params m'
  = delete "parent_id"
      (delete "page"
         (if decide (w = ∅) then delete "where" (active_params m)
          else <["where" := PWhere w]> (active_params m)))
  ∧ ∃ tail, log m' = log m ++ Load (active_params m') :: tail.
Proof.
  intros Hd w m'.
  set (params' := if decide (w = ∅) then delete "where" (active_params m)
                  else <["where" := PWhere w]> (active_params m)).
  assert (Hrun : _refresh_view update_dict remove_keys m
                 = refresh (with_active_params (λ _, params') m)).
  { unfold _refresh_view. mnorm. unfold refresh_view_params.
    assert (Hw : match active_params m !! "where" with
                 | None => Ok ∅
                 | Some (PWhere w0) => Ok w0
                 | Some (PScalar _) => Raise AttributeError
                 end = Ok (where_of (active_params m))).
    { unfold where_of. destruct (active_params m !! "where") as [[v|w0]|] eqn:E;
        [destruct (Hd v E)|reflexivity|reflexivity]. }
    unfold mbind, result_bind, rbind. rewrite Hw. cbv beta iota zeta.
    change (default ∅ update_dict
            ∪ match remove_keys with
              | Some keys =>
                  foldl (λ w0 key, delete key w0) (where_of (active_params m)) keys
              | None => where_of (active_params m)
              end) with w.
    assert (Hp : (if bool_decide (w = ∅)
                  then Ok (delete "where" (active_params m))
                  else Ok (<["where" := PWhere w]> (active_params m)))
                 = Ok params').
    { unfold params'. case_bool_decide; destruct (decide (w = ∅));
        try reflexivity; contradiction. }
    rewrite Hp. reflexivity. }
  unfold m'. rewrite Hrun.
  destruct (refresh_active_params (with_active_params (λ _, params') m))
    as [Ha _].
  destruct (refresh_log (with_active_params (λ _, params') m)) as [tail Hl].
  split.
  - rewrite Ha. reflexivity.
  - exists tail. rewrite Hl, Ha. reflexivity.
Qed.

(** X19: setting a filter and clearing it again.  [on_filter_changed] with
    a value puts the clause for the attribute into the [where] dictionary
    ([is] for [None], [=] otherwise) and leaves the other clauses; with
    [NO_FILTER_OPTION] it takes the attribute's clause out.  Set and then
    cleared, the dictionary is what it was without the attribute, and the
    query never keeps an empty [where]: the entry is absent exactly when
    no clause is left. *)
Theorem filter_set_then_cleared (attr : string) (value : scalar)
    (m : DataGridModel) :
  where_is_dict (active_params m) →
  let w := where_of (active_params m) in
  let m1 := (on_filter_changed attr (Some value) m).2 in
  let m2 := (on_filter_changed attr None m1).2 in
  where_of (active_params m1)
  = <[ColName attr :=
        {| operator := if bool_decide (value = SNone) then "is" else "=";
           param := CValue value |}]> w
  ∧ where_of (active_params m2) = delete (ColName attr) w
  ∧ (w !! ColName attr = None → where_of (active_params m2) = w)
  ∧ (active_params m2 !! "where" = None ↔ delete (ColName attr) w = ∅)
  ∧ active_params m2 !! "where" ≠ Some (PWhere ∅).
Proof.
  intros Hd w m1 m2.
  destruct (refresh_view_where
              (Some {[ColName attr :=
                        {| operator := if bool_decide (value = SNone)
                                       then "is" else "=";
                           param := CValue value |}]}) None m Hd)
    as (H1 & Hd1 & _).
  fold (on_filter_changed attr (Some value) m) in H1, Hd1. fold m1 in H1, Hd1.
  unfold merged_where in H1. simpl in H1. fold w in H1.
  rewrite <- insert_union_singleton_l in H1.
  destruct (refresh_view_where None (Some [ColName attr]) m1 Hd1)
    as (H2 & Hd2 & _).
  fold (on_filter_changed attr None m1) in H2, Hd2. fold m2 in H2, Hd2.
  unfold merged_where in H2. simpl in H2. rewrite H1 in H2.
  rewrite (left_id_L ∅ (∪)) in H2. rewrite delete_insert_eq in H2.
  split; [exact H1|]. split; [exact H2|]. split.
  { intros Hnone. rewrite H2. apply delete_id, Hnone. }
  destruct (refresh_view_query None (Some [ColName attr]) m1 Hd1) as [Hq _].
  fold (on_filter_changed attr None m1) in Hq. fold m2 in Hq.
  unfold merged_where in Hq. simpl in Hq. rewrite H1 in Hq.
  rewrite (left_id_L ∅ (∪)) in Hq. rewrite delete_insert_eq in Hq.
  rewrite Hq. rewrite !lookup_delete_ne by discriminate.
  destruct (decide (delete (ColName attr) w = ∅)) as [He|Hne].
  - rewrite lookup_delete_eq. split; [tauto|discriminate].
  - rewrite lookup_insert_eq. split; [|intros [= H]; contradiction].
    split; [discriminate|contradiction].
Qed.

(** X20: a search always reaches the data source.  Whatever the text,
    the empty one included, [on_search_clicked] leaves the clause
    [search = text] in a [where] dictionary that is otherwise unchanged,
    and the next call on the data source is the [load] of the first page
    of the top level with that dictionary: the query sent has neither
    [page] nor [parent_id]. *)
Theorem search_always_queries (search : string) (m : DataGridModel) :
  where_is_dict (active_params m) →
  let m' := (on_search_clicked search m).2 in
  let w' := <[ColName "search" :=
                {| operator := "="; param := CValue (SStr search) |}]>
              (where_of (active_params m)) in
  where_of (active_params m') = w'
  ∧ ∃ tail,
      log m'
      = log m
        ++ Load (delete "parent_id"
                   (delete "page" (<["where" := PWhere w']> (active_params m))))
        :: tail.
Proof.
  intros Hd m' w'.
  destruct (refresh_view_query
              (Some {[ColName "search" :=
                        {| operator := "="; param := CValue (SStr search) |}]})
              None m Hd) as [Hq Hl].
  fold (on_search_clicked search m) in Hq, Hl. fold m' in Hq, Hl.
  unfold merged_where in Hq. simpl in Hq.
  rewrite <- insert_union_singleton_l in Hq. fold w' in Hq.
  destruct (decide (w' = ∅)) as [He|Hne].
  - exfalso. apply (insert_non_empty _ _ _ He).
  - split.
    + unfold where_of. rewrite Hq, !lookup_delete_ne, lookup_insert_eq
        by discriminate. reflexivity.
    + rewrite <- Hq. exact Hl.
Qed.

Section DateWithoutColumnFacts.

Variable ts : string → result Z.

(** X21: a date change while no date column is active.  The range clause
    is then not stored under a column name: with rows in the chooser's
    list store it is keyed by the whole last row of the store, every date
    column loses its clause, and no column name carries the range; with
    an empty store the call raises [UnboundLocalError] before anything is
    written or asked. *)
Theorem date_change_without_column (m : DataGridModel)
    (start_date end_date : string) (active : Z) (cols : list (string * string))
    (s e : Z) :
  where_is_dict (active_params m) → active < 0 →
  date_bound ts start_date " 00:00" MIN_TIMESTAMP = Ok s →
  date_bound ts end_date " 23:59" MAX_TIMESTAMP = Ok e →
  let run := on_date_change ts start_date end_date active cols m in
  (cols = [] → run = (Raise UnboundLocalError, m))
  ∧ (∀ row, last cols = Some row →
       let w' := where_of (active_params run.2) in
       w' !! StoreRow row
       = Some {| operator := "range"; param := CRange s e |}
       ∧ (∀ col, col ∈ cols → w' !! ColName col.1 = None)
       ∧ (∀ column c, w' !! ColName column = Some c →
            where_of (active_params m) !! ColName column = Some c)).
Proof.
  intros Hd Hneg Hs He run.
  assert (Hrun : run = match last cols with
                       | Some row =>
                           _refresh_view
                             (Some {[StoreRow row :=
                                       {| operator := "range";
                                          param := CRange s e |}]})
                             (Some ((λ column, ColName column.1) <$> cols)) m
                       | None => (Raise UnboundLocalError, m)
                       end).
  { unfold run, on_date_change. mnorm. rewrite Hs. cbv beta iota.
    rewrite He. cbv beta iota. unfold date_column.
    destruct (Z.leb_spec 0 active) as [Hge|_]; [lia|].
    destruct (last cols); reflexivity. }
  rewrite Hrun. split.
  - intros ->. reflexivity.
  - intros row Hlast. rewrite Hlast.
    match goal with
    | |- context [_refresh_view ?u ?r m] =>
        destruct (refresh_view_where u r m Hd) as (Hw & _ & _)
    end.
    cbv zeta. rewrite Hw. unfold merged_where. simpl.
    rewrite <- insert_union_singleton_l.
    split; [apply lookup_insert_eq|]. split.
    + intros col Hcol. rewrite lookup_insert_ne by discriminate.
      rewrite lookup_foldl_delete. rewrite decide_True; [reflexivity|].
      apply list_elem_of_fmap. exists col. split; [reflexivity|exact Hcol].
    + intros column c. rewrite lookup_insert_ne by discriminate.
      rewrite lookup_foldl_delete. case_decide; [discriminate|tauto].
Qed.

End DateWithoutColumnFacts.

(** *** On the sample with date columns *)

Lemma filter_set_then_cleared_witness :
  let m := (bind_datasource Samples.dated_source).2 in
  let m1 := (on_filter_changed "title" (Some (SStr "x")) m).2 in
  let m2 := (on_filter_changed "title" None m1).2 in
  where_of (active_params m1) !! ColName "title"
  = Some {| operator := "="; param := CValue (SStr "x") |}
  ∧ active_params m2 !! "where" = None.
Proof.
  intros m m1 m2.
  assert (Hd : where_is_dict (active_params m)).
  { intros v. vm_compute. discriminate. }
  destruct (filter_set_then_cleared "title" (SStr "x") m Hd)
    as (H1 & _ & _ & Hnone & _).
  fold m1 in H1. fold m1 m2 in Hnone. split.
  - rewrite H1. apply lookup_insert_eq.
  - apply Hnone. vm_compute. reflexivity.
Defined.

Lemma search_always_queries_witness :
  let m := (bind_datasource Samples.dated_source).2 in
  let m' := (on_search_clicked "" m).2 in
  where_of (active_params m') !! ColName "search"
  = Some {| operator := "="; param := CValue (SStr "") |}.
Proof.
  intros m m'.
  assert (Hd : where_is_dict (active_params m)).
  { intros v. vm_compute. discriminate. }
  destruct (search_always_queries "" m Hd) as [Hq _]. fold m' in Hq.
  rewrite Hq. apply lookup_insert_eq.
Defined.

Lemma date_change_without_column_witness :
  let ts := λ _ : string, Raise ValueError in
  let m := (bind_datasource Samples.dated_source).2 in
  let m' := (on_date_change ts "" "" (-1) (date_store m) m).2 in
  where_of (active_params m') !! StoreRow ("modified", "Modified")
  = Some {| operator := "range"; param := CRange 0 2147485547 |}
  ∧ where_of (active_params m') !! ColName "modified" = None.
Proof.
  intros ts m m'.
  assert (Hd : where_is_dict (active_params m)).
  { intros v. vm_compute. discriminate. }
  destruct (date_change_without_column ts m "" "" (-1) (date_store m) 0
              2147485547 Hd ltac:(lia) eq_refl eq_refl) as [_ Hrow].
  destruct (Hrow ("modified", "Modified") eq_refl) as (Hkey & Hcols & _).
  split; [exact Hkey|].
  apply (Hcols ("modified", "Modified")). right. left.
Defined.

(** ** Scrolling, switching the view, sorting *)

Section ScrolledFacts.

Variable is_children_loaded : Node → bool.
Variable float : Type.
Variable float_sub : float → float → float.
Variable float_eqb : float → float → bool.

Abbreviation on_scrolled :=
  (Grid.on_scrolled is_children_loaded float float_sub float_eqb).
Abbreviation scrolled_to_bottom :=
  (Grid.scrolled_to_bottom float float_sub float_eqb).

(** X22: scrolling loads the next page only at the bottom, and never in
    hierarchical display.  [on_scrolled] answers [False] whenever it
    returns; away from the bottom, and in hierarchical display wherever
    the scroll bar stands, it stores the visible range (that of the icon
    view, [None] for the tree view), changes nothing else of the model
    and does not ask the data source; at the bottom of a list that is not
    hierarchical and has no rows the [IndexError] of [add_rows] comes
    through, the visible range being stored all the same. *)
Theorem on_scrolled_loads_at_bottom (fuel : nat) (icon_view_active : bool)
    (view_visible_range : option (list Z * list Z))
    (value upper page_size : float) (m : DataGridModel) :
  let range := if icon_view_active then view_visible_range else None in
  let run := on_scrolled (S fuel) icon_view_active view_visible_range
               value upper page_size m in
  (∀ r, run.1 = Ok r → r = false)
  ∧ (scrolled_to_bottom value upper page_size = false ∨ is_tree m = true →
     run = (Ok false, with_visible_range range m))
  ∧ (∀ root,
       scrolled_to_bottom value upper page_size = true →
       is_tree m = false → rows m = Some root → children root = [] →
       run = (Raise IndexError, with_visible_range range m)).
Proof.
  intros range run.
  assert (Hrun : run
                 = if scrolled_to_bottom value upper page_size
                   then match Grid.add_rows is_children_loaded (S fuel) None
                                (with_visible_range range m) with
                        | (Ok _, m') => (Ok false, m')
                        | (Raise e, m') => (Raise e, m')
                        end
                   else (Ok false, with_visible_range range m)).
  { unfold run, Grid.on_scrolled. fold range. rewrite bind_run.
    unfold modify at 1. rewrite bind_run.
    destruct (scrolled_to_bottom value upper page_size); [|reflexivity].
    rewrite bind_run.
    destruct (Grid.add_rows is_children_loaded (S fuel) None
                (with_visible_range range m)) as [[b|e] m']; reflexivity. }
  rewrite Hrun. split; [|split].
  - intros r.
    destruct (scrolled_to_bottom value upper page_size);
      [|intros [= <-]; reflexivity].
    destruct (Grid.add_rows is_children_loaded (S fuel) None
                (with_visible_range range m)) as [[b|e] m'];
      [intros [= <-]; reflexivity|discriminate].
  - intros [Hb|Htree]; [rewrite Hb; reflexivity|].
    destruct (scrolled_to_bottom value upper page_size); [|reflexivity].
    rewrite (add_rows_tree_root_noop is_children_loaded fuel
               (with_visible_range range m) Htree).
    reflexivity.
  - intros root Hb Htree Hr Hc. rewrite Hb.
    rewrite (add_rows_unfold is_children_loaded).
    change (is_tree (with_visible_range range m)) with (is_tree m).
    rewrite Htree. simpl andb. cbv iota.
    unfold add_rows_target. simpl rows. rewrite Hr, Hc.
    rewrite getitem_empty. reflexivity.
Qed.

End ScrolledFacts.

Lemma on_scrolled_loads_at_bottom_witness :
  let m := Samples.tree_refreshed.1 in
  Grid.on_scrolled Samples.loaded_by_count Z Z.sub Z.eqb 1 true
    (Some ([0], [3])) 90 100 10 m
  = (Ok false, with_visible_range (Some ([0], [3])) m).
Proof.
  intros m.
  destruct (on_scrolled_loads_at_bottom Samples.loaded_by_count Z Z.sub Z.eqb
              0 true (Some ([0], [3])) 90 100 10 m) as (_ & Hquiet & _).
  apply Hquiet. right. vm_compute. reflexivity.
Defined.

(** *** Switching the view *)

Lemma for_enumerate_frame {A B} (proj : DataGridModel → B) (xs : list A)
    (body : Z → A → M ()) :
  (∀ i x m, proj (body i x m).2 = proj m) →
  ∀ i m, proj (for_enumerate i xs body m).2 = proj m.
Proof.
  intros Hbody. induction xs as [|x xs IH]; intros i m; [reflexivity|].
  simpl. rewrite bind_run. specialize (Hbody i x m).
  destruct (body i x m) as [[[]|e] m1]; simpl in *; [|exact Hbody].
  rewrite IH. exact Hbody.
Qed.

(** [refresh] writes the query, the hierarchy, the row-id index, the
    attributes read from the data source and the log, and nothing else. *)
Lemma refresh_frame {B} (proj : DataGridModel → B) :
  (∀ f m, proj (with_active_params f m) = proj m) →
  (∀ f m, proj (with_row_id_mapper f m) = proj m) →
  (∀ f m, proj (with_rows f m) = proj m) →
  (∀ r m, proj (with_indices r m) = proj m) →
  (∀ e m, proj (with_log e m) = proj m) →
  ∀ m, proj (refresh m).2 = proj m.
Proof.
  intros Hp Hm Hr Hi Hl m. rewrite refresh_unfold. cbv zeta.
  set (m0 := st _ _ _).
  assert (H0 : proj m0 = proj m).
  { unfold m0, Grid.with_rows_mapper. rewrite Hm, Hr, Hi, Hl, Hp. reflexivity. }
  destruct (ds_id_column_idx (refresh_load m)) as [idx|].
  - rewrite bind_run.
    match goal with
    | |- context [for_enumerate ?i ?xs ?body m0] =>
        pose proof (for_enumerate_frame proj xs body) as Hloop;
        specialize (Hloop ltac:(
          intros j x m1; unfold update_node, modify, lift; rewrite !bind_run;
          cbv beta iota;
          destruct (getitem (data x) idx); cbn [snd]; rewrite ?Hm, ?Hr;
          reflexivity) i m0);
        destruct (for_enumerate i xs body m0) as [[[]|e] m1]
    end; simpl in *.
    + unfold emit, modify. simpl. rewrite Hl, Hloop. exact H0.
    + rewrite Hloop. exact H0.
  - unfold emit, modify. simpl. rewrite Hl. exact H0.
Qed.

(** X23: switching the view.  An option other than tree, flat or icon
    raises [AssertionError] and leaves everything as it is.  Otherwise
    the icon view gets images of size 100 with a border and the tree view
    (tree or flat option) images of size 24 without; the query's [flat]
    is true exactly when the model knew a flat column before the switch
    and the option is flat or icon, so the flat option without a flat
    column gives the hierarchical display; the [where] clauses are
    kept. *)
Theorem view_switch (new_view : Z) (m : DataGridModel) :
  (¬ (new_view = VIEW_TREE ∨ new_view = VIEW_FLAT ∨ new_view = VIEW_ICON) →
   on_popup_view_changed new_view m = AssertionError)
  ∧ (new_view = VIEW_TREE ∨ new_view = VIEW_FLAT ∨ new_view = VIEW_ICON →
     where_is_dict (active_params m) →
     ∃ view r m',
       on_popup_view_changed new_view m = Returned (view, (r, m'))
       ∧ view = (if bool_decide (new_view = VIEW_ICON) then icon_view
                 else tree_view)
       ∧ image_max_size m' = (if bool_decide (new_view = VIEW_ICON) then 100
                              else 24)
       ∧ image_draw_border m' = bool_decide (new_view = VIEW_ICON)
       ∧ active_params m' !! "flat"
         = Some (PScalar (SBool (bool_decide (flat_column_idx m ≠ None)
                                 && bool_decide (new_view ≠ VIEW_TREE))))
       ∧ where_of (active_params m') = where_of (active_params m)).
Proof.
  split.
  - intros Hno. unfold on_popup_view_changed.
    rewrite !bool_decide_eq_false_2 by tauto. reflexivity.
  - intros Hview Hd.
    set (icon := bool_decide (new_view = VIEW_ICON)).
    set (m_img := with_image_settings (if icon then 100 else 24) icon m).
    set (flat := bool_decide (flat_column_idx m ≠ None)
                 && (bool_decide (new_view = VIEW_FLAT)
                     || bool_decide (new_view = VIEW_ICON))).
    set (m_flat := with_active_params (<["flat" := PScalar (SBool flat)]>) m_img).
    assert (Hrun : on_popup_view_changed new_view m
                   = Returned (if icon then icon_view else tree_view,
                               _refresh_view None None m_flat)).
    { unfold m_flat, m_img, flat, icon.
      destruct Hview as [ -> | [ -> | -> ] ]; reflexivity. }
    assert (Hflat : flat = bool_decide (flat_column_idx m ≠ None)
                           && bool_decide (new_view ≠ VIEW_TREE)).
    { unfold flat. f_equal.
      destruct Hview as [ -> | [ -> | -> ] ]; reflexivity. }
    assert (Hd' : where_is_dict (active_params m_flat)).
    { intros v. unfold m_flat, m_img. simpl.
      rewrite lookup_insert_ne by discriminate. apply Hd. }
    assert (Hw0 : where_of (active_params m_flat) = where_of (active_params m)).
    { unfold where_of, m_flat, m_img. simpl.
      rewrite lookup_insert_ne by discriminate. reflexivity. }
    destruct (refresh_view_where None None m_flat Hd') as (Hw & _ & _).
    destruct (refresh_view_query None None m_flat Hd') as [Hq _].
    unfold merged_where, default in Hw, Hq.
    rewrite (left_id_L ∅ (∪)) in Hw, Hq.
    assert (Hframe : ∀ {B} (proj : DataGridModel → B),
              (∀ f m, proj (with_active_params f m) = proj m) →
              (∀ f m, proj (with_row_id_mapper f m) = proj m) →
              (∀ f m, proj (with_rows f m) = proj m) →
              (∀ r m, proj (with_indices r m) = proj m) →
              (∀ e m, proj (with_log e m) = proj m) →
              proj (_refresh_view None None m_flat).2 = proj m_flat).
    { intros B proj Hp Hm Hr Hi Hl. unfold _refresh_view. rewrite bind_run.
      unfold get at 1. rewrite bind_run.
      destruct (refresh_view_params None None (active_params m_flat))
        as [params'|e]; unfold lift at 1; [|reflexivity].
      rewrite bind_run. unfold modify at 1.
      rewrite (refresh_frame proj Hp Hm Hr Hi Hl). apply Hp. }
    exists (if icon then icon_view else tree_view),
      (_refresh_view None None m_flat).1, (_refresh_view None None m_flat).2.
    split; [rewrite Hrun, <- surjective_pairing; reflexivity|].
    split; [reflexivity|].
    split; [rewrite (Hframe _ image_max_size) by reflexivity; reflexivity|].
    split; [rewrite (Hframe _ image_draw_border) by reflexivity; reflexivity|].
    split.
    { rewrite Hq. rewrite !lookup_delete_ne by discriminate.
      destruct (decide (where_of (active_params m_flat) = ∅)).
      - rewrite lookup_delete_ne by discriminate.
        unfold m_flat. simpl. rewrite lookup_insert_eq, Hflat. reflexivity.
      - rewrite lookup_insert_ne by discriminate.
        unfold m_flat. simpl. rewrite lookup_insert_eq, Hflat. reflexivity. }
    rewrite Hw. exact Hw0.
Qed.

Lemma view_switch_witness :
  let m := (bind_datasource Samples.flat_source).2 in
  ∃ r m',
    on_popup_view_changed VIEW_FLAT m = Returned (tree_view, (r, m'))
    ∧ active_params m' !! "flat" = Some (PScalar (SBool false))
    ∧ image_max_size m' = 24.
Proof.
  intros m.
  assert (Hd : where_is_dict (active_params m)).
  { intros v. vm_compute. discriminate. }
  destruct (view_switch VIEW_FLAT m) as [_ Hok].
  destruct (Hok (or_intror (or_introl eq_refl)) Hd)
    as (view & r & m' & Hrun & -> & Hsize & _ & Hflat & _).
  exists r, m'. split; [exact Hrun|]. split; [exact Hflat|exact Hsize].
Defined.

(** What a click on a header leaves in the query. *)
Lemma tvcol_clicked_params sort_order column (m : DataGridModel) :
  active_params (on_tvcol_clicked sort_order column m).2.2
  = delete "parent_id"
      (delete "page"
         (<["desc" := PScalar (SBool match sort_order with
                                     | DESCENDING => true
                                     | ASCENDING => false
                                     end)]>
            (<["order_by" := PScalar (SStr column)]> (active_params m)))).
Proof.
  unfold on_tvcol_clicked. cbn [snd]. rewrite bind_run. unfold modify at 1.
  match goal with
  | |- context [refresh ?m0] => destruct (refresh_active_params m0) as [Ha _]
  end.
  exact Ha.
Qed.

(** X24: sorting by a click on a header.  The next call on the data
    source is the [load] of the first page of the top level, ordered by
    the clicked column, descending exactly when the header showed the
    descending order before the click, with the [where] clauses as they
    were.  The view remembers the column with the opposite order, so on
    the headers built anew a second click on the same column reverses the
    direction, while a click on another column takes that header's
    default order. *)
Theorem tvcol_clicked_sorts (sort_order default_order : SortType)
    (column other : string) (m : DataGridModel) :
  let desc_of o := match o with DESCENDING => true | ASCENDING => false end in
  let s := (on_tvcol_clicked sort_order column m).1 in
  let m' := (on_tvcol_clicked sort_order column m).2.2 in
  (∃ query tail,
     log m' = log m ++ Load query :: tail
     ∧ query !! "order_by" = Some (PScalar (SStr column))
     ∧ query !! "desc" = Some (PScalar (SBool (desc_of sort_order)))
     ∧ query !! "page" = None
     ∧ query !! "parent_id" = None
     ∧ where_of query = where_of (active_params m))
  ∧ (∀ m2,
       let again :=
         on_tvcol_clicked (header_sort_order default_order s column)
           column m2 in
       active_params again.2.2 !! "desc"
       = Some (PScalar (SBool (negb (desc_of sort_order)))))
  ∧ (other ≠ column →
     ∀ m2,
       let elsewhere :=
         on_tvcol_clicked (header_sort_order default_order s other)
           other m2 in
       active_params elsewhere.2.2 !! "order_by" = Some (PScalar (SStr other))
       ∧ active_params elsewhere.2.2 !! "desc"
         = Some (PScalar (SBool (desc_of default_order)))).
Proof.
  intros desc_of s m'.
  assert (Hm' : active_params m'
                = delete "parent_id"
                    (delete "page"
                       (<["desc" := PScalar (SBool (desc_of sort_order))]>
                          (<["order_by" := PScalar (SStr column)]>
                             (active_params m)))))
    by apply tvcol_clicked_params.
  assert (Hs : s = {| active_sort_column := Some column;
                      active_sort_column_order :=
                        Some match sort_order with
                             | ASCENDING => DESCENDING
                             | DESCENDING => ASCENDING
                             end |}) by reflexivity.
  split; [|split].
  - assert (Hlog : ∃ tail, log m' = log m ++ Load (active_params m') :: tail).
    { unfold m', on_tvcol_clicked. cbn [snd]. rewrite bind_run.
      unfold modify at 1.
      match goal with
      | |- context [refresh ?m0] =>
          destruct (refresh_log m0) as [tail Hl];
          destruct (refresh_active_params m0) as [Ha _]
      end.
      exists tail. refine (eq_trans Hl _). f_equal. f_equal. f_equal.
      symmetry. exact Ha. }
    destruct Hlog as [tail Hl]. exists (active_params m'), tail.
    split; [exact Hl|]. rewrite Hm'.
    split; [rewrite !lookup_delete_ne, lookup_insert_ne, lookup_insert_eq
              by discriminate; reflexivity|].
    split; [rewrite !lookup_delete_ne, lookup_insert_eq by discriminate;
            reflexivity|].
    split; [rewrite lookup_delete_ne, lookup_delete_eq by discriminate;
            reflexivity|].
    split; [rewrite lookup_delete_eq; reflexivity|].
    unfold where_of. rewrite !lookup_delete_ne, !lookup_insert_ne
      by discriminate. reflexivity.
  - intros m2 again. unfold again. rewrite tvcol_clicked_params,
      !lookup_delete_ne, lookup_insert_eq by discriminate.
    rewrite Hs. unfold header_sort_order. cbn [active_sort_column
      active_sort_column_order]. rewrite bool_decide_eq_true_2 by reflexivity.
    destruct sort_order; reflexivity.
  - intros Hne m2 elsewhere. unfold elsewhere. rewrite tvcol_clicked_params.
    split; [rewrite !lookup_delete_ne, lookup_insert_ne, lookup_insert_eq
              by discriminate; reflexivity|].
    rewrite !lookup_delete_ne, lookup_insert_eq by discriminate.
    rewrite Hs. unfold header_sort_order. cbn [active_sort_column].
    rewrite bool_decide_eq_false_2 by congruence. reflexivity.
Qed.

Lemma tvcol_clicked_sorts_witness :
  let m := (bind_datasource Samples.flat_source).2 in
  let s := (on_tvcol_clicked ASCENDING "title" m).1 in
  let m' := (on_tvcol_clicked ASCENDING "title" m).2.2 in
  active_params
    (on_tvcol_clicked (header_sort_order ASCENDING s "id") "id" m').2.2
  !! "desc"
  = Some (PScalar (SBool false)).
Proof.
  intros m s m'.
  destruct (tvcol_clicked_sorts ASCENDING ASCENDING "title" "id" m)
    as (_ & _ & Helse).
  destruct (Helse ltac:(discriminate) m') as [_ Hdesc]. exact Hdesc.
Defined.
